(** * A shallow embedding of [strategy.py]

    The strategy simulator is a tick-driven program: the caller updates an
    [Instrument], then calls [PrototypeStrategyI.update], which asks one
    primary subroutine ([Chasing] or [TurningPoint]) for a signed trade
    proposal, lets [ThresholdControl] override it, and executes the result
    with [transact].

    Modelling conventions.
    - Prices, funds, units and all configured amounts are Python floats in
      the program; here they are rationals ([Q]) with exact arithmetic, and
      [/] is the division of floats, which raises on a zero divisor.
      Computed values are compared with [==] ([Qeq]); fields that the code
      does not touch stay equal with [=].
    - Flags that the code only ever assigns integer literals to
      ([direction], Chasing's [buysell], [stack], [cnt]) are integers ([Z]).
    - A Python list used as a history is a [list] that grows at its end;
      [l[-1]] is [last_item], which raises [IndexError] on the empty list.
    - A raised exception is [Err]; calls to [logger] are collected, in
      order, as [LogRecord]s.  A method that mutates [self] returns the new
      object next to its Python return value.
    - The instrument is shared by reference between the orchestrator and
      its subroutines and is only mutated by the caller between ticks; every
      method therefore takes the instrument it reads as an argument. *)

From Stdlib Require Import QArith Qabs Qminmax Qround Lqa Lia ZArith String.
From stdpp Require Import base option list strings gmap.

Open Scope Q_scope.

(** ** Python runtime: exceptions, logging, numbers *)

Inductive exn : Type :=
| ValueError (msg : string)
| ZeroDivisionError
| IndexError
| TypeError (msg : string).

(** One constructor per [logger] call of the source, carrying the values
    that the call formats. *)
Inductive LogRecord : Type :=
| WinningControl (gain ratio sellingUnit : Q)
| LosingControl (gain ratio sellingUnit : Q)
| InitIs (init : Q)
| GainIs (gain n_delta ratio : Q)
| RunningOutOfFunds (n : Q)
| N2Is (n2 : Q).

Inductive res (A : Type) : Type :=
| Ok (a : A)
| Err (e : exn).
Arguments Ok {A} a.
Arguments Err {A} e.

(** Computations that may raise and that write to the log. *)
Definition M (A : Type) : Type := res (A * list LogRecord).

Definition ret {A} (a : A) : M A := Ok (a, []).
Definition raise {A} (e : exn) : M A := Err e.
Definition logger (r : LogRecord) : M unit := Ok (tt, [r]).
Definition bind {A B} (m : M A) (f : A → M B) : M B :=
  match m with
  | Err e => Err e
  | Ok (a, l1) =>
      match f a with
      | Err e => Err e
      | Ok (b, l2) => Ok (b, l1 ++ l2)
      end
  end.

#[global] Instance M_ret : MRet M := @ret.
#[global] Instance M_bind : MBind M := λ A B f m, bind m f.

Definition Qltb (x y : Q) : bool := negb (Qle_bool y x).

(** [a / b] on floats. *)
Definition py_div (a b : Q) : M Q :=
  if Qeq_bool b 0 then raise ZeroDivisionError else ret (a / b).

(** [int(x)]: truncation towards zero. *)
Definition py_int (x : Q) : Z := Z.quot (Qnum x) (Zpos (Qden x)).

(** [l[-1]]. *)
Definition last_item {A} (l : list A) : M A :=
  match last l with
  | Some x => ret x
  | None => raise IndexError
  end.

(** A value of the orchestrator's configuration mapping: a float, or the
    text kept when the float coercion failed. *)
Inductive pyval : Type :=
| PyFloat (q : Q)
| PyStr (s : string).

Definition Timestamp : Type := Z.

(** ** Instrument

    What a subroutine reads from the instrument during a tick: the current
    price and the current timestamp, as set by [Instrument.update]. *)
Module Instrument.

Record t : Type := mk { price : Q; ts : Timestamp }.

Definition update (ts' : Timestamp) (price' : Q) (self : t) : t :=
  {| price := price'; ts := ts' |}.

End Instrument.

(** ** ThresholdControl *)
Module ThresholdControl.

Record t : Type := mk {
  prices : list Q;
  funds : list Q;
  units : list Q;
  total0 : Q;
  times : list Timestamp;
  winningPer : Q;
  losingPer : Q;
  sellingPerWin : Q;
  sellingPerLose : Q
}.

Section Float.

(** Python's [float] on a text value; the builtin is not part of the
    program, so its parser is a parameter. *)
Variable float_of_str : string → option Q.

Definition float (v : pyval) : M Q :=
  match v with
  | PyFloat q => ret q
  | PyStr s =>
      match float_of_str s with
      | Some q => ret q
      | None => raise (ValueError "could not convert string to float")
      end
  end.

(** [ThresholdControl.__init__]. *)
Definition init (inst : Instrument.t) (fund unit : Q)
    (winningPer losingPer sellingPerWin sellingPerLose : pyval) : M t :=
  let price := Instrument.price inst in
  winningPer ← float winningPer;
  if Qltb 1 winningPer then raise (ValueError "Winning Per incorrect") else
  losingPer ← float losingPer;
  if Qltb 1 losingPer then raise (ValueError "Losing Per incorrect") else
  sellingPerWin ← float sellingPerWin;
  sellingPerLose ← float sellingPerLose;
  if Qltb 1 sellingPerWin || Qltb 1 sellingPerLose
  then raise (ValueError "Selling Per incorrect") else
  mret {| prices := [price];
          funds := [fund];
          units := [unit];
          total0 := fund + unit * price;
          times := [Instrument.ts inst];
          winningPer := winningPer;
          losingPer := losingPer;
          sellingPerWin := sellingPerWin;
          sellingPerLose := sellingPerLose |}.

(** [ThresholdControl(inst, fund, unit, **kwargs)]: a key that names
    one of the parameters already bound by position ([self], which the
    call binds to the new object, [inst], [fund] and [unit]) is a
    [TypeError]; the four percentages are looked up by name, with the
    defaults of the signature; every other key is swallowed by
    [**kwargs]. *)
Definition init_kwargs (inst : Instrument.t) (fund unit : Q)
    (kwargs : gmap string pyval) : M t :=
  if bool_decide (is_Some (kwargs !! "self"))
     || bool_decide (is_Some (kwargs !! "inst"))
     || bool_decide (is_Some (kwargs !! "fund"))
     || bool_decide (is_Some (kwargs !! "unit"))
  then raise (TypeError "got multiple values for keyword argument") else
  init inst fund unit
    (default (PyFloat 0.4) (kwargs !! "winningPer"))
    (default (PyFloat 0.2) (kwargs !! "losingPer"))
    (default (PyFloat 0.5) (kwargs !! "sellingPerWin"))
    (default (PyFloat 1) (kwargs !! "sellingPerLose")).

End Float.

Definition with_history (self : t) (funds' units' : list Q) : t :=
  {| prices := prices self; funds := funds'; units := units';
     total0 := total0 self; times := times self;
     winningPer := winningPer self; losingPer := losingPer self;
     sellingPerWin := sellingPerWin self;
     sellingPerLose := sellingPerLose self |}.

Definition observe (inst : Instrument.t) (self : t) : t :=
  {| prices := prices self ++ [Instrument.price inst];
     funds := funds self; units := units self;
     total0 := total0 self;
     times := times self ++ [Instrument.ts inst];
     winningPer := winningPer self; losingPer := losingPer self;
     sellingPerWin := sellingPerWin self;
     sellingPerLose := sellingPerLose self |}.

(** The size and sign of a rebalancing trade: [abs(unit) * per], capped
    at [abs(unit)], negated when [unit > 0]. *)
Definition selling (unit per : Q) : Q :=
  let sellingUnit := Qabs unit * per in
  let sellingUnit :=
    if Qle_bool (Qabs unit) sellingUnit then Qabs unit else sellingUnit in
  if Qltb 0 unit then - sellingUnit else sellingUnit.

(** [ThresholdControl.update]. *)
Definition update (inst : Instrument.t) (self : t)
    (fundIn deltaUnit : Q) : M (Q * t) :=
  let self := observe inst self in
  let fund := fundIn in
  last_unit ← last_item (units self);
  let unit := last_unit + deltaUnit in
  if Qeq_bool unit 0 then mret (0, self) else
  price ← last_item (prices self);
  let total := fund + unit * price in
  let gain := total - total0 self in
  winning ←
    (if Qle_bool 0 gain
     then r ← py_div gain (total0 self); mret (Qle_bool (winningPer self) r)
     else mret false);
  if (winning : bool) then
    let sellingUnit := selling unit (sellingPerWin self) in
    ratio ← py_div gain (total0 self);
    logger (WinningControl gain ratio sellingUnit);;
    mret (sellingUnit,
          with_history self
            (funds self ++ [fund + sellingUnit * Instrument.price inst])
            (units self ++ [unit + sellingUnit]))
  else
  losing ←
    (if Qle_bool gain 0
     then r ← py_div gain (total0 self);
          mret (Qle_bool (losingPer self) (Qabs r))
     else mret false);
  if (losing : bool) then
    let sellingUnit := selling unit (sellingPerLose self) in
    ratio ← py_div gain (total0 self);
    logger (LosingControl gain ratio sellingUnit);;
    mret (sellingUnit,
          with_history self
            (funds self ++ [fund + sellingUnit * Instrument.price inst])
            (units self ++ [unit + sellingUnit]))
  else
    mret (0, with_history self (funds self ++ [fund]) (units self ++ [unit])).

End ThresholdControl.

(** The sign of a price move between two consecutive ticks: [1], [-1], or
    [0] when the price did not move. *)
Definition move (price0 price : Q) : Z :=
  if Qltb price0 price then 1%Z
  else if Qltb price price0 then (-1)%Z
  else 0%Z.

(** ** Chasing *)
Module Chasing.

Record t : Type := mk {
  mode : string;
  trend : Q;
  prices : list Q;
  times : list Timestamp;
  total : Q;
  direction : Z;
  high : Q;
  low : Q;
  init : Q;
  inc : Q;
  safetyamount : Q;
  stack : Z;
  buysell : Z;
  upper_limit : Q;
  lower_limit : Q;
  gap : Q;
  nextStepUp : Q;
  nextStepDown : Q
}.

(** [Chasing.__init__]; the defaults of the signature are [trend = 1],
    [mode_chase = "chase"], [gap = 5], [upper_limit = 1],
    [lower_limit = 0.5], [init = 50], [inc = 10], [safetyamount = 20]. *)
Definition new (inst : Instrument.t) (unit : Q) (trend : Q)
    (mode_chase : string) (gap upper_limit lower_limit init inc
    safetyamount : Q) : M t :=
  if negb (String.eqb mode_chase "chase" || String.eqb mode_chase "safety")
  then raise (ValueError "Unsupported mode of operation") else
  logger (InitIs init);;
  let trend := if negb (Qeq_bool trend (-1)) then 1 else trend in
  let price := Instrument.price inst in
  mret {| mode := mode_chase;
          trend := trend;
          prices := [price];
          times := [Instrument.ts inst];
          total := price * unit;
          direction := 0;
          high := -10000;
          low := 10000;
          init := init;
          inc := inc;
          safetyamount := safetyamount;
          stack := 0;
          buysell := 0;
          upper_limit := upper_limit;
          lower_limit := lower_limit;
          gap := gap;
          nextStepUp := price + gap;
          nextStepDown := price - gap |}.

(** Field assignments. *)
Definition observe (inst : Instrument.t) (s : t) : t :=
  mk (mode s) (trend s) (prices s ++ [Instrument.price inst])
     (times s ++ [Instrument.ts inst]) (total s) (direction s) (high s)
     (low s) (init s) (inc s) (safetyamount s) (stack s) (buysell s)
     (upper_limit s) (lower_limit s) (gap s) (nextStepUp s)
     (nextStepDown s).
Definition set_direction (v : Z) (s : t) : t :=
  mk (mode s) (trend s) (prices s) (times s) (total s) v (high s) (low s)
     (init s) (inc s) (safetyamount s) (stack s) (buysell s)
     (upper_limit s) (lower_limit s) (gap s) (nextStepUp s)
     (nextStepDown s).
Definition set_high (v : Q) (s : t) : t :=
  mk (mode s) (trend s) (prices s) (times s) (total s) (direction s) v
     (low s) (init s) (inc s) (safetyamount s) (stack s) (buysell s)
     (upper_limit s) (lower_limit s) (gap s) (nextStepUp s)
     (nextStepDown s).
Definition set_low (v : Q) (s : t) : t :=
  mk (mode s) (trend s) (prices s) (times s) (total s) (direction s)
     (high s) v (init s) (inc s) (safetyamount s) (stack s) (buysell s)
     (upper_limit s) (lower_limit s) (gap s) (nextStepUp s)
     (nextStepDown s).
Definition set_stack (v : Z) (s : t) : t :=
  mk (mode s) (trend s) (prices s) (times s) (total s) (direction s)
     (high s) (low s) (init s) (inc s) (safetyamount s) v (buysell s)
     (upper_limit s) (lower_limit s) (gap s) (nextStepUp s)
     (nextStepDown s).
Definition set_buysell (v : Z) (s : t) : t :=
  mk (mode s) (trend s) (prices s) (times s) (total s) (direction s)
     (high s) (low s) (init s) (inc s) (safetyamount s) (stack s) v
     (upper_limit s) (lower_limit s) (gap s) (nextStepUp s)
     (nextStepDown s).
Definition set_nextStepUp (v : Q) (s : t) : t :=
  mk (mode s) (trend s) (prices s) (times s) (total s) (direction s)
     (high s) (low s) (init s) (inc s) (safetyamount s) (stack s)
     (buysell s) (upper_limit s) (lower_limit s) (gap s) v
     (nextStepDown s).
Definition set_nextStepDown (v : Q) (s : t) : t :=
  mk (mode s) (trend s) (prices s) (times s) (total s) (direction s)
     (high s) (low s) (init s) (inc s) (safetyamount s) (stack s)
     (buysell s) (upper_limit s) (lower_limit s) (gap s) (nextStepUp s)
     v.

(** The reversal bookkeeping shared by the four mode/trend bodies: a
    down-turn records the previous price as [high], an up-turn as [low];
    then the new direction is stored. *)
Definition turn (price0 : Q) (dir : Z) (s : t) : t :=
  let s :=
    if (0 <? direction s)%Z && (dir <? 0)%Z then set_high price0 s
    else if (direction s <? 0)%Z && (0 <? dir)%Z then set_low price0 s
    else s in
  set_direction dir s.

(** mode = "chase", trend = 1. *)
Definition chase_up (price : Q) (s : t) : Q * t :=
  let s := if Qle_bool (nextStepUp s) price then set_buysell 1 s else s in
  if Qle_bool (nextStepUp s + upper_limit s) price then
    if (buysell s =? 1)%Z then
      let amount := init s - inject_Z (stack s) * inc s in
      let '(amount, s) :=
        if Qle_bool amount 0 then (0, s)
        else (amount, set_stack (stack s + 1) s) in
      let s := set_nextStepUp (price + gap s) s in
      let s := set_buysell 0 s in
      (amount, s)
    else (0, s)
  else if Qle_bool price (nextStepUp s - lower_limit s) then
    (0, set_buysell 0 s)
  else (0, s).

(** mode = "chase", trend = -1. *)
Definition chase_down (price : Q) (s : t) : Q * t :=
  let s :=
    if Qle_bool price (nextStepDown s) then set_buysell (-1) s else s in
  if Qle_bool price (nextStepDown s - lower_limit s) then
    if (buysell s =? -1)%Z then
      let amount := init s - inject_Z (stack s) * inc s in
      let amount := - amount in
      let '(amount, s) :=
        if Qle_bool 0 amount then (0, s)
        else (amount, set_stack (stack s + 1) s) in
      let s := set_nextStepDown (price - gap s) s in
      let s := set_buysell 0 s in
      (amount, s)
    else (0, s)
  else if Qle_bool (nextStepDown s + upper_limit s) price then
    (0, set_buysell 0 s)
  else (0, s).

(** mode = "safety", trend = 1. *)
Definition safety_up (price : Q) (dir : Z) (s : t) : Q * t :=
  if (buysell s =? 0)%Z then
    if Qle_bool (nextStepUp s) price then
      let s := set_buysell (-1) s in
      let s := set_nextStepUp (price + gap s) s in
      let s := set_nextStepDown (price - gap s) s in
      (0, s)
    else if Qle_bool price (nextStepDown s) then
      let s := set_buysell (-1) s in
      let s := set_nextStepDown (price - gap s) s in
      (0, s)
    else (0, s)
  else if (buysell s =? -1)%Z && (dir =? -1)%Z
          && Qle_bool (lower_limit s) (high s - price) then
    (- safetyamount s, set_buysell 0 s)
  else (0, s).

(** mode = "safety", trend = -1. *)
Definition safety_down (price : Q) (dir : Z) (s : t) : Q * t :=
  if (buysell s =? 0)%Z then
    if Qle_bool price (nextStepDown s) then
      let s := set_buysell 1 s in
      let s := set_nextStepUp (price + gap s) s in
      let s := set_nextStepDown (price - gap s) s in
      (0, s)
    else if Qle_bool (nextStepUp s) price then
      let s := set_buysell 1 s in
      let s := set_nextStepUp (price + gap s) s in
      (0, s)
    else (0, s)
  else if (buysell s =? 1)%Z && (dir =? 1)%Z
          && Qle_bool (lower_limit s) (price - low s) then
    (safetyamount s, set_buysell 0 s)
  else (0, s).

(** [Chasing.update]. *)
Definition update (inst : Instrument.t) (self : t) : M (Q * t) :=
  let price := Instrument.price inst in
  price0 ← last_item (prices self);
  let self := observe inst self in
  let dir := move price0 price in
  if (dir =? 0)%Z then mret (0, self) else
  if (direction self =? 0)%Z then mret (0, set_direction dir self) else
  let self := turn price0 dir self in
  if String.eqb (mode self) "chase" then
    if Qeq_bool (trend self) 1 then mret (chase_up price self)
    else mret (chase_down price self)
  else
    if Qeq_bool (trend self) 1 then mret (safety_up price dir self)
    else mret (safety_down price dir self).

End Chasing.

(** ** TurningPoint *)
Module TurningPoint.

Record t : Type := mk {
  buysell : Q;
  pt : Q;
  prices : list Q;
  times : list Timestamp;
  highs : list Q;
  n_delta : Q;
  h : Q;
  lows : list Q;
  gain : Q;
  gains : list Q;
  mode : string;
  selling : Q;
  buying : Q;
  cnt : Z;
  direction : Z;
  high : Q;
  low : Q
}.

(** [TurningPoint.__init__]; the defaults of the signature are
    [mode_turning = "increase"], [buysell = -1], [n = 10], [n_delta = 1],
    [h = 1.0]. *)
Definition new (inst : Instrument.t) (mode_turning : string)
    (buysell n n_delta h : Q) : M t :=
  let price := Instrument.price inst in
  if negb (String.eqb mode_turning "increase"
           || String.eqb mode_turning "decrease"
           || String.eqb mode_turning "size")
  then raise (ValueError "Mode error") else
  mret {| buysell := buysell;
          pt := price;
          prices := [price];
          times := [Instrument.ts inst];
          highs := [];
          n_delta := n_delta;
          h := h;
          lows := [];
          gain := 0;
          gains := [];
          mode := mode_turning;
          selling := n;
          buying := n;
          cnt := 0;
          direction := 0;
          high := -10000;
          low := 10000 |}.

(** Field assignments. *)
Definition observe (inst : Instrument.t) (s : t) : t :=
  mk (buysell s) (pt s) (prices s ++ [Instrument.price inst])
     (times s ++ [Instrument.ts inst]) (highs s) (n_delta s) (h s)
     (lows s) (gain s) (gains s) (mode s) (selling s) (buying s) (cnt s)
     (direction s) (high s) (low s).
Definition set_direction (v : Z) (s : t) : t :=
  mk (buysell s) (pt s) (prices s) (times s) (highs s) (n_delta s) (h s)
     (lows s) (gain s) (gains s) (mode s) (selling s) (buying s) (cnt s)
     v (high s) (low s).
Definition record_high (v : Q) (s : t) : t :=
  mk (buysell s) (pt s) (prices s) (times s) (highs s ++ [v]) (n_delta s)
     (h s) (lows s) (gain s) (gains s) (mode s) (selling s) (buying s)
     (cnt s) (direction s) v (low s).
Definition record_low (v : Q) (s : t) : t :=
  mk (buysell s) (pt s) (prices s) (times s) (highs s) (n_delta s) (h s)
     (lows s ++ [v]) (gain s) (gains s) (mode s) (selling s) (buying s)
     (cnt s) (direction s) (high s) v.
(** [self.gain -= amount * price; self.buysell = flag]. *)
Definition trade (amount price flag : Q) (s : t) : t :=
  mk flag (pt s) (prices s) (times s) (highs s) (n_delta s) (h s)
     (lows s) (gain s - amount * price) (gains s) (mode s) (selling s)
     (buying s) (cnt s) (direction s) (high s) (low s).
Definition append_gain (s : t) : t :=
  mk (buysell s) (pt s) (prices s) (times s) (highs s) (n_delta s) (h s)
     (lows s) (gain s) (gains s ++ [gain s]) (mode s) (selling s)
     (buying s) (cnt s) (direction s) (high s) (low s).
Definition incr_cnt (s : t) : t :=
  mk (buysell s) (pt s) (prices s) (times s) (highs s) (n_delta s) (h s)
     (lows s) (gain s) (gains s) (mode s) (selling s) (buying s)
     (cnt s + 1) (direction s) (high s) (low s).
Definition add_buying (d : Q) (s : t) : t :=
  mk (buysell s) (pt s) (prices s) (times s) (highs s) (n_delta s) (h s)
     (lows s) (gain s) (gains s) (mode s) (selling s) (buying s + d)
     (cnt s) (direction s) (high s) (low s).
Definition add_selling (d : Q) (s : t) : t :=
  mk (buysell s) (pt s) (prices s) (times s) (highs s) (n_delta s) (h s)
     (lows s) (gain s) (gains s) (mode s) (selling s + d) (buying s)
     (cnt s) (direction s) (high s) (low s).

Definition turn (price0 : Q) (dir : Z) (s : t) : t :=
  let s :=
    if (0 <? direction s)%Z && (dir <? 0)%Z then record_high price0 s
    else if (direction s <? 0)%Z && (0 <? dir)%Z then record_low price0 s
    else s in
  set_direction dir s.

(** The trade decision of a tick: the amount and the object after the
    ledger debit and the flip of the pending side. *)
Definition decide_trade (price : Q) (dir : Z) (s : t) : Q * t :=
  if Qeq_bool (buysell s) 1 && (dir =? 1)%Z
     && Qle_bool (h s) (price - low s) then
    let amount := buying s in
    (amount, trade amount price (-1) s)
  else if Qeq_bool (buysell s) (-1) && (dir =? -1)%Z
          && Qle_bool (h s) (high s - price) then
    let amount := - selling s in
    (amount, trade amount price 1 s)
  else (0, s).

(** The adaptive step computed after a trade. *)
Definition step (price : Q) (s : t) : M Q :=
  let n_delta := n_delta s in
  r ← py_div (gain s) price;
  let n_delta := if Qltb r n_delta then inject_Z (py_int r) else n_delta in
  ratio ← py_div (gain s) price;
  logger (GainIs (gain s) n_delta ratio);;
  mret (if Qltb n_delta 0 then 0 else n_delta).

Definition adapt (d : Q) (s : t) : t :=
  if String.eqb (mode s) "increase" then add_buying d s
  else if String.eqb (mode s) "decrease" then add_selling d s
  else add_selling d (add_buying d s).

(** [TurningPoint.update]. *)
Definition update (inst : Instrument.t) (self : t) : M (Q * t) :=
  price0 ← last_item (prices self);
  let price := Instrument.price inst in
  let self := observe inst self in
  let dir := move price0 price in
  if (dir =? 0)%Z then mret (0, self) else
  if (direction self =? 0)%Z then mret (0, set_direction dir self) else
  let self := turn price0 dir self in
  let '(amount, self) := decide_trade price dir self in
  let self := append_gain self in
  if negb (Qeq_bool amount 0) then
    let self := incr_cnt self in
    d ← step price self;
    mret (amount, adapt d self)
  else mret (amount, self).

End TurningPoint.

(** ** PrototypeStrategyI, the orchestrator

    The object as [update] and [transact] find it.  Its constructor coerces
    the configuration into [kwargs] and builds the three subroutines from
    it; what the properties below use of that is stated where it is used:
    the controller accepts [kwargs], since the constructor has built one
    from it. *)
Module PrototypeStrategyI.

(** An order: [(inst.ts, inst.price, n, src)]. *)
Definition order : Type := Timestamp * Q * Q * string.

Record t : Type := mk {
  mode : string;
  fund : Q;
  unit : Q;
  total0 : Q;
  unitInit : Q;
  ts : list Timestamp;
  funds : list Q;
  units : list Q;
  gains : list Q;
  orders : list order;
  prices : list Q;
  kwargs : gmap string pyval;
  ThresholdControlRoutine : ThresholdControl.t;
  ChasingRoutine : Chasing.t;
  TurningPointRoutine : TurningPoint.t
}.

(** Field assignments. *)
Definition set_balance (fund' unit' : Q) (s : t) : t :=
  mk (mode s) fund' unit' (total0 s) (unitInit s) (ts s) (funds s)
     (units s) (gains s) (orders s) (prices s) (kwargs s)
     (ThresholdControlRoutine s) (ChasingRoutine s)
     (TurningPointRoutine s).
Definition append_order (o : order) (s : t) : t :=
  mk (mode s) (fund s) (unit s) (total0 s) (unitInit s) (ts s) (funds s)
     (units s) (gains s) (orders s ++ [o]) (prices s) (kwargs s)
     (ThresholdControlRoutine s) (ChasingRoutine s)
     (TurningPointRoutine s).
Definition snapshot (inst : Instrument.t) (s : t) : t :=
  mk (mode s) (fund s) (unit s) (total0 s) (unitInit s)
     (ts s ++ [Instrument.ts inst]) (funds s ++ [fund s])
     (units s ++ [unit s])
     (gains s ++ [fund s + unit s * Instrument.price inst - total0 s])
     (orders s) (prices s ++ [Instrument.price inst]) (kwargs s)
     (ThresholdControlRoutine s) (ChasingRoutine s)
     (TurningPointRoutine s).
Definition set_ThresholdControlRoutine (r : ThresholdControl.t) (s : t)
    : t :=
  mk (mode s) (fund s) (unit s) (total0 s) (unitInit s) (ts s) (funds s)
     (units s) (gains s) (orders s) (prices s) (kwargs s) r
     (ChasingRoutine s) (TurningPointRoutine s).
Definition set_ChasingRoutine (r : Chasing.t) (s : t) : t :=
  mk (mode s) (fund s) (unit s) (total0 s) (unitInit s) (ts s) (funds s)
     (units s) (gains s) (orders s) (prices s) (kwargs s)
     (ThresholdControlRoutine s) r (TurningPointRoutine s).
Definition set_TurningPointRoutine (r : TurningPoint.t) (s : t) : t :=
  mk (mode s) (fund s) (unit s) (total0 s) (unitInit s) (ts s) (funds s)
     (units s) (gains s) (orders s) (prices s) (kwargs s)
     (ThresholdControlRoutine s) (ChasingRoutine s) r.

(** [PrototypeStrategyI.transact]. *)
Definition transact (inst : Instrument.t) (n : Q) (src : string)
    (self : t) : M t :=
  let price := Instrument.price inst in
  self ←
    (if Qle_bool (fund self - price * n) 0 then
       logger (RunningOutOfFunds n);;
       newn ← py_div (fund self) price;
       mret (set_balance 0 (unit self + newn) self)
     else
       mret (set_balance (fund self - price * n) (unit self + n) self));
  mret (append_order (Instrument.ts inst, price, n, src) self).

(** The primary proposal of a tick: [ChasingRoutine.update()] when the
    mode is ["chase"], [TurningPointRoutine.update()] otherwise. *)
Definition primary (inst : Instrument.t) (self : t) : M (Q * t) :=
  if String.eqb (mode self) "chase" then
    '(n, r) ← Chasing.update inst (ChasingRoutine self);
    mret (n, set_ChasingRoutine r self)
  else
    '(n, r) ← TurningPoint.update inst (TurningPointRoutine self);
    mret (n, set_TurningPointRoutine r self).

Section Float.

Variable float_of_str : string → option Q.

(** [PrototypeStrategyI.update]. *)
Definition update (inst : Instrument.t) (self : t) : M t :=
  let self := snapshot inst self in
  '(n, self) ← primary inst self;
  '(n2, r) ← ThresholdControl.update inst (ThresholdControlRoutine self)
               (fund self) n;
  let self := set_ThresholdControlRoutine r self in
  if Qeq_bool n2 0 then
    if negb (Qeq_bool n 0) then transact inst n (mode self) self
    else mret self
  else
    logger (N2Is n2);;
    self ← transact inst n2 "thresholdcontrol" self;
    r ← ThresholdControl.init_kwargs float_of_str inst (fund self)
          (unit self) (kwargs self);
    mret (set_ThresholdControlRoutine r self).

End Float.

End PrototypeStrategyI.

(** ** The instrument as an object

    The class [Instrument] itself, of which [Instrument.t] above is the
    reading that the subroutines take during a tick.  The current price
    lives in the [data] dictionary under the key "price"; before the first
    update the key is missing and the [price] property returns the NaN
    sentinel.  The price series is the list of its (index, value) entries,
    which [update] reads back from the object it has just written. *)

(** What the [price] property returns: a number, or [float('nan')]. *)
Inductive pyfloat : Type :=
| Finite (q : Q)
| NaN.

(** A constructor argument whose type is tested with [type(id) != int]. *)
Inductive pyarg : Type :=
| PyInt (z : Z)
| PyOther (v : pyval).

Module InstrumentObj.

Record t : Type := mk {
  type : string;
  id : Z;
  current_raw : gmap string pyval;
  data : gmap string Q;
  symbol : string;
  name : string;
  ts : option Timestamp;
  prices : list (option Timestamp * pyfloat);
  holdings : Z
}.

(** The [price] property. *)
Definition price (self : t) : pyfloat :=
  match data self !! "price" with
  | Some p => Finite p
  | None => NaN
  end.

(** [Instrument.__init__]; the default of [itype] is "stock". *)
Definition new (id : pyarg) (name sym itype : string) : M t :=
  if negb (String.eqb itype "future" || String.eqb itype "stock")
  then raise (ValueError "Type of Instrument is not supported") else
  match id with
  | PyOther _ => raise (ValueError "Your instrument id is invalid")
  | PyInt id =>
      mret {| type := itype;
              id := id;
              current_raw := ∅;
              data := ∅;
              symbol := sym;
              name := name;
              ts := None;
              prices := [];
              holdings := 0 |}
  end.

(** [Instrument.update]. *)
Definition update (ts' : Timestamp) (price' : Q) (self : t) : t :=
  let self :=
    mk (type self) (id self) (current_raw self)
       (<["price" := price']> (data self)) (symbol self) (name self)
       (ts self) (prices self) (holdings self) in
  let self :=
    mk (type self) (id self) (current_raw self) (data self) (symbol self)
       (name self) (Some ts') (prices self) (holdings self) in
  mk (type self) (id self) (current_raw self) (data self) (symbol self)
     (name self) (ts self) (prices self ++ [(ts self, price self)])
     (holdings self).

(** What a subroutine holding this instrument reads during a tick, once
    the instrument has been updated. *)
Definition reading (self : t) : option Instrument.t :=
  match price self, ts self with
  | Finite p, Some t =>
      Some {| Instrument.price := p; Instrument.ts := t |}
  | _, _ => None
  end.

End InstrumentObj.

(** * Scenarios

    Concrete instruments, objects and configurations on which the
    definitions above are run. *)
Module Scenario.

(** A [float] parser that rejects every text. *)
Definition no_float (s : string) : option Q := None.

Definition inst_at (ts : Timestamp) (price : Q) : Instrument.t :=
  {| Instrument.price := price; Instrument.ts := ts |}.
Arguments inst_at ts%_Z price%_Q.

(** Runs one [update] per tick, each tick being the instrument as the
    caller has updated it, and collects the amounts returned. *)
Fixpoint feed {S : Type} (update : Instrument.t → S → M (Q * S))
    (ticks : list Instrument.t) (s : S) : M (list Q * S) :=
  match ticks with
  | [] => mret ([], s)
  | inst :: ticks =>
      '(n, s) ← update inst s;
      '(ns, s) ← feed update ticks s;
      mret (n :: ns, s)
  end.

(** [Chasing(inst, 0, trend=1, mode_chase=mode, gap=5, upper_limit=1)]
    with the other defaults, at price 100. *)
Definition chasing_at_100 (mode : string) : M Chasing.t :=
  Chasing.new (inst_at 0 100) 0 1 mode 5 1 0.5 50 10 20.

(** The state of [chasing_at_100 "safety"] after a first tick at 99:
    idle, falling, thresholds still at 105 and 95. *)
Definition safety_falling : Chasing.t :=
  {| Chasing.mode := "safety";
     Chasing.trend := 1;
     Chasing.prices := [100; 99];
     Chasing.times := [0%Z; 1%Z];
     Chasing.total := 0;
     Chasing.direction := -1;
     Chasing.high := -10000;
     Chasing.low := 10000;
     Chasing.init := 50;
     Chasing.inc := 10;
     Chasing.safetyamount := 20;
     Chasing.stack := 0;
     Chasing.buysell := 0;
     Chasing.upper_limit := 1;
     Chasing.lower_limit := 0.5;
     Chasing.gap := 5;
     Chasing.nextStepUp := 105;
     Chasing.nextStepDown := 95 |}.

(** [TurningPoint(inst, n_delta=1.5)] with the other defaults, at price
    130. *)
Definition turning_at_130 : M TurningPoint.t :=
  TurningPoint.new (inst_at 0 130) "increase" (-1) 10 1.5 1.

(** A controller anchored at [total0 = 1000] (fund 0 and 10 units at
    price 100) with the default percentages. *)
Definition tc_default : ThresholdControl.t :=
  {| ThresholdControl.prices := [100];
     ThresholdControl.funds := [0];
     ThresholdControl.units := [10];
     ThresholdControl.total0 := 1000;
     ThresholdControl.times := [0%Z];
     ThresholdControl.winningPer := 0.4;
     ThresholdControl.losingPer := 0.2;
     ThresholdControl.sellingPerWin := 0.5;
     ThresholdControl.sellingPerLose := 1 |}.

(** The same controller with [losingPer = 0]. *)
Definition tc_stop_at_zero : ThresholdControl.t :=
  {| ThresholdControl.prices := [100];
     ThresholdControl.funds := [0];
     ThresholdControl.units := [10];
     ThresholdControl.total0 := 1000;
     ThresholdControl.times := [0%Z];
     ThresholdControl.winningPer := 0.4;
     ThresholdControl.losingPer := 0;
     ThresholdControl.sellingPerWin := 0.5;
     ThresholdControl.sellingPerLose := 1 |}.

(** The state of [turning_at_130] after a first tick at 133: a sell is
    pending and the market is rising. *)
Definition turning_rising : TurningPoint.t :=
  {| TurningPoint.buysell := -1;
     TurningPoint.pt := 130;
     TurningPoint.prices := [130; 133];
     TurningPoint.times := [0%Z; 1%Z];
     TurningPoint.highs := [];
     TurningPoint.n_delta := 1.5;
     TurningPoint.h := 1;
     TurningPoint.lows := [];
     TurningPoint.gain := 0;
     TurningPoint.gains := [];
     TurningPoint.mode := "increase";
     TurningPoint.selling := 10;
     TurningPoint.buying := 10;
     TurningPoint.cnt := 0;
     TurningPoint.direction := 1;
     TurningPoint.high := -10000;
     TurningPoint.low := 10000 |}.

(** The configuration mapping of a run in chase mode that sets two of
    the percentages. *)
Definition config : gmap string pyval :=
  {[ "mode_chase" := PyStr "chase";
     "winningPer" := PyFloat 0.4;
     "sellingPerWin" := PyFloat 0.5 ]}.

(** The state of [chasing_at_100 "chase"] after ticks at 102 and 104:
    rising, idle, [nextStepUp] still at 105. *)
Definition chase_rising : Chasing.t :=
  {| Chasing.mode := "chase";
     Chasing.trend := 1;
     Chasing.prices := [100; 102; 104];
     Chasing.times := [0%Z; 1%Z; 2%Z];
     Chasing.total := 0;
     Chasing.direction := 1;
     Chasing.high := -10000;
     Chasing.low := 10000;
     Chasing.init := 50;
     Chasing.inc := 10;
     Chasing.safetyamount := 20;
     Chasing.stack := 0;
     Chasing.buysell := 0;
     Chasing.upper_limit := 1;
     Chasing.lower_limit := 0.5;
     Chasing.gap := 5;
     Chasing.nextStepUp := 105;
     Chasing.nextStepDown := 95 |}.

(** [chasing_at_100 "safety"] as constructed. *)
Definition safety_idle : Chasing.t :=
  {| Chasing.mode := "safety";
     Chasing.trend := 1;
     Chasing.prices := [100];
     Chasing.times := [0%Z];
     Chasing.total := 0;
     Chasing.direction := 0;
     Chasing.high := -10000;
     Chasing.low := 10000;
     Chasing.init := 50;
     Chasing.inc := 10;
     Chasing.safetyamount := 20;
     Chasing.stack := 0;
     Chasing.buysell := 0;
     Chasing.upper_limit := 1;
     Chasing.lower_limit := 0.5;
     Chasing.gap := 5;
     Chasing.nextStepUp := 105;
     Chasing.nextStepDown := 95 |}.

(** [ThresholdControl(inst, 500, 0)] with the defaults, at price 100. *)
Definition tc_flat : ThresholdControl.t :=
  {| ThresholdControl.prices := [100];
     ThresholdControl.funds := [500];
     ThresholdControl.units := [0];
     ThresholdControl.total0 := 500;
     ThresholdControl.times := [0%Z];
     ThresholdControl.winningPer := 0.4;
     ThresholdControl.losingPer := 0.2;
     ThresholdControl.sellingPerWin := 0.5;
     ThresholdControl.sellingPerLose := 1 |}.

(** [TurningPoint(inst)] with the defaults, at price 100, never
    updated. *)
Definition turning_idle : TurningPoint.t :=
  {| TurningPoint.buysell := -1;
     TurningPoint.pt := 100;
     TurningPoint.prices := [100];
     TurningPoint.times := [0%Z];
     TurningPoint.highs := [];
     TurningPoint.n_delta := 1;
     TurningPoint.h := 1;
     TurningPoint.lows := [];
     TurningPoint.gain := 0;
     TurningPoint.gains := [];
     TurningPoint.mode := "increase";
     TurningPoint.selling := 10;
     TurningPoint.buying := 10;
     TurningPoint.cnt := 0;
     TurningPoint.direction := 0;
     TurningPoint.high := -10000;
     TurningPoint.low := 10000 |}.

(** The state of [chasing_at_100 "chase"] after ticks at 102, 104, 106,
    103 and 111: one purchase made, a turn down from 106 and a turn up
    from 103 recorded, [nextStepUp] moved to 111 and the buy flag armed
    again. *)
Definition chase_armed : Chasing.t :=
  {| Chasing.mode := "chase";
     Chasing.trend := 1;
     Chasing.prices := [100; 102; 104; 106; 103; 111];
     Chasing.times := [0%Z; 1%Z; 2%Z; 3%Z; 4%Z; 5%Z];
     Chasing.total := 0;
     Chasing.direction := 1;
     Chasing.high := 106;
     Chasing.low := 103;
     Chasing.init := 50;
     Chasing.inc := 10;
     Chasing.safetyamount := 20;
     Chasing.stack := 1;
     Chasing.buysell := 1;
     Chasing.upper_limit := 1;
     Chasing.lower_limit := 0.5;
     Chasing.gap := 5;
     Chasing.nextStepUp := 111;
     Chasing.nextStepDown := 95 |}.

(** The state of [turning_at_130] after ticks at 133, 132, 99 and 100:
    ten units sold at 132 and 11.5 bought at 100, both extrema recorded,
    the buying size grown twice. *)
Definition turning_traded : TurningPoint.t :=
  {| TurningPoint.buysell := -1;
     TurningPoint.pt := 130;
     TurningPoint.prices := [130; 133; 132; 99; 100];
     TurningPoint.times := [0%Z; 1%Z; 2%Z; 3%Z; 4%Z];
     TurningPoint.highs := [133];
     TurningPoint.n_delta := 1.5;
     TurningPoint.h := 1;
     TurningPoint.lows := [99];
     TurningPoint.gain := 170.0;
     TurningPoint.gains := [1320; 1320; 170.0];
     TurningPoint.mode := "increase";
     TurningPoint.selling := 10;
     TurningPoint.buying := 13.00;
     TurningPoint.cnt := 2;
     TurningPoint.direction := 1;
     TurningPoint.high := 133;
     TurningPoint.low := 99 |}.

(** The state of [tc_default] after an [update(0, 0)] at price 79, which
    took the losing branch and closed the position. *)
Definition tc_closed : ThresholdControl.t :=
  {| ThresholdControl.prices := [100; 79];
     ThresholdControl.funds := [0; -790];
     ThresholdControl.units := [10; 0];
     ThresholdControl.total0 := 1000;
     ThresholdControl.times := [0%Z; 1%Z];
     ThresholdControl.winningPer := 0.4;
     ThresholdControl.losingPer := 0.2;
     ThresholdControl.sellingPerWin := 0.5;
     ThresholdControl.sellingPerLose := 1 |}.

(** A strategy in chase mode constructed at price 100 with the given
    fund and unit, after the ticks at 102 and 104, during which nothing
    was traded. *)
Definition strategy_chasing (fund unit : Q) : PrototypeStrategyI.t :=
  {| PrototypeStrategyI.mode := "chase";
     PrototypeStrategyI.fund := fund;
     PrototypeStrategyI.unit := unit;
     PrototypeStrategyI.total0 := fund + unit * 100;
     PrototypeStrategyI.unitInit := 0;
     PrototypeStrategyI.ts := [1%Z; 2%Z];
     PrototypeStrategyI.funds := [fund; fund];
     PrototypeStrategyI.units := [unit; unit];
     PrototypeStrategyI.gains :=
       [fund + unit * 102 - (fund + unit * 100);
        fund + unit * 104 - (fund + unit * 100)];
     PrototypeStrategyI.orders := [];
     PrototypeStrategyI.prices := [102; 104];
     PrototypeStrategyI.kwargs := config;
     PrototypeStrategyI.ThresholdControlRoutine :=
       {| ThresholdControl.prices := [100; 102; 104];
          ThresholdControl.funds := [fund; fund; fund];
          ThresholdControl.units := [unit; unit; unit];
          ThresholdControl.total0 := fund + unit * 100;
          ThresholdControl.times := [0%Z; 1%Z; 2%Z];
          ThresholdControl.winningPer := 0.4;
          ThresholdControl.losingPer := 0.2;
          ThresholdControl.sellingPerWin := 0.5;
          ThresholdControl.sellingPerLose := 1 |};
     PrototypeStrategyI.ChasingRoutine := chase_rising;
     PrototypeStrategyI.TurningPointRoutine := turning_idle |}.

End Scenario.

(** * Derived notions

    The two threshold tests of [ThresholdControl.update] as functions of
    the gain, and the adaptive step of [TurningPoint.update] as a function
    of the configured [n_delta] and of the ratio [r = gain / price]: the
    code keeps [n_delta] when [n_delta <= r] and takes [int(r)] otherwise,
    then floors at 0. *)

Definition winning_test (self : ThresholdControl.t) (gain : Q) : bool :=
  Qle_bool 0 gain
  && Qle_bool (ThresholdControl.winningPer self)
       (gain / ThresholdControl.total0 self).

Definition losing_test (self : ThresholdControl.t) (gain : Q) : bool :=
  Qle_bool gain 0
  && Qle_bool (ThresholdControl.losingPer self)
       (Qabs (gain / ThresholdControl.total0 self)).

Definition clipped_step (n_delta r : Q) : Q :=
  if Qle_bool n_delta r then Qmax 0 n_delta
  else Qmax 0 (inject_Z (py_int r)).

(** * Properties *)

(** ** Reasoning about the runtime *)

Lemma Qltb_lt (x y : Q) : Qltb x y = true ↔ x < y.
Proof.
  unfold Qltb. rewrite negb_true_iff, <- not_true_iff_false, Qle_bool_iff.
  split; [apply Qnot_le_lt | apply Qlt_not_le].
Qed.

Lemma Qltb_ge (x y : Q) : Qltb x y = false ↔ y <= x.
Proof. unfold Qltb. rewrite negb_false_iff. apply Qle_bool_iff. Qed.

Lemma Qle_bool_gt (x y : Q) : Qle_bool x y = false ↔ y < x.
Proof.
  rewrite <- not_true_iff_false, Qle_bool_iff.
  split; [apply Qnot_le_lt | apply Qlt_not_le].
Qed.

Lemma Qeq_bool_ne (x y : Q) : Qeq_bool x y = false ↔ ¬ x == y.
Proof. rewrite <- not_true_iff_false, Qeq_bool_iff. tauto. Qed.

Lemma py_div_ok (a b : Q) : ¬ b == 0 → py_div a b = Ok (a / b, []).
Proof.
  intros Hb. unfold py_div. apply Qeq_bool_ne in Hb. now rewrite Hb.
Qed.

Lemma bind_ret {A B} (a : A) (f : A → M B) : (ret a ≫= f) = f a.
Proof.
  unfold mbind, M_bind, bind, ret. destruct (f a) as [[b l]|e]; reflexivity.
Qed.

Lemma bind_Ok {A B} (m : M A) (f : A → M B) (a : A) (b : B)
    (l l1 l2 : list LogRecord) :
  m = Ok (a, l1) → f a = Ok (b, l2) → l = l1 ++ l2 →
  (m ≫= f) = Ok (b, l).
Proof.
  intros -> Hf ->. unfold mbind, M_bind, bind. now rewrite Hf.
Qed.

Ltac unfold_M := unfold mbind, M_bind, bind, mret, M_ret, ret, logger, raise.

(** Closed comparisons of rationals, by evaluation. *)
Ltac qcompute := vm_compute; congruence.

(** ** The orchestrator's [transact] *)

Section Transact.

Import PrototypeStrategyI.

(** C1: from a state with [fund >= 0] at a price [> 0], [transact] returns
    for every signed quantity [n], never leaves [fund] negative, appends
    exactly one order, and either clips (fund becomes 0, unit is credited
    by fund/price) when [fund - price*n <= 0], or debits [price*n] and
    credits [n]. *)
Theorem transact_never_overdraws (inst : Instrument.t) (n : Q)
    (src : string) (self : PrototypeStrategyI.t) :
  0 <= fund self →
  0 < Instrument.price inst →
  ∃ self' log,
    transact inst n src self = Ok (self', log) ∧
    0 <= fund self' ∧
    orders self' =
      orders self ++ [(Instrument.ts inst, Instrument.price inst, n, src)] ∧
    (fund self - Instrument.price inst * n <= 0 →
       fund self' == 0 ∧
       unit self' == unit self + fund self / Instrument.price inst) ∧
    (¬ fund self - Instrument.price inst * n <= 0 →
       fund self' == fund self - Instrument.price inst * n ∧
       unit self' == unit self + n).
Proof.
  intros Hfund Hprice. unfold transact.
  destruct (Qle_bool (fund self - Instrument.price inst * n) 0) eqn:Hclip.
  - apply Qle_bool_iff in Hclip.
    unfold_M. rewrite py_div_ok by lra. simpl.
    eexists _, _. split; [reflexivity|]. simpl.
    repeat split; try reflexivity; try lra.
  - apply Qle_bool_gt in Hclip.
    unfold_M. simpl.
    eexists _, _. split; [reflexivity|]. simpl.
    repeat split; try reflexivity; try lra.
Qed.

(** A request to buy 1000 units at price 106 with a fund of 530: the trade
    is clipped to 5 units and the fund is emptied. *)
Lemma transact_never_overdraws_witness :
  ∃ self' log,
    transact (Scenario.inst_at 3 106) 1000 "other"
      (Scenario.strategy_chasing 530 0) = Ok (self', log) ∧
    fund self' == 0 ∧
    unit self' == 5 ∧
    orders self' = [(3%Z, 106, 1000, "other")].
Proof.
  destruct (transact_never_overdraws (Scenario.inst_at 3 106) 1000 "other"
              (Scenario.strategy_chasing 530 0))
    as (self' & log & Htr & _ & Hord & Hclip & _); [qcompute | qcompute |].
  exists self', log. split; [exact Htr|].
  destruct Hclip as [Hfund Hunit]; [qcompute|].
  split; [exact Hfund|]. split; [rewrite Hunit; qcompute | exact Hord].
Defined.

End Transact.

(** ** ThresholdControl *)

Section ThresholdControlProps.

Import ThresholdControl.

(** The capped size of a rebalancing trade is a minimum, and its sign is
    opposite to the sign of [unit]. *)
Lemma selling_pos (unit per : Q) :
  0 < unit → selling unit per == - Qmin (Qabs unit) (Qabs unit * per).
Proof.
  intros Hu. unfold selling. apply Qltb_lt in Hu. rewrite Hu.
  destruct (Qle_bool (Qabs unit) (Qabs unit * per)) eqn:Hcap.
  - apply Qle_bool_iff in Hcap. now rewrite Q.min_l.
  - apply Qle_bool_gt in Hcap. rewrite Q.min_r; [reflexivity | lra].
Qed.

Lemma selling_neg (unit per : Q) :
  unit <= 0 → selling unit per == Qmin (Qabs unit) (Qabs unit * per).
Proof.
  intros Hu. unfold selling. apply Qltb_ge in Hu. rewrite Hu.
  destruct (Qle_bool (Qabs unit) (Qabs unit * per)) eqn:Hcap.
  - apply Qle_bool_iff in Hcap. now rewrite Q.min_l.
  - apply Qle_bool_gt in Hcap. rewrite Q.min_r; [reflexivity | lra].
Qed.

Lemma Qmin_abs_nonneg (unit per : Q) :
  0 <= per → 0 <= Qmin (Qabs unit) (Qabs unit * per).
Proof.
  intros Hper. pose proof (Qabs_nonneg unit) as Hu.
  apply Q.min_glb; [assumption | nra].
Qed.

(** What [update] does once the new [unit] is nonzero and the baseline is
    nonzero, as one equation per branch. *)
Lemma update_unfold (inst : Instrument.t) (self : t)
    (fundIn deltaUnit last_unit : Q) :
  last (units self) = Some last_unit →
  ¬ last_unit + deltaUnit == 0 →
  ¬ total0 self == 0 →
  let unit := last_unit + deltaUnit in
  let gain := fundIn + unit * Instrument.price inst - total0 self in
  let obs := observe inst self in
  update inst self fundIn deltaUnit =
    if winning_test self gain then
      let n := selling unit (sellingPerWin self) in
      Ok ((n, with_history obs
                (funds self ++ [fundIn + n * Instrument.price inst])
                (units self ++ [unit + n])),
          [WinningControl gain (gain / total0 self) n])
    else if losing_test self gain then
      let n := selling unit (sellingPerLose self) in
      Ok ((n, with_history obs
                (funds self ++ [fundIn + n * Instrument.price inst])
                (units self ++ [unit + n])),
          [LosingControl gain (gain / total0 self) n])
    else
      Ok ((0, with_history obs (funds self ++ [fundIn])
                (units self ++ [unit])), []).
Proof.
  intros Hlast Hunit Htotal0 unit gain obs.
  unfold update, winning_test, losing_test. fold obs.
  replace (units obs) with (units self) by reflexivity.
  replace (prices obs) with (prices self ++ [Instrument.price inst])
    by reflexivity.
  replace (funds obs) with (funds self) by reflexivity.
  replace (total0 obs) with (total0 self) by reflexivity.
  replace (winningPer obs) with (winningPer self) by reflexivity.
  replace (losingPer obs) with (losingPer self) by reflexivity.
  replace (sellingPerWin obs) with (sellingPerWin self) by reflexivity.
  replace (sellingPerLose obs) with (sellingPerLose self) by reflexivity.
  unfold last_item. rewrite Hlast, last_snoc.
  apply Qeq_bool_ne in Hunit.
  unfold_M. rewrite Hunit. fold unit gain.
  rewrite !(py_div_ok _ _ Htotal0).
  destruct (Qle_bool 0 gain); cbn [andb].
  - destruct (Qle_bool (winningPer self) (gain / total0 self));
      [reflexivity|].
    destruct (Qle_bool gain 0); cbn [andb]; [|reflexivity].
    destruct (Qle_bool (losingPer self) (Qabs (gain / total0 self)));
      reflexivity.
  - destruct (Qle_bool gain 0); cbn [andb]; [|reflexivity].
    destruct (Qle_bool (losingPer self) (Qabs (gain / total0 self)));
      reflexivity.
Qed.

Lemma winning_test_iff (self : t) (gain : Q) :
  winning_test self gain = true ↔
  0 <= gain ∧ winningPer self <= gain / total0 self.
Proof.
  unfold winning_test. now rewrite andb_true_iff, !Qle_bool_iff.
Qed.

Lemma losing_test_iff (self : t) (gain : Q) :
  losing_test self gain = true ↔
  gain <= 0 ∧ losingPer self <= Qabs (gain / total0 self).
Proof.
  unfold losing_test. now rewrite andb_true_iff, !Qle_bool_iff.
Qed.

(** With a zero baseline and a nonzero unit, [update] divides by zero. *)
Lemma update_zero_baseline (inst : Instrument.t) (self : t)
    (fundIn deltaUnit last_unit : Q) :
  last (units self) = Some last_unit →
  ¬ last_unit + deltaUnit == 0 →
  total0 self == 0 →
  update inst self fundIn deltaUnit = Err ZeroDivisionError.
Proof.
  intros Hlast Hunit Hzero. unfold update.
  replace (units (observe inst self)) with (units self) by reflexivity.
  replace (prices (observe inst self))
    with (prices self ++ [Instrument.price inst]) by reflexivity.
  replace (total0 (observe inst self)) with (total0 self) by reflexivity.
  unfold last_item, py_div. rewrite Hlast, last_snoc.
  apply Qeq_bool_ne in Hunit. apply Qeq_bool_iff in Hzero.
  unfold_M. rewrite Hunit, Hzero.
  set (gain := fundIn + (last_unit + deltaUnit) * Instrument.price inst
               - total0 self).
  destruct (Qle_bool 0 gain) eqn:Hpos; [reflexivity|].
  apply Qle_bool_gt in Hpos.
  assert (Hneg : Qle_bool gain 0 = true) by (apply Qle_bool_iff; lra).
  rewrite Hneg. reflexivity.
Qed.

(** C3 (as the code has it): when the new [unit] is nonzero, [update]
    raises [ZeroDivisionError] if the baseline [total0] is 0, and returns
    otherwise.  When it returns, it takes the winning branch, observed by
    its "Winning Control" log record, exactly when [gain >= 0] and
    [gain / total0 >= winningPer], boundary included (total0 = 1000,
    winningPer = 0.4, gain = 400 takes it).  The returned delta is then
    [s = min(|unit|, |unit| * sellingPerWin)] negated when [unit > 0] and
    as it is when [unit < 0].  With [sellingPerWin > 0] its magnitude is
    [s] and it moves [unit] toward zero without passing it; with
    [sellingPerWin = 0] it is 0; with [sellingPerWin < 0] its magnitude is
    [|unit| * |sellingPerWin|], which is not [s], and it moves [unit]
    away from zero.  The new fund/unit history entries reflect that
    trade. *)
Theorem winning_branch_inclusive (inst : Instrument.t) (self : t)
    (fundIn deltaUnit last_unit : Q) :
  last (units self) = Some last_unit →
  ¬ last_unit + deltaUnit == 0 →
  let unit := last_unit + deltaUnit in
  let gain := fundIn + unit * Instrument.price inst - total0 self in
  let size := Qmin (Qabs unit) (Qabs unit * sellingPerWin self) in
  (total0 self == 0 →
     update inst self fundIn deltaUnit = Err ZeroDivisionError) ∧
  (¬ total0 self == 0 →
   ∃ n self' log,
    update inst self fundIn deltaUnit = Ok ((n, self'), log) ∧
    ((∃ g r s, log = [WinningControl g r s]) ↔
       0 <= gain ∧ winningPer self <= gain / total0 self) ∧
    (0 <= gain ∧ winningPer self <= gain / total0 self →
       log = [WinningControl gain (gain / total0 self) n] ∧
       (0 < unit → n == - size) ∧
       (unit < 0 → n == size) ∧
       (0 <= sellingPerWin self → Qabs n == size) ∧
       (0 < sellingPerWin self →
          (0 < unit → n < 0 ∧ 0 <= unit + n) ∧
          (unit < 0 → 0 < n ∧ unit + n <= 0)) ∧
       (sellingPerWin self == 0 → n == 0) ∧
       (sellingPerWin self < 0 →
          Qabs n == Qabs unit * - sellingPerWin self ∧
          ¬ Qabs n == size ∧
          (0 < unit → 0 < n) ∧ (unit < 0 → n < 0)) ∧
       units self' = units self ++ [unit + n] ∧
       funds self' = funds self ++ [fundIn + n * Instrument.price inst]) ∧
    (total0 self == 1000 → winningPer self == 0.4 → gain == 400 →
       ∃ r, log = [WinningControl gain r n])).
Proof.
  intros Hlast Hunit unit gain size.
  split; [intros Hzero; now apply (update_zero_baseline _ _ _ _ last_unit)|].
  intros Htotal0.
  rewrite (update_unfold _ _ _ _ _ Hlast Hunit Htotal0). fold unit gain.
  destruct (winning_test self gain) eqn:Hwin.
  - apply winning_test_iff in Hwin. cbv zeta.
    eexists _, _, _. split; [reflexivity|].
    split; [split; [intros _; exact Hwin | intros _; eauto]|].
    split; [|intros _ _ _; eauto].
    intros _. split; [reflexivity|].
    assert (Hpos : 0 < unit → selling unit (sellingPerWin self) == - size)
      by apply selling_pos.
    assert (Hneg : unit < 0 → selling unit (sellingPerWin self) == size)
      by (intros Hu; apply selling_neg; lra).
    assert (Habs : 0 < Qabs unit).
    { fold unit in Hunit. destruct (Qlt_le_dec unit 0) as [Hu|Hu].
      - rewrite Qabs_neg by lra. lra.
      - rewrite Qabs_pos by lra. lra. }
    assert (Hle : 0 < unit → Qabs unit == unit)
      by (intros Hu; apply Qabs_pos; lra).
    assert (Hge : unit < 0 → Qabs unit == - unit)
      by (intros Hu; apply Qabs_neg; lra).
    split; [exact Hpos|]. split; [exact Hneg|].
    split.
    { intros Hper. pose proof (Qmin_abs_nonneg unit _ Hper) as Hsz.
      fold size in Hsz.
      destruct (Qlt_le_dec 0 unit) as [Hu|Hu].
      - rewrite (Hpos Hu), Qabs_opp. now apply Qabs_pos.
      - rewrite Hneg by (fold unit in Hunit; lra). now apply Qabs_pos. }
    split.
    { intros Hper.
      assert (Hsz : 0 < size ∧ size <= Qabs unit).
      { unfold size. split; [apply Q.min_glb_lt; [exact Habs | nra]|].
        apply Q.le_min_l. }
      split; intros Hu;
        [rewrite (Hpos Hu), <- (Hle Hu) at 1
        | rewrite (Hneg Hu)]; [|specialize (Hge Hu)]; lra. }
    split.
    { intros Hper.
      assert (Hsz : size == 0).
      { unfold size. rewrite Hper, Q.min_r; [ring | nra]. }
      destruct (Qlt_le_dec 0 unit) as [Hu|Hu].
      - rewrite (Hpos Hu), Hsz. reflexivity.
      - rewrite Hneg by (fold unit in Hunit; lra). exact Hsz. }
    split; [|split; reflexivity].
    intros Hper.
    assert (Hprod : Qabs unit * sellingPerWin self < 0) by nra.
    assert (Hsz : size == Qabs unit * sellingPerWin self).
    { unfold size. apply Q.min_r. lra. }
    assert (Hn : Qabs (selling unit (sellingPerWin self))
                 == Qabs unit * - sellingPerWin self).
    { destruct (Qlt_le_dec 0 unit) as [Hu|Hu].
      - rewrite (Hpos Hu), Hsz, Qabs_pos; [ring | lra].
      - rewrite Hneg by (fold unit in Hunit; lra).
        rewrite Hsz, Qabs_neg; [ring | lra]. }
    split; [exact Hn|]. split.
    { rewrite Hn, Hsz. lra. }
    split; intros Hu; [rewrite (Hpos Hu) | rewrite (Hneg Hu)]; lra.
  - assert (Hnot : ¬ (0 <= gain ∧ winningPer self <= gain / total0 self)).
    { rewrite <- winning_test_iff, Hwin. discriminate. }
    assert (Hboundary :
      total0 self == 1000 → winningPer self == 0.4 → gain == 400 → False).
    { intros H0 Hw Hg. apply Hnot. rewrite H0, Hw, Hg. split; [lra|].
      apply Qle_bool_iff. reflexivity. }
    destruct (losing_test self gain); cbv zeta;
      eexists _, _, _; (split; [reflexivity|]);
      (split; [split; [intros (g & r & s & Hlog); discriminate Hlog
                      | intros H; destruct (Hnot H)]|]);
      (split; [intros H; destruct (Hnot H)
              | intros H0 Hw Hg; destruct (Hboundary H0 Hw Hg)]).
Qed.

(** The winning branch on the boundary: total0 = 1000, winningPer = 0.4 and
    ten units at price 140 give gain = 400; half of the position is
    sold. *)
Lemma winning_branch_inclusive_witness :
  ∃ n self' log,
    update (Scenario.inst_at 1 140) Scenario.tc_default 0 0
      = Ok ((n, self'), log) ∧
    (∃ r, log = [WinningControl (0 + (10 + 0) * 140 - 1000) r n]) ∧
    n == -5.
Proof.
  destruct (winning_branch_inclusive (Scenario.inst_at 1 140)
              Scenario.tc_default 0 0 10) as [_ Hret].
  - reflexivity.
  - qcompute.
  - destruct Hret as (n & self' & log & Hupd & Hiff & Hwin & Hboundary);
      [qcompute|].
    exists n, self', log. split; [exact Hupd|]. split.
    + apply Hboundary; qcompute.
    + destruct Hwin as (_ & Hpos & _).
      * split; qcompute.
      * rewrite Hpos by qcompute. qcompute.
Defined.

(** C3 fails as stated: construction accepts [sellingPerWin = -0.5], and
    with it a winning tick on ten units (gain = 400 on a baseline of 1000)
    returns +5: the delta is positive although [unit > 0], so the position
    grows to 15, and its magnitude 5 is not
    [min(|unit|, |unit| * sellingPerWin) = -5]. *)
Lemma negative_sellingPerWin_buys_more :
  let inst := Scenario.inst_at 1 140 in
  ∃ self,
    init Scenario.no_float (Scenario.inst_at 0 100) 0 10
      (PyFloat 0.4) (PyFloat 0.2) (PyFloat (-0.5)) (PyFloat 1)
      = Ok (self, []) ∧
    last (units self) = Some 10 ∧
    let unit := 10 + 0 in
    let gain := 0 + unit * Instrument.price inst - total0 self in
    ¬ unit == 0 ∧ 0 < unit ∧
    0 <= gain ∧ winningPer self <= gain / total0 self ∧
    ∃ n self' log,
      update inst self 0 0 = Ok ((n, self'), log) ∧
      log = [WinningControl gain (gain / total0 self) n] ∧
      n == 5 ∧ ¬ n < 0 ∧
      ¬ Qabs n == Qmin (Qabs unit) (Qabs unit * sellingPerWin self) ∧
      last (units self') = Some (unit + n) ∧ unit + n == 15.
Proof.
  cbv zeta. eexists. split; [reflexivity|].
  split; [reflexivity|].
  repeat (split; [qcompute|]).
  eexists _, _, _. split; [vm_compute; reflexivity|].
  split; [reflexivity|].
  repeat split; qcompute.
Qed.

(** C4 (as the code has it): at [gain = 0] the winning test is evaluated
    first and succeeds exactly when [winningPer <= 0]; when it fails, the
    losing test is evaluated and succeeds exactly when [losingPer <= 0];
    when both fail the tick takes no action. *)
Theorem zero_gain_resolution (inst : Instrument.t) (self : t)
    (fundIn deltaUnit last_unit : Q) :
  last (units self) = Some last_unit →
  ¬ last_unit + deltaUnit == 0 →
  ¬ total0 self == 0 →
  let unit := last_unit + deltaUnit in
  let gain := fundIn + unit * Instrument.price inst - total0 self in
  gain == 0 →
  ∃ n self' log,
    update inst self fundIn deltaUnit = Ok ((n, self'), log) ∧
    (winningPer self <= 0 →
       n = selling unit (sellingPerWin self) ∧
       log = [WinningControl gain (gain / total0 self) n]) ∧
    (0 < winningPer self → losingPer self <= 0 →
       n = selling unit (sellingPerLose self) ∧
       log = [LosingControl gain (gain / total0 self) n]) ∧
    (0 < winningPer self → 0 < losingPer self → n = 0 ∧ log = []).
Proof.
  intros Hlast Hunit Htotal0 unit gain Hgain.
  rewrite (update_unfold _ _ _ _ _ Hlast Hunit Htotal0). fold unit gain.
  assert (Hratio : gain / total0 self == 0) by (rewrite Hgain; field; easy).
  assert (Hwin : winning_test self gain = true ↔ winningPer self <= 0).
  { rewrite winning_test_iff, Hratio, Hgain. split; [tauto|]. split; [lra|easy]. }
  assert (Hlose : losing_test self gain = true ↔ losingPer self <= 0).
  { rewrite losing_test_iff, Hratio, Hgain. change (Qabs 0) with 0.
    split; [tauto|]. split; [lra|easy]. }
  destruct (winning_test self gain).
  - assert (winningPer self <= 0) by now apply Hwin.
    cbv zeta. eexists _, _, _. split; [reflexivity|].
    repeat split; intros; try reflexivity; lra.
  - assert (0 < winningPer self).
    { apply Qnot_le_lt. intros H. apply Hwin in H. discriminate H. }
    destruct (losing_test self gain).
    + assert (losingPer self <= 0) by now apply Hlose.
      cbv zeta. eexists _, _, _. split; [reflexivity|].
      repeat split; intros; try reflexivity; lra.
    + assert (0 < losingPer self).
      { apply Qnot_le_lt. intros H'. apply Hlose in H'. discriminate H'. }
      eexists _, _, _. split; [reflexivity|].
      repeat split; intros; try reflexivity; lra.
Qed.

(** With the default percentages, ten units at the construction price give
    gain = 0 and no action. *)
Lemma zero_gain_resolution_witness :
  ∃ self', update (Scenario.inst_at 1 100) Scenario.tc_default 0 0
           = Ok ((0, self'), []).
Proof.
  destruct (zero_gain_resolution (Scenario.inst_at 1 100)
              Scenario.tc_default 0 0 10)
    as (n & self' & log & Hupd & _ & _ & Hnone).
  - reflexivity.
  - qcompute.
  - qcompute.
  - qcompute.
  - destruct Hnone as [-> ->]; [qcompute..|].
    exists self'. exact Hupd.
Defined.

(** C4 fails as stated: with winningPer = 0.4 and losingPer = 0, both in
    [0,1], a tick with gain = 0 and unit = 10 takes the losing branch and
    sells the whole position. *)
Lemma zero_gain_takes_losing_branch :
  let self := Scenario.tc_stop_at_zero in
  let inst := Scenario.inst_at 1 100 in
  (0 <= winningPer self <= 1) ∧ (0 <= losingPer self <= 1) ∧
  last (units self) = Some 10 ∧
  0 + (10 + 0) * Instrument.price inst - total0 self == 0 ∧
  ∃ g r n self',
    update inst self 0 0 = Ok ((n, self'), [LosingControl g r n]) ∧
    n == -10.
Proof.
  cbv zeta. repeat split; try qcompute.
  eexists _, _, _, _. split; [vm_compute; reflexivity | qcompute].
Qed.

Section Construction.

Variable float_of_str : string → option Q.

(** C9 (as the code has it): construction from four numbers succeeds
    exactly when each of them is at most 1, and raises [ValueError] as soon
    as one of them exceeds 1; there is no lower bound. *)
Theorem init_checks_upper_bound (inst : Instrument.t) (fund unit : Q)
    (wp lp spw spl : Q) :
  ((∃ self, init float_of_str inst fund unit (PyFloat wp) (PyFloat lp)
              (PyFloat spw) (PyFloat spl) = Ok (self, []))
   ↔ wp <= 1 ∧ lp <= 1 ∧ spw <= 1 ∧ spl <= 1) ∧
  ((1 < wp ∨ 1 < lp ∨ 1 < spw ∨ 1 < spl)
   ↔ ∃ msg, init float_of_str inst fund unit (PyFloat wp) (PyFloat lp)
              (PyFloat spw) (PyFloat spl) = Err (ValueError msg)).
Proof.
  unfold init, float. unfold_M.
  destruct (Qltb 1 wp) eqn:Hwp;
    [apply Qltb_lt in Hwp | apply Qltb_ge in Hwp].
  { split; split.
    - intros [self H]; discriminate H.
    - intros (H & _); lra.
    - eauto.
    - auto. }
  destruct (Qltb 1 lp) eqn:Hlp;
    [apply Qltb_lt in Hlp | apply Qltb_ge in Hlp].
  { split; split.
    - intros [self H]; discriminate H.
    - intros (_ & H & _); lra.
    - eauto.
    - auto. }
  destruct (Qltb 1 spw) eqn:Hspw;
    [apply Qltb_lt in Hspw | apply Qltb_ge in Hspw]; cbn [orb].
  { split; split.
    - intros [self H]; discriminate H.
    - intros (_ & _ & H & _); lra.
    - eauto.
    - auto. }
  destruct (Qltb 1 spl) eqn:Hspl;
    [apply Qltb_lt in Hspl | apply Qltb_ge in Hspl].
  { split; split.
    - intros [self H]; discriminate H.
    - intros (_ & _ & _ & H); lra.
    - eauto.
    - auto. }
  split; split.
  - auto.
  - eauto.
  - intros [H|[H|[H|H]]]; lra.
  - intros [msg H]; discriminate H.
Qed.

End Construction.

(** C9 fails as stated: a negative percentage is accepted. *)
Lemma init_accepts_negative :
  ¬ (0 <= -0.5) ∧
  ∃ self,
    init Scenario.no_float (Scenario.inst_at 0 100) 1000 0
      (PyFloat (-0.5)) (PyFloat 0.2) (PyFloat 0.5) (PyFloat 1)
      = Ok (self, []) ∧
    winningPer self = -0.5.
Proof.
  split; [qcompute|].
  eexists. split; reflexivity.
Qed.

End ThresholdControlProps.

(** ** Chasing *)

Section ChasingProps.

Import Chasing.

Lemma move_zero_iff (price0 price : Q) :
  move price0 price = 0%Z ↔ price == price0.
Proof.
  unfold move.
  destruct (Qltb price0 price) eqn:Hup;
    [apply Qltb_lt in Hup | apply Qltb_ge in Hup].
  { split; [discriminate | lra]. }
  destruct (Qltb price price0) eqn:Hdown;
    [apply Qltb_lt in Hdown | apply Qltb_ge in Hdown].
  { split; [discriminate | lra]. }
  split; [lra | reflexivity].
Qed.

(** The confirming tick of chase mode, trend = 1: once the price is at
    least [nextStepUp + upper_limit] with the buy armed (or armed by this
    very price), the amount is [max(0, init - stack * inc)], the stack
    grows by one when that amount is positive, [nextStepUp] moves to
    [price + gap] and the flag is cleared. *)
Lemma chase_up_confirms (price : Q) (s : t) :
  nextStepUp s + upper_limit s <= price →
  buysell s = 1%Z ∨ nextStepUp s <= price →
  let size := init s - inject_Z (stack s) * inc s in
  let '(amount, s') := chase_up price s in
  amount == Qmax 0 size ∧
  stack s' = (if Qle_bool size 0 then stack s else stack s + 1)%Z ∧
  nextStepUp s' = price + gap s ∧
  buysell s' = 0%Z.
Proof.
  intros Hconfirm Harmed size. unfold chase_up.
  assert (Harm : buysell (if Qle_bool (nextStepUp s) price
                          then set_buysell 1 s else s) = 1%Z).
  { destruct (Qle_bool (nextStepUp s) price) eqn:Hcross; [reflexivity|].
    apply Qle_bool_gt in Hcross. destruct Harmed; [assumption | lra]. }
  set (s1 := if Qle_bool (nextStepUp s) price then set_buysell 1 s else s)
    in *.
  assert (Hsame : nextStepUp s1 = nextStepUp s ∧
                  upper_limit s1 = upper_limit s ∧ init s1 = init s ∧
                  stack s1 = stack s ∧ inc s1 = inc s ∧ gap s1 = gap s).
  { unfold s1. destruct (Qle_bool (nextStepUp s) price); repeat split. }
  destruct Hsame as (Hup & Hlim & Hinit & Hstack & Hinc & Hgap).
  apply Qle_bool_iff in Hconfirm. rewrite Hup, Hlim, Hconfirm, Harm.
  cbn [Z.eqb Pos.eqb]. rewrite Hinit, Hstack, Hinc. fold size.
  destruct (Qle_bool size 0) eqn:Hsize; cbn; rewrite ?Hgap, ?Hstack.
  - apply Qle_bool_iff in Hsize.
    repeat split. now rewrite Q.max_l.
  - apply Qle_bool_gt in Hsize.
    repeat split. rewrite Q.max_r; [reflexivity | lra].
Qed.

(** C5: constructed at price 100 in chase mode with trend = 1, gap = 5,
    upper_limit = 1, init = 50, inc = 10 (so nextStepUp = 105, stack = 0)
    and fed 102, 104, 106, 111, the subroutine returns 0, 0, 50, 0: one buy
    of 50, at the tick whose price reaches nextStepUp + upper_limit = 106,
    and the stack is 1 afterwards.  On that tick the size is
    max(0, init - stack * inc), nextStepUp becomes price + gap and the armed
    flag is cleared. *)
Theorem chase_path_emits_one_buy :
  let ticks := [Scenario.inst_at 1 102; Scenario.inst_at 2 104;
                Scenario.inst_at 3 106; Scenario.inst_at 4 111] in
  ∃ c0 c2 c3 c4,
    Scenario.chasing_at_100 "chase" = Ok (c0, [InitIs 50]) ∧
    (mode c0 = "chase" ∧ trend c0 = 1 ∧ gap c0 = 5 ∧ upper_limit c0 = 1 ∧
     init c0 = 50 ∧ inc c0 = 10 ∧ stack c0 = 0%Z ∧ nextStepUp c0 == 105) ∧
    Scenario.feed update ticks c0 = Ok (([0; 0; 50; 0], c4), []) ∧
    stack c4 = 1%Z ∧
    Scenario.feed update (take 2 ticks) c0 = Ok (([0; 0], c2), []) ∧
    nextStepUp c2 + upper_limit c2 <= 106 ∧
    update (Scenario.inst_at 3 106) c2 = Ok ((50, c3), []) ∧
    50 == Qmax 0 (init c2 - inject_Z (stack c2) * inc c2) ∧
    stack c3 = 1%Z ∧
    nextStepUp c3 == 106 + gap c2 ∧
    buysell c3 = 0%Z.
Proof.
  cbv zeta. eexists _, _, _, _.
  split; [vm_compute; reflexivity|].
  split; [repeat split; qcompute|].
  split; [vm_compute; reflexivity|].
  split; [reflexivity|].
  split; [vm_compute; reflexivity|].
  split; [qcompute|].
  split; [vm_compute; reflexivity|].
  repeat split; qcompute.
Qed.

(** What [update] does on a tick that moves the price once a direction has
    been recorded: it appends to the histories, does the reversal
    bookkeeping and runs the body selected by mode and trend. *)
Lemma update_moving (inst : Instrument.t) (self : t) (price0 : Q) :
  last (prices self) = Some price0 →
  ¬ Instrument.price inst == price0 →
  direction self ≠ 0%Z →
  let price := Instrument.price inst in
  let dir := move price0 price in
  let s := turn price0 dir (observe inst self) in
  update inst self =
    Ok (if String.eqb (mode self) "chase" then
          if Qeq_bool (trend self) 1 then chase_up price s
          else chase_down price s
        else
          if Qeq_bool (trend self) 1 then safety_up price dir s
          else safety_down price dir s, []).
Proof.
  intros Hlast Hmove Hdir price dir s.
  unfold update, last_item. rewrite Hlast. unfold_M.
  fold price dir.
  assert (Hne : (dir =? 0)%Z = false).
  { apply Z.eqb_neq. unfold dir, price. now rewrite move_zero_iff. }
  rewrite Hne.
  replace (direction (observe inst self)) with (direction self)
    by reflexivity.
  apply Z.eqb_neq in Hdir. rewrite Hdir. fold s.
  replace (mode s) with (mode self)
    by (unfold s, turn; repeat case_match; reflexivity).
  replace (trend s) with (trend self)
    by (unfold s, turn; repeat case_match; reflexivity).
  destruct (String.eqb (mode self) "chase"), (Qeq_bool (trend self) 1);
    reflexivity.
Qed.

(** C6 (as the code has it): in safety mode with trend = 1, on a tick that
    moves the price while idle, once a direction has been recorded: a price
    at or above [nextStepUp] arms the sell and resets both thresholds
    around the price; otherwise a price at or below [nextStepDown] arms the
    sell and resets [nextStepDown] only, [nextStepUp] keeping its value;
    otherwise nothing is armed.  No amount is returned in any case. *)
Theorem safety_up_arming (inst : Instrument.t) (self : t) (price0 : Q) :
  last (prices self) = Some price0 →
  ¬ Instrument.price inst == price0 →
  direction self ≠ 0%Z →
  mode self = "safety" →
  trend self == 1 →
  buysell self = 0%Z →
  let price := Instrument.price inst in
  ∃ n self',
    update inst self = Ok ((n, self'), []) ∧ n = 0 ∧
    (nextStepUp self <= price →
       buysell self' = (-1)%Z ∧
       nextStepUp self' = price + gap self ∧
       nextStepDown self' = price - gap self) ∧
    (price < nextStepUp self → price <= nextStepDown self →
       buysell self' = (-1)%Z ∧
       nextStepUp self' = nextStepUp self ∧
       nextStepDown self' = price - gap self) ∧
    (price < nextStepUp self → nextStepDown self < price →
       buysell self' = 0%Z ∧
       nextStepUp self' = nextStepUp self ∧
       nextStepDown self' = nextStepDown self).
Proof.
  intros Hlast Hmove Hdir Hmode Htrend Hidle price.
  rewrite (update_moving _ _ _ Hlast Hmove Hdir). fold price.
  rewrite Hmode. apply Qeq_bool_iff in Htrend. rewrite Htrend.
  cbn [String.eqb Ascii.eqb Bool.eqb].
  set (dir := move price0 price).
  set (s := turn price0 dir (observe inst self)).
  assert (Hs : buysell s = buysell self ∧ nextStepUp s = nextStepUp self ∧
               nextStepDown s = nextStepDown self ∧ gap s = gap self).
  { unfold s, turn. repeat case_match; repeat split. }
  destruct Hs as (Hb & Hu & Hd & Hg). clearbody s.
  unfold safety_up. rewrite Hb, Hidle, Hu, Hd. cbn [Z.eqb].
  destruct (Qle_bool (nextStepUp self) price) eqn:Hup;
    [apply Qle_bool_iff in Hup | apply Qle_bool_gt in Hup].
  { eexists _, _. split; [reflexivity|]. cbn. rewrite Hg.
    repeat split; intros; try reflexivity; lra. }
  destruct (Qle_bool price (nextStepDown self)) eqn:Hdown;
    [apply Qle_bool_iff in Hdown | apply Qle_bool_gt in Hdown].
  { eexists _, _. split; [reflexivity|]. cbn. rewrite Hg, Hu.
    repeat split; intros; try reflexivity; lra. }
  eexists _, _. split; [reflexivity|]. rewrite Hb, Hu, Hd.
  repeat split; intros; try assumption; try reflexivity; lra.
Qed.

(** The idle safety-mode subroutine on a falling market, ticked at 94,
    which is below [nextStepDown = 95]. *)
Lemma safety_up_arming_witness :
  ∃ self',
    update (Scenario.inst_at 2 94) Scenario.safety_falling
      = Ok ((0, self'), []) ∧
    buysell self' = (-1)%Z ∧
    nextStepUp self' = 105 ∧
    nextStepDown self' = 94 - 5.
Proof.
  destruct (safety_up_arming (Scenario.inst_at 2 94)
              Scenario.safety_falling 99)
    as (n & self' & Hupd & -> & _ & Hdown & _);
    [reflexivity | qcompute | discriminate | reflexivity | qcompute
    | reflexivity | ].
  exists self'. split; [exact Hupd|]. apply Hdown; qcompute.
Defined.

(** C6 fails as stated: constructed at 100 with gap 5 and ticked at 99 and
    then at 94, the idle subroutine is armed by the fall to [nextStepDown];
    [nextStepDown] is reset to 94 - 5 but [nextStepUp] stays at 105 instead
    of becoming 94 + 5. *)
Lemma safety_fall_keeps_nextStepUp :
  ∃ c0 c2,
    Scenario.chasing_at_100 "safety" = Ok (c0, [InitIs 50]) ∧
    update (Scenario.inst_at 1 99) c0
      = Ok ((0, Scenario.safety_falling), []) ∧
    (mode Scenario.safety_falling = "safety" ∧
     trend Scenario.safety_falling == 1 ∧
     buysell Scenario.safety_falling = 0%Z ∧
     last (prices Scenario.safety_falling) = Some 99 ∧
     94 <= nextStepDown Scenario.safety_falling) ∧
    update (Scenario.inst_at 2 94) Scenario.safety_falling
      = Ok ((0, c2), []) ∧
    buysell c2 = (-1)%Z ∧
    nextStepDown c2 == 94 - gap Scenario.safety_falling ∧
    nextStepUp c2 == 105 ∧
    ¬ nextStepUp c2 == 94 + gap Scenario.safety_falling.
Proof.
  eexists _, _.
  split; [vm_compute; reflexivity|].
  split; [vm_compute; reflexivity|].
  split; [repeat split; qcompute|].
  split; [vm_compute; reflexivity|].
  repeat split; qcompute.
Qed.

(** The first move after construction only records the direction, even
    when it crosses a threshold: constructed at 100 and ticked at 106, above
    [nextStepUp = 105], the subroutine stays idle and keeps both
    thresholds. *)
Lemma safety_first_move_only_records :
  ∃ c0 c1,
    Scenario.chasing_at_100 "safety" = Ok (c0, [InitIs 50]) ∧
    c0 = Scenario.safety_idle ∧
    nextStepUp c0 <= 106 ∧
    update (Scenario.inst_at 1 106) c0 = Ok ((0, c1), []) ∧
    direction c1 = 1%Z ∧
    buysell c1 = 0%Z ∧
    nextStepUp c1 = nextStepUp c0 ∧
    nextStepDown c1 = nextStepDown c0.
Proof.
  eexists _, _.
  split; [vm_compute; reflexivity|].
  split; [reflexivity|].
  split; [qcompute|].
  split; [vm_compute; reflexivity|].
  repeat split.
Qed.

End ChasingProps.

(** ** TurningPoint *)

Section TurningPointProps.

Import TurningPoint.

(** [int] agrees with the floor on non-negative numbers and is never
    positive on negative ones. *)
Lemma py_int_nonneg (x : Q) : 0 <= x → py_int x = Qfloor x.
Proof.
  destruct x as [n d]. unfold Qle, py_int, Qfloor. cbn. intros Hn.
  apply Z.quot_div_nonneg; lia.
Qed.

Lemma py_int_neg (x : Q) : x < 0 → (py_int x <= 0)%Z.
Proof.
  destruct x as [n d]. unfold Qlt, py_int. cbn. intros Hn.
  replace n with (- (- n))%Z by lia.
  rewrite Z.quot_opp_l by lia.
  pose proof (Z.quot_pos (- n) (Z.pos d)). lia.
Qed.

Lemma Qfloor_neg (x : Q) : x < 0 → (Qfloor x < 0)%Z.
Proof.
  intros Hx. pose proof (Qfloor_le x) as Hfl.
  destruct (Z_lt_le_dec (Qfloor x) 0) as [Hlt|Hge]; [assumption|].
  exfalso. assert (0 <= inject_Z (Qfloor x)).
  { change 0 with (inject_Z 0). now rewrite <- Zle_Qle. }
  lra.
Qed.

(** For an integer [n_delta], the step is the minimum of [n_delta] and the
    floor of the ratio, floored at 0. *)
Lemma clipped_step_integer (n_delta r : Q) (k : Z) :
  n_delta == inject_Z k →
  clipped_step n_delta r == Qmax 0 (Qmin n_delta (inject_Z (Qfloor r))).
Proof.
  intros Hk. unfold clipped_step.
  destruct (Qle_bool n_delta r) eqn:Hle;
    [apply Qle_bool_iff in Hle | apply Qle_bool_gt in Hle].
  - assert (Hfl : n_delta <= inject_Z (Qfloor r)).
    { rewrite Hk, <- Zle_Qle, <- (Qfloor_Z k).
      apply Qfloor_resp_le. now rewrite <- Hk. }
    now rewrite (Q.min_l _ _ Hfl).
  - pose proof (Qfloor_le r) as Hfl.
    rewrite Q.min_r by lra.
    destruct (Qlt_le_dec r 0) as [Hneg|Hpos].
    + pose proof (py_int_neg r Hneg) as Hi.
      pose proof (Qfloor_neg r Hneg) as Hf.
      rewrite !Q.max_l; [reflexivity | |];
        change 0 with (inject_Z 0); rewrite <- Zle_Qle; lia.
    + now rewrite py_int_nonneg.
Qed.

Lemma step_ok (price : Q) (s : t) :
  ¬ price == 0 →
  ∃ d l, step price s = Ok (d, l) ∧
         d == clipped_step (n_delta s) (gain s / price).
Proof.
  intros Hprice. unfold step. rewrite !(py_div_ok _ _ Hprice). unfold_M.
  eexists _, _. split; [reflexivity|].
  unfold clipped_step. set (r := gain s / price).
  destruct (Qltb r (n_delta s)) eqn:Hlt.
  - apply Qltb_lt in Hlt.
    assert (Hle : Qle_bool (n_delta s) r = false)
      by now apply Qle_bool_gt.
    rewrite Hle.
    destruct (Qltb (inject_Z (py_int r)) 0) eqn:Hneg.
    + apply Qltb_lt in Hneg. rewrite Q.max_l; [reflexivity | lra].
    + apply Qltb_ge in Hneg. now rewrite Q.max_r.
  - apply Qltb_ge in Hlt. apply Qle_bool_iff in Hlt as Hle. rewrite Hle.
    destruct (Qltb (n_delta s) 0) eqn:Hneg.
    + apply Qltb_lt in Hneg. rewrite Q.max_l; [reflexivity | lra].
    + apply Qltb_ge in Hneg. now rewrite Q.max_r.
Qed.

(** The bookkeeping before the adaptive step leaves the sizes, the mode and
    the configured increment alone. *)
Lemma decide_trade_frame (price price0 : Q) (dir : Z) (inst : Instrument.t)
    (self : t) :
  let '(amount, s) :=
    decide_trade price dir (turn price0 dir (observe inst self)) in
  let s' := incr_cnt (append_gain s) in
  buying s' = buying self ∧ selling s' = selling self ∧
  mode s' = mode self ∧ n_delta s' = n_delta self.
Proof.
  unfold decide_trade, turn.
  repeat match goal with
         | |- context [if ?b then _ else _] => destruct b
         end; repeat split.
Qed.

Lemma adapt_fields (d : Q) (s : t) :
  gain (adapt d s) = gain s ∧
  (mode s = "increase" →
     buying (adapt d s) = buying s + d ∧ selling (adapt d s) = selling s) ∧
  (mode s = "decrease" →
     selling (adapt d s) = selling s + d ∧ buying (adapt d s) = buying s) ∧
  (mode s = "size" →
     buying (adapt d s) = buying s + d ∧
     selling (adapt d s) = selling s + d).
Proof.
  unfold adapt. split; [|split; [|split]].
  - destruct (String.eqb (mode s) "increase"),
      (String.eqb (mode s) "decrease"); reflexivity.
  - intros ->. split; reflexivity.
  - intros ->. split; reflexivity.
  - intros ->. split; reflexivity.
Qed.

(** C7 (as the code has it): at a nonzero price [update] returns, and
    after a tick that emits a nonzero amount the step added is, with
    [r = gain / price] taken on the ledger after that trade's debit,
    [max(0, n_delta)] when [n_delta <= r] and [max(0, int(r))] otherwise;
    it is added to [buying] in mode increase, to [selling] in mode decrease
    and to both in mode size.  For an integer [n_delta] this is
    [max(0, min(n_delta, floor(r)))]. *)
Theorem adaptive_step (inst : Instrument.t) (self : t) (price0 : Q) :
  last (prices self) = Some price0 →
  ¬ Instrument.price inst == 0 →
  ∃ amount self' log,
    update inst self = Ok ((amount, self'), log) ∧
    (¬ amount == 0 →
       let r := gain self' / Instrument.price inst in
       let d := clipped_step (n_delta self) r in
       (mode self = "increase" →
          buying self' == buying self + d ∧ selling self' = selling self) ∧
       (mode self = "decrease" →
          selling self' == selling self + d ∧ buying self' = buying self) ∧
       (mode self = "size" →
          buying self' == buying self + d ∧
          selling self' == selling self + d) ∧
       (∀ k : Z, n_delta self == inject_Z k →
          d == Qmax 0 (Qmin (n_delta self) (inject_Z (Qfloor r))))).
Proof.
  intros Hlast Hprice. unfold update, last_item.
  rewrite Hlast, bind_ret. cbv zeta.
  set (price := Instrument.price inst) in *.
  set (dir := move price0 price).
  assert (Hquiet : ∀ s : t,
    ∃ amount self' log,
      (Ok ((0, s), []) : M (Q * t)) = Ok ((amount, self'), log) ∧
      (¬ amount == 0 →
         let r := gain self' / price in
         let d := clipped_step (n_delta self) r in
         (mode self = "increase" →
            buying self' == buying self + d ∧ selling self' = selling self) ∧
         (mode self = "decrease" →
            selling self' == selling self + d ∧ buying self' = buying self) ∧
         (mode self = "size" →
            buying self' == buying self + d ∧
            selling self' == selling self + d) ∧
         (∀ k : Z, n_delta self == inject_Z k →
            d == Qmax 0 (Qmin (n_delta self) (inject_Z (Qfloor r)))))).
  { intros s. eexists _, _, _. split; [reflexivity|].
    intros H. destruct H. reflexivity. }
  destruct (dir =? 0)%Z; [apply Hquiet|].
  destruct (direction (observe inst self) =? 0)%Z; [apply Hquiet|].
  pose proof (decide_trade_frame price price0 dir inst self) as Hframe.
  destruct (decide_trade price dir (turn price0 dir (observe inst self)))
    as [amount s1].
  cbv zeta in Hframe. destruct Hframe as (Hbuy & Hsell & Hmode & Hnd).
  destruct (Qeq_bool amount 0) eqn:Hzero; cbn [negb].
  { apply Qeq_bool_iff in Hzero. eexists _, _, _. split; [reflexivity|].
    intros H. destruct (H Hzero). }
  set (s3 := incr_cnt (append_gain s1)) in *.
  destruct (step_ok price s3 Hprice) as (d & l & Hstep & Hd).
  unfold mbind, M_bind, bind. rewrite Hstep. unfold mret, M_ret, ret.
  eexists _, _, _. split; [reflexivity|]. intros _.
  destruct (adapt_fields d s3) as (Hgain & Hinc & Hdec & Hsize).
  rewrite Hgain. rewrite Hnd in Hd. rewrite Hmode in Hinc, Hdec, Hsize.
  rewrite <- Hbuy, <- Hsell. cbv zeta.
  split; [|split; [|split]].
  - intros Hm. destruct (Hinc Hm) as [-> ->]. now rewrite Hd.
  - intros Hm. destruct (Hdec Hm) as [-> ->]. now rewrite Hd.
  - intros Hm. destruct (Hsize Hm) as [-> ->]. now rewrite Hd.
  - intros k Hk. rewrite <- Hnd. apply (clipped_step_integer _ _ k).
    now rewrite Hnd.
Qed.

(** The first sell of the rising scenario: 10 units at 132 put 1320 on the
    ledger, the ratio is 10 and the whole [n_delta = 1.5] is added. *)
Lemma adaptive_step_witness :
  ∃ amount self' log,
    update (Scenario.inst_at 2 132) Scenario.turning_rising
      = Ok ((amount, self'), log) ∧
    amount == -10 ∧
    buying self' == 10 + 1.5 ∧
    selling self' = 10.
Proof.
  destruct (adaptive_step (Scenario.inst_at 2 132) Scenario.turning_rising
              133)
    as (amount & self' & log & Hupd & Hstep); [reflexivity | qcompute |].
  exists amount, self', log. split; [exact Hupd|].
  vm_compute in Hupd. injection Hupd as <- <- <-.
  split; [reflexivity|].
  destruct Hstep as (Hinc & _); [qcompute|].
  destruct (Hinc eq_refl) as [Hbuy Hsell].
  split; [qcompute | reflexivity].
Defined.

(** C7 fails as stated: with [n_delta = 1.5], after the buy of 11.5 units
    at 100 the ledger holds 170, so gain / price = 1.7; the formula of the
    claim gives max(0, min(1.5, floor(1.7))) = 1, but [buying] grows by
    1.5. *)
Lemma fractional_n_delta_added_whole :
  let ticks := [Scenario.inst_at 1 133; Scenario.inst_at 2 132;
                Scenario.inst_at 3 99] in
  ∃ t0 t3 t4 log3 log4,
    Scenario.turning_at_130 = Ok (t0, []) ∧
    Scenario.feed update ticks t0 = Ok (([0; -10; 0], t3), log3) ∧
    update (Scenario.inst_at 4 100) t3 = Ok ((11.5, t4), log4) ∧
    mode t3 = "increase" ∧
    n_delta t3 == 1.5 ∧
    gain t4 / 100 == 1.7 ∧
    Qmax 0 (Qmin (n_delta t3) (inject_Z (Qfloor (gain t4 / 100)))) == 1 ∧
    buying t4 - buying t3 == 1.5 ∧
    ¬ buying t4 - buying t3 == 1.
Proof.
  cbv zeta. eexists _, _, _, _, _.
  split; [vm_compute; reflexivity|].
  split; [vm_compute; reflexivity|].
  split; [vm_compute; reflexivity|].
  repeat split; qcompute.
Qed.

End TurningPointProps.

(** ** Ticks that repeat the previous price *)

(** Whenever [ThresholdControl.update] returns, its price and time
    histories have grown by the current price and timestamp, and the
    baseline is the one it had. *)
Lemma threshold_update_observes (inst : Instrument.t)
    (tc tc' : ThresholdControl.t) (fundIn deltaUnit n : Q)
    (log : list LogRecord) :
  ThresholdControl.update inst tc fundIn deltaUnit = Ok ((n, tc'), log) →
  ThresholdControl.prices tc'
    = ThresholdControl.prices tc ++ [Instrument.price inst] ∧
  ThresholdControl.times tc'
    = ThresholdControl.times tc ++ [Instrument.ts inst] ∧
  ThresholdControl.total0 tc' = ThresholdControl.total0 tc.
Proof.
  unfold ThresholdControl.update, last_item, py_div. unfold_M.
  repeat (match goal with
          | |- context [match ?x with _ => _ end] =>
              lazymatch x with
              | context [match _ with _ => _ end] => fail
              | _ => destruct x
              end
          end; cbv beta iota);
    first [discriminate | intros [= <- <- <-]; repeat split].
Qed.

(** C8 (as the code has it): on a tick whose price equals the last
    recorded one, [Chasing.update] and [TurningPoint.update] return 0
    without trading and without logging; their price and time histories
    gain one entry each, and every other field keeps its value.
    [ThresholdControl.update] does not look at the previous price:
    whenever it returns it has appended to its price and time histories
    as well, and when the resulting unit is 0 it returns 0 and every other
    field, the fund and unit histories included, keeps its value. *)
Theorem repeated_price_tick (inst : Instrument.t) (c : Chasing.t)
    (tp : TurningPoint.t) (tc : ThresholdControl.t)
    (price0 fundIn deltaUnit last_unit : Q) :
  Instrument.price inst == price0 →
  (last (Chasing.prices c) = Some price0 →
     ∃ c',
       Chasing.update inst c = Ok ((0, c'), []) ∧
       Chasing.prices c' = Chasing.prices c ++ [Instrument.price inst] ∧
       Chasing.times c' = Chasing.times c ++ [Instrument.ts inst] ∧
       Chasing.mode c' = Chasing.mode c ∧
       Chasing.trend c' = Chasing.trend c ∧
       Chasing.total c' = Chasing.total c ∧
       Chasing.direction c' = Chasing.direction c ∧
       Chasing.high c' = Chasing.high c ∧
       Chasing.low c' = Chasing.low c ∧
       Chasing.init c' = Chasing.init c ∧
       Chasing.inc c' = Chasing.inc c ∧
       Chasing.safetyamount c' = Chasing.safetyamount c ∧
       Chasing.stack c' = Chasing.stack c ∧
       Chasing.buysell c' = Chasing.buysell c ∧
       Chasing.upper_limit c' = Chasing.upper_limit c ∧
       Chasing.lower_limit c' = Chasing.lower_limit c ∧
       Chasing.gap c' = Chasing.gap c ∧
       Chasing.nextStepUp c' = Chasing.nextStepUp c ∧
       Chasing.nextStepDown c' = Chasing.nextStepDown c) ∧
  (last (TurningPoint.prices tp) = Some price0 →
     ∃ tp',
       TurningPoint.update inst tp = Ok ((0, tp'), []) ∧
       TurningPoint.prices tp'
         = TurningPoint.prices tp ++ [Instrument.price inst] ∧
       TurningPoint.times tp'
         = TurningPoint.times tp ++ [Instrument.ts inst] ∧
       TurningPoint.buysell tp' = TurningPoint.buysell tp ∧
       TurningPoint.pt tp' = TurningPoint.pt tp ∧
       TurningPoint.highs tp' = TurningPoint.highs tp ∧
       TurningPoint.n_delta tp' = TurningPoint.n_delta tp ∧
       TurningPoint.h tp' = TurningPoint.h tp ∧
       TurningPoint.lows tp' = TurningPoint.lows tp ∧
       TurningPoint.gain tp' = TurningPoint.gain tp ∧
       TurningPoint.gains tp' = TurningPoint.gains tp ∧
       TurningPoint.mode tp' = TurningPoint.mode tp ∧
       TurningPoint.selling tp' = TurningPoint.selling tp ∧
       TurningPoint.buying tp' = TurningPoint.buying tp ∧
       TurningPoint.cnt tp' = TurningPoint.cnt tp ∧
       TurningPoint.direction tp' = TurningPoint.direction tp ∧
       TurningPoint.high tp' = TurningPoint.high tp ∧
       TurningPoint.low tp' = TurningPoint.low tp) ∧
  (last (ThresholdControl.units tc) = Some last_unit →
     last_unit + deltaUnit == 0 →
     ∃ tc',
       ThresholdControl.update inst tc fundIn deltaUnit
         = Ok ((0, tc'), []) ∧
       ThresholdControl.prices tc'
         = ThresholdControl.prices tc ++ [Instrument.price inst] ∧
       ThresholdControl.times tc'
         = ThresholdControl.times tc ++ [Instrument.ts inst] ∧
       ThresholdControl.funds tc' = ThresholdControl.funds tc ∧
       ThresholdControl.units tc' = ThresholdControl.units tc ∧
       ThresholdControl.total0 tc' = ThresholdControl.total0 tc ∧
       ThresholdControl.winningPer tc' = ThresholdControl.winningPer tc ∧
       ThresholdControl.losingPer tc' = ThresholdControl.losingPer tc ∧
       ThresholdControl.sellingPerWin tc'
         = ThresholdControl.sellingPerWin tc ∧
       ThresholdControl.sellingPerLose tc'
         = ThresholdControl.sellingPerLose tc) ∧
  (∀ n tc' log,
     ThresholdControl.update inst tc fundIn deltaUnit = Ok ((n, tc'), log) →
     ThresholdControl.prices tc'
       = ThresholdControl.prices tc ++ [Instrument.price inst] ∧
     ThresholdControl.times tc'
       = ThresholdControl.times tc ++ [Instrument.ts inst]).
Proof.
  intros Hsame.
  assert (Hmove : move price0 (Instrument.price inst) = 0%Z)
    by now apply move_zero_iff.
  split; [|split; [|split]];
    [| | | intros n tc' log Hupd;
           destruct (threshold_update_observes _ _ _ _ _ _ _ Hupd)
             as (Hp & Ht & _); now split].
  - intros Hlast.
    unfold Chasing.update, last_item. rewrite Hlast, bind_ret, Hmove.
    eexists. split; [reflexivity|]. repeat split.
  - intros Hlast.
    unfold TurningPoint.update, last_item. rewrite Hlast, bind_ret, Hmove.
    eexists. split; [reflexivity|]. repeat split.
  - intros Hlast Hzero.
    unfold ThresholdControl.update, last_item.
    replace (ThresholdControl.units (ThresholdControl.observe inst tc))
      with (ThresholdControl.units tc) by reflexivity.
    rewrite Hlast, bind_ret.
    apply Qeq_bool_iff in Hzero. rewrite Hzero.
    eexists. split; [reflexivity|]. repeat split.
Qed.

(** The three states of the witness below are reached by the code: from
    the constructors by the ticks named in their descriptions. *)
Lemma repeated_price_states_reached :
  (∃ ns log,
     (c ← Scenario.chasing_at_100 "chase";
      Scenario.feed Chasing.update
        [Scenario.inst_at 1 102; Scenario.inst_at 2 104;
         Scenario.inst_at 3 106; Scenario.inst_at 4 103;
         Scenario.inst_at 5 111] c)
     = Ok ((ns, Scenario.chase_armed), log)) ∧
  (∃ ns log,
     (tp ← Scenario.turning_at_130;
      Scenario.feed TurningPoint.update
        [Scenario.inst_at 1 133; Scenario.inst_at 2 132;
         Scenario.inst_at 3 99; Scenario.inst_at 4 100] tp)
     = Ok ((ns, Scenario.turning_traded), log)) ∧
  (∃ n log,
     ThresholdControl.update (Scenario.inst_at 1 79) Scenario.tc_default 0 0
     = Ok ((n, Scenario.tc_closed), log)).
Proof.
  split; [|split]; eexists _, _; vm_compute; reflexivity.
Qed.

(** A second tick at the last price on objects with a history: a chaser
    that has bought once and is armed again at 111, a turning-point
    routine that has sold and bought, and a controller that has closed its
    position at 79.  Flags, counters, thresholds, extrema and ledgers are
    the ones the objects had. *)
Lemma repeated_price_tick_witness :
  (∃ c',
     Chasing.update (Scenario.inst_at 6 111) Scenario.chase_armed
       = Ok ((0, c'), []) ∧
     Chasing.prices c' = [100; 102; 104; 106; 103; 111; 111] ∧
     Chasing.direction c' = 1%Z ∧ Chasing.stack c' = 1%Z ∧
     Chasing.buysell c' = 1%Z ∧
     Chasing.high c' = 106 ∧ Chasing.low c' = 103 ∧
     Chasing.nextStepUp c' = 111 ∧ Chasing.nextStepDown c' = 95) ∧
  (∃ tp',
     TurningPoint.update (Scenario.inst_at 5 100) Scenario.turning_traded
       = Ok ((0, tp'), []) ∧
     TurningPoint.prices tp' = [130; 133; 132; 99; 100; 100] ∧
     TurningPoint.direction tp' = 1%Z ∧ TurningPoint.cnt tp' = 2%Z ∧
     TurningPoint.buysell tp' = -1 ∧
     TurningPoint.highs tp' = [133] ∧ TurningPoint.lows tp' = [99] ∧
     TurningPoint.gain tp' == 170 ∧ TurningPoint.buying tp' == 13 ∧
     TurningPoint.selling tp' = 10) ∧
  (∃ tc',
     ThresholdControl.update (Scenario.inst_at 2 79) Scenario.tc_closed
       790 0 = Ok ((0, tc'), []) ∧
     ThresholdControl.prices tc' = [100; 79; 79] ∧
     ThresholdControl.funds tc' = [0; -790] ∧
     ThresholdControl.units tc' = [10; 0] ∧
     ThresholdControl.total0 tc' = 1000).
Proof.
  destruct (repeated_price_tick (Scenario.inst_at 6 111)
              Scenario.chase_armed Scenario.turning_traded
              Scenario.tc_closed 111 0 0 0) as (Hc & _); [qcompute|].
  destruct (repeated_price_tick (Scenario.inst_at 5 100)
              Scenario.chase_armed Scenario.turning_traded
              Scenario.tc_closed 100 0 0 0) as (_ & Htp & _); [qcompute|].
  destruct (repeated_price_tick (Scenario.inst_at 2 79)
              Scenario.chase_armed Scenario.turning_traded
              Scenario.tc_closed 79 790 0 0) as (_ & _ & Htc & _);
    [qcompute|].
  destruct Hc as (c' & Hupd & Hp & _ & _ & _ & _ & Hd & Hh & Hl & _ & _ & _
                  & Hs & Hb & _ & _ & _ & Hu & Hdn); [reflexivity|].
  destruct Htp as (tp' & Hupd' & Hp' & _ & Hb' & _ & Hhs & _ & _ & Hls & Hg
                   & _ & _ & Hsl & Hby & Hcnt & Hd' & _ & _); [reflexivity|].
  destruct Htc as (tc' & Hupd'' & Hp'' & _ & Hf & Hun & Ht0 & _);
    [reflexivity | qcompute |].
  split; [|split].
  - exists c'. rewrite Hp, Hd, Hh, Hl, Hs, Hb, Hu, Hdn.
    split; [exact Hupd|]. repeat split.
  - exists tp'. rewrite Hp', Hb', Hhs, Hls, Hg, Hsl, Hby, Hcnt, Hd'.
    split; [exact Hupd'|]. repeat split; qcompute.
  - exists tc'. rewrite Hp'', Hf, Hun, Ht0.
    split; [exact Hupd''|]. repeat split.
Defined.

(** C8 fails as stated: a tick at the construction price makes
    [Chasing.update] return 0 but leaves a longer price history behind, so
    the object has changed. *)
Lemma repeated_price_grows_history :
  let inst := Scenario.inst_at 1 100 in
  last (Chasing.prices Scenario.safety_idle) = Some (Instrument.price inst) ∧
  ∃ c',
    Chasing.update inst Scenario.safety_idle = Ok ((0, c'), []) ∧
    Chasing.prices c' = [100; 100] ∧
    Chasing.prices Scenario.safety_idle = [100] ∧
    c' ≠ Scenario.safety_idle.
Proof.
  cbv zeta. split; [reflexivity|].
  eexists. split; [vm_compute; reflexivity|].
  split; [reflexivity|]. split; [reflexivity|].
  intros H. apply (f_equal Chasing.prices) in H. discriminate H.
Qed.

(** On a repeated price [ThresholdControl.update] can even trade.  A
    controller anchored at fund 500 and 5 units at price 100 sees the price
    58 together with a proposal to buy 1 unit: the fund it is given is not
    yet debited, the loss it computes is 15.2% and it lets the proposal
    pass.  On the next tick, at the same price and with the debited fund
    442, the loss is 21% and it sells all 6 units. *)
Lemma repeated_price_threshold_trade :
  ∃ tc0 tc1 tc2 log,
    ThresholdControl.init Scenario.no_float (Scenario.inst_at 0 100) 500 5
      (PyFloat 0.4) (PyFloat 0.2) (PyFloat 0.5) (PyFloat 1) = Ok (tc0, []) ∧
    ThresholdControl.update (Scenario.inst_at 1 58) tc0 500 1
      = Ok ((0, tc1), []) ∧
    last (ThresholdControl.prices tc1) = Some 58 ∧
    ThresholdControl.update (Scenario.inst_at 2 58) tc1 (500 - 58 * 1) 0
      = Ok ((-6, tc2), log).
Proof.
  eexists _, _, _, _.
  split; [vm_compute; reflexivity|].
  split; [vm_compute; reflexivity|].
  split; [reflexivity|].
  vm_compute; reflexivity.
Qed.

(** ** The orchestrator's tick *)

Section UpdateProps.

Import PrototypeStrategyI.

Variable float_of_str : string → option Q.



(** [primary] runs the subroutine selected by the mode and stores the
    object it returns; nothing else of the strategy changes. *)
Lemma primary_inv (inst : Instrument.t) (self self1 : t) (n : Q)
    (log : list LogRecord) :
  primary inst self = Ok ((n, self1), log) →
  (mode self = "chase" ∧
   ∃ c, Chasing.update inst (ChasingRoutine self) = Ok ((n, c), log) ∧
        self1 = set_ChasingRoutine c self) ∨
  (mode self ≠ "chase" ∧
   ∃ tp, TurningPoint.update inst (TurningPointRoutine self)
           = Ok ((n, tp), log) ∧
         self1 = set_TurningPointRoutine tp self).
Proof.
  unfold primary. destruct (String.eqb (mode self) "chase") eqn:Hmode.
  - apply String.eqb_eq in Hmode. intros H. left. split; [assumption|].
    unfold_M. destruct (Chasing.update _ _) as [[[n' c] l]|e];
      [|discriminate H].
    cbn in H. rewrite app_nil_r in H. injection H as <- <- <-. eauto.
  - apply String.eqb_neq in Hmode. intros H. right. split; [assumption|].
    unfold_M. destruct (TurningPoint.update _ _) as [[[n' tp] l]|e];
      [|discriminate H].
    cbn in H. rewrite app_nil_r in H. injection H as <- <- <-. eauto.
Qed.

Lemma primary_frame (inst : Instrument.t) (self self1 : t) (n : Q)
    (log : list LogRecord) :
  primary inst self = Ok ((n, self1), log) →
  mode self1 = mode self ∧ fund self1 = fund self ∧
  unit self1 = unit self ∧ orders self1 = orders self ∧
  kwargs self1 = kwargs self ∧
  ThresholdControlRoutine self1 = ThresholdControlRoutine self.
Proof.
  intros H. apply primary_inv in H.
  destruct H as [(_ & c & _ & ->)|(_ & tp & _ & ->)]; repeat split.
Qed.

Lemma transact_ok (inst : Instrument.t) (n : Q) (src : string) (self : t) :
  ¬ Instrument.price inst == 0 →
  ∃ self' log,
    transact inst n src self = Ok (self', log) ∧
    orders self' =
      orders self ++ [(Instrument.ts inst, Instrument.price inst, n, src)] ∧
    mode self' = mode self ∧ kwargs self' = kwargs self ∧
    ThresholdControlRoutine self' = ThresholdControlRoutine self ∧
    ChasingRoutine self' = ChasingRoutine self ∧
    TurningPointRoutine self' = TurningPointRoutine self ∧
    (fund self - Instrument.price inst * n <= 0 →
       fund self' == 0 ∧
       unit self' == unit self + fund self / Instrument.price inst) ∧
    (¬ fund self - Instrument.price inst * n <= 0 →
       fund self' == fund self - Instrument.price inst * n ∧
       unit self' == unit self + n).
Proof.
  intros Hprice. unfold transact.
  destruct (Qle_bool (fund self - Instrument.price inst * n) 0) eqn:Hclip;
    [apply Qle_bool_iff in Hclip | apply Qle_bool_gt in Hclip].
  - unfold_M. rewrite (py_div_ok _ _ Hprice).
    eexists _, _. split; [reflexivity|]. cbn.
    repeat split; try reflexivity; intros; lra.
  - unfold_M. eexists _, _. split; [reflexivity|]. cbn.
    repeat split; try reflexivity; intros; lra.
Qed.




End UpdateProps.



(** * Further properties *)

Lemma bind_inv {A B} (m : M A) (f : A → M B) (b : B)
    (l : list LogRecord) :
  (m ≫= f) = Ok (b, l) →
  ∃ a l1 l2, m = Ok (a, l1) ∧ f a = Ok (b, l2) ∧ l = l1 ++ l2.
Proof.
  unfold mbind, M_bind, bind. destruct m as [[a l1]|e]; [|discriminate].
  destruct (f a) as [[b' l2]|e] eqn:Hf; [|discriminate].
  intros [= <- <-]. exists a, l1, l2. rewrite Hf. auto.
Qed.

(** ** The orchestrator: balances, histories and orders *)

Section Balances.

Import PrototypeStrategyI.

(** What a [transact] that returns has done, whatever the price. *)
Lemma transact_inv (inst : Instrument.t) (n : Q) (src : string)
    (self self' : t) (log : list LogRecord) :
  transact inst n src self = Ok (self', log) →
  let price := Instrument.price inst in
  self' = append_order (Instrument.ts inst, price, n, src)
            (set_balance (fund self') (unit self') self) ∧
  ((fund self - price * n <= 0 ∧ ¬ price == 0 ∧
    fund self' = 0 ∧ unit self' = unit self + fund self / price ∧
    log = [RunningOutOfFunds n]) ∨
   (¬ fund self - price * n <= 0 ∧
    fund self' = fund self - price * n ∧ unit self' = unit self + n ∧
    log = [])).
Proof.
  unfold transact, py_div.
  destruct (Qle_bool (fund self - Instrument.price inst * n) 0) eqn:Hclip;
    [apply Qle_bool_iff in Hclip | apply Qle_bool_gt in Hclip].
  - destruct (Qeq_bool (Instrument.price inst) 0) eqn:Hzero;
      [discriminate|]. apply Qeq_bool_ne in Hzero.
    unfold_M. intros [= <- <-]. cbv zeta. split; [reflexivity|].
    left. repeat split; assumption.
  - unfold_M. intros [= <- <-]. cbv zeta. split; [reflexivity|].
    right. repeat split. lra.
Qed.

(** X1: a trade at a nonzero price never changes the value of the
    portfolio at that price: what leaves the fund enters the units, also
    when the trade is clipped. *)
Theorem transact_conserves_value (inst : Instrument.t) (n : Q)
    (src : string) (self : t) :
  ¬ Instrument.price inst == 0 →
  ∃ self' log,
    transact inst n src self = Ok (self', log) ∧
    fund self' + unit self' * Instrument.price inst
      == fund self + unit self * Instrument.price inst.
Proof.
  intros Hprice.
  destruct (transact_ok inst n src self Hprice)
    as (self' & log & Htr & _).
  exists self', log. split; [exact Htr|].
  apply transact_inv in Htr. cbv zeta in Htr.
  destruct Htr as (_ & [(_ & _ & -> & -> & _)|(_ & -> & -> & _)]).
  - field. exact Hprice.
  - ring.
Qed.

Lemma transact_conserves_value_witness :
  ∃ self' log,
    transact (Scenario.inst_at 3 106) 1000 "other"
      (Scenario.strategy_chasing 530 7) = Ok (self', log) ∧
    fund self' + unit self' * 106 == 530 + 7 * 106.
Proof.
  destruct (transact_conserves_value (Scenario.inst_at 3 106) 1000 "other"
              (Scenario.strategy_chasing 530 7))
    as (self' & log & Htr & Hvalue); [qcompute|].
  exists self', log. split; [exact Htr | exact Hvalue].
Defined.

(** X2: with a non-negative fund and a positive price, a sale is executed
    in full, and a purchase credits between 0 and the requested
    quantity. *)
Theorem transact_fills_at_most_request (inst : Instrument.t) (n : Q)
    (src : string) (self : t) :
  0 <= fund self →
  0 < Instrument.price inst →
  ∃ self' log,
    transact inst n src self = Ok (self', log) ∧
    (n < 0 →
       unit self' == unit self + n ∧
       fund self' == fund self - Instrument.price inst * n) ∧
    (0 <= n → unit self <= unit self' ∧ unit self' <= unit self + n).
Proof.
  intros Hfund Hprice.
  assert (Hne : ¬ Instrument.price inst == 0) by lra.
  destruct (transact_ok inst n src self Hne) as (self' & log & Htr & _).
  exists self', log. split; [exact Htr|].
  apply transact_inv in Htr. cbv zeta in Htr.
  set (price := Instrument.price inst) in *.
  destruct Htr as (_ & [(Hclip & _ & -> & -> & _)|(Hpay & -> & -> & _)]).
  - assert (Hq : 0 <= fund self / price).
    { apply Qle_shift_div_l; [assumption | lra]. }
    assert (Hle : fund self / price <= n).
    { apply Qle_shift_div_r; [assumption | lra]. }
    split.
    + intros Hn. exfalso.
      assert (Hpos : 0 < price * - n) by (apply Qmult_lt_0_compat; lra).
      assert (Hopp : price * - n == - (price * n)) by ring.
      lra.
    + intros _. set (q := fund self / price) in *. clearbody q.
      split; lra.
  - split.
    + intros _. split; reflexivity.
    + intros Hn. split; lra.
Qed.

Lemma transact_fills_at_most_request_witness :
  ∃ self' log,
    transact (Scenario.inst_at 3 106) (-4) "other"
      (Scenario.strategy_chasing 530 7) = Ok (self', log) ∧
    unit self' == 3 ∧ fund self' == 954.
Proof.
  destruct (transact_fills_at_most_request (Scenario.inst_at 3 106) (-4)
              "other" (Scenario.strategy_chasing 530 7))
    as (self' & log & Htr & Hsell & _); [qcompute | qcompute |].
  exists self', log. split; [exact Htr|].
  destruct Hsell as [Hunit Hfund]; [qcompute|].
  split; [rewrite Hunit | rewrite Hfund]; qcompute.
Defined.

(** X3: [transact] raises exactly when it has to clip at a zero price, that
    is when the price is 0 and the fund is not positive; the exception is
    then [ZeroDivisionError], and [transact] raises no other. *)
Theorem transact_raises_iff (inst : Instrument.t) (n : Q) (src : string)
    (self : t) :
  (transact inst n src self = Err ZeroDivisionError
   ↔ Instrument.price inst == 0 ∧ fund self <= 0) ∧
  (∀ e, transact inst n src self = Err e → e = ZeroDivisionError).
Proof.
  unfold transact, py_div.
  destruct (Qle_bool (fund self - Instrument.price inst * n) 0) eqn:Hclip;
    [apply Qle_bool_iff in Hclip | apply Qle_bool_gt in Hclip].
  - destruct (Qeq_bool (Instrument.price inst) 0) eqn:Hzero;
      [apply Qeq_bool_iff in Hzero | apply Qeq_bool_ne in Hzero]; unfold_M.
    + split; [|intros e [= <-]; reflexivity].
      split; [intros _ | reflexivity].
      split; [assumption|]. rewrite Hzero in Hclip. lra.
    + split; [|intros e [=]].
      split; [intros [=] | intros [Hz _]; contradiction].
  - unfold_M. split; [|intros e [=]].
    split; [intros [=] | intros [Hz Hf]]. rewrite Hz in Hclip. lra.
Qed.

Lemma transact_raises_iff_witness :
  transact (Scenario.inst_at 3 0) 5 "other" (Scenario.strategy_chasing 0 7)
    = Err ZeroDivisionError.
Proof.
  apply (transact_raises_iff (Scenario.inst_at 3 0) 5 "other"
           (Scenario.strategy_chasing 0 7)).
  split; qcompute.
Defined.

End Balances.

(** ** The orchestrator: what a tick leaves behind *)

Section Ticks.

Import PrototypeStrategyI.

Variable float_of_str : string → option Q.

(** The three ways in which a tick that returns has ended: nothing to
    trade, the primary proposal traded, or the override traded and the
    controller constructed anew. *)
Lemma update_inv (inst : Instrument.t) (self self' : t)
    (log : list LogRecord) :
  update float_of_str inst self = Ok (self', log) →
  ∃ n n2 s1 l1 tc l2,
    primary inst (snapshot inst self) = Ok ((n, s1), l1) ∧
    ThresholdControl.update inst (ThresholdControlRoutine self) (fund self) n
      = Ok ((n2, tc), l2) ∧
    ((n2 == 0 ∧ n == 0 ∧ self' = set_ThresholdControlRoutine tc s1) ∨
     (n2 == 0 ∧ ¬ n == 0 ∧
      ∃ l3, transact inst n (mode self) (set_ThresholdControlRoutine tc s1)
              = Ok (self', l3)) ∨
     (¬ n2 == 0 ∧
      ∃ s3 l3 fresh l4,
        transact inst n2 "thresholdcontrol"
          (set_ThresholdControlRoutine tc s1) = Ok (s3, l3) ∧
        ThresholdControl.init_kwargs float_of_str inst (fund s3) (unit s3)
          (kwargs self) = Ok (fresh, l4) ∧
        self' = set_ThresholdControlRoutine fresh s3)).
Proof.
  unfold update. intros H.
  apply bind_inv in H as ([n s1] & l1 & l1' & Hprimary & H & _).
  apply bind_inv in H as ([n2 tc] & l2 & l2' & Htc & H & _).
  pose proof (primary_frame _ _ _ _ _ Hprimary)
    as (Hmode & Hfund & _ & _ & Hkwargs & Hctl).
  cbn in Hmode, Hfund, Hkwargs, Hctl. rewrite Hctl, Hfund in Htc.
  exists n, n2, s1, l1, tc, l2. split; [exact Hprimary|].
  split; [exact Htc|]. cbv zeta in H.
  destruct (Qeq_bool n2 0) eqn:Hn2;
    [apply Qeq_bool_iff in Hn2 | apply Qeq_bool_ne in Hn2].
  - destruct (Qeq_bool n 0) eqn:Hn;
      [apply Qeq_bool_iff in Hn | apply Qeq_bool_ne in Hn]; cbn [negb] in H.
    + left. injection H as <- _. auto.
    + right; left. cbn in H. rewrite Hmode in H. eauto.
  - right; right. split; [exact Hn2|].
    apply bind_inv in H as ([] & l3 & l3' & _ & H & _).
    apply bind_inv in H as (s3 & l4 & l4' & Htr & H & _).
    apply bind_inv in H as (fresh & l5 & l5' & Hfresh & H & _).
    injection H as <- _.
    apply transact_inv in Htr as Hs3. destruct Hs3 as (Hs3 & _).
    assert (Hkw3 : kwargs s3 = kwargs self).
    { rewrite Hs3. cbn. exact Hkwargs. }
    rewrite Hkw3 in Hfresh. eauto 10.
Qed.

(** The state after a tick: the snapshot appended to the five histories,
    the configuration as it was, and whatever the three cases did to the
    balance, the orders and the routines. *)
Lemma update_shape (inst : Instrument.t) (self self' : t)
    (log : list LogRecord) :
  update float_of_str inst self = Ok (self', log) →
  let price := Instrument.price inst in
  ∃ os,
    self' = mk (mode self) (fund self') (unit self') (total0 self)
              (unitInit self) (ts self ++ [Instrument.ts inst])
              (funds self ++ [fund self]) (units self ++ [unit self])
              (gains self ++ [fund self + unit self * price - total0 self])
              (orders self ++ os) (prices self ++ [price]) (kwargs self)
              (ThresholdControlRoutine self') (ChasingRoutine self')
              (TurningPointRoutine self') ∧
    (mode self = "chase" →
       TurningPointRoutine self' = TurningPointRoutine self) ∧
    (mode self ≠ "chase" → ChasingRoutine self' = ChasingRoutine self) ∧
    fund self' + unit self' * price == fund self + unit self * price ∧
    (0 <= fund self → 0 <= fund self') ∧
    (os = [] ∧ fund self' = fund self ∧ unit self' = unit self ∨
     ∃ q src, os = [(Instrument.ts inst, price, q, src)] ∧ ¬ q == 0 ∧
              (src = mode self ∨ src = "thresholdcontrol")).
Proof.
  intros Hupd price.
  apply update_inv in Hupd
    as (n & n2 & s1 & l1 & tc & l2 & Hprimary & _ & Hcases).
  assert (Hs1 :
    ∃ c tp, s1 = set_TurningPointRoutine tp
                   (set_ChasingRoutine c (snapshot inst self)) ∧
            (mode self = "chase" → tp = TurningPointRoutine self) ∧
            (mode self ≠ "chase" → c = ChasingRoutine self)).
  { apply primary_inv in Hprimary. cbn in Hprimary.
    destruct Hprimary as [(Hm & c & _ & ->)|(Hm & tp & _ & ->)].
    - exists c, (TurningPointRoutine self). repeat split. tauto.
    - exists (ChasingRoutine self), tp. repeat split. tauto. }
  destruct Hs1 as (c & tp & -> & Htp & Hc).
  assert (Htrade : ∀ (src : string) (q : Q) (s s3 : t) (l : list LogRecord),
    transact inst q src s = Ok (s3, l) →
    ∃ f u, s3 = append_order (Instrument.ts inst, price, q, src)
                  (set_balance f u s) ∧
           f + u * price == fund s + unit s * price ∧ 0 <= f).
  { intros src q s s3 l Htr. apply transact_inv in Htr. cbv zeta in Htr.
    fold price in Htr.
    destruct Htr as (Hs & [(_ & Hne & Hf & Hu & _)|(Hpay & Hf & Hu & _)]);
      rewrite Hf, Hu in Hs; eexists _, _; (split; [exact Hs|]).
    - split; [field; exact Hne | lra].
    - split; [ring | lra]. }
  destruct Hcases as [(_ & _ & ->)|[(_ & Hn & l3 & Htr)|
    (Hn2 & s3 & l3 & fresh & l4 & Htr & _ & ->)]].
  - exists []. cbn. rewrite app_nil_r.
    split; [reflexivity|]. split; [assumption|]. split; [assumption|].
    split; [reflexivity|]. split; [tauto|]. left. auto.
  - destruct (Htrade _ _ _ _ _ Htr) as (f & u & -> & Hv & Hf).
    eexists [_]. cbn. cbn in Hv.
    split; [reflexivity|]. split; [assumption|]. split; [assumption|].
    split; [exact Hv|]. split; [intros _; exact Hf|].
    right. exists n, (mode self). auto.
  - destruct (Htrade _ _ _ _ _ Htr) as (f & u & -> & Hv & Hf).
    eexists [_]. cbn. cbn in Hv.
    split; [reflexivity|]. split; [assumption|]. split; [assumption|].
    split; [exact Hv|]. split; [intros _; exact Hf|].
    right. exists n2, "thresholdcontrol". auto.
Qed.

(** X4: every tick that returns appends the pre-trade snapshot to the five
    histories (timestamp, price, fund, unit and gain against the baseline)
    and leaves the mode, the baseline, the initial unit and the
    configuration as they were. *)
Theorem update_records_snapshot (inst : Instrument.t) (self self' : t)
    (log : list LogRecord) :
  update float_of_str inst self = Ok (self', log) →
  ts self' = ts self ++ [Instrument.ts inst] ∧
  prices self' = prices self ++ [Instrument.price inst] ∧
  funds self' = funds self ++ [fund self] ∧
  units self' = units self ++ [unit self] ∧
  gains self' =
    gains self ++ [fund self + unit self * Instrument.price inst
                   - total0 self] ∧
  mode self' = mode self ∧ total0 self' = total0 self ∧
  unitInit self' = unitInit self ∧ kwargs self' = kwargs self.
Proof.
  intros Hupd. apply update_shape in Hupd as (os & Hs & _).
  rewrite Hs. cbn. repeat split.
Qed.

(** X5: a tick that returns does not change the value of the portfolio at
    the tick's price, whatever was traded. *)
Theorem update_conserves_value (inst : Instrument.t) (self self' : t)
    (log : list LogRecord) :
  update float_of_str inst self = Ok (self', log) →
  fund self' + unit self' * Instrument.price inst
    == fund self + unit self * Instrument.price inst.
Proof.
  intros Hupd. apply update_shape in Hupd as (os & _ & _ & _ & Hv & _).
  exact Hv.
Qed.

(** X6: a fund that is not negative before a tick is not negative after
    it. *)
Theorem update_keeps_fund_nonneg (inst : Instrument.t) (self self' : t)
    (log : list LogRecord) :
  0 <= fund self →
  update float_of_str inst self = Ok (self', log) →
  0 <= fund self'.
Proof.
  intros Hfund Hupd.
  apply update_shape in Hupd as (os & _ & _ & _ & _ & Hf & _). auto.
Qed.

(** X7: a tick appends at most one order.  When it appends none, fund and
    unit are untouched; when it appends one, the order carries the tick's
    timestamp and price, a nonzero quantity, and the mode or
    "thresholdcontrol" as its source. *)
Theorem update_appends_at_most_one_order (inst : Instrument.t)
    (self self' : t) (log : list LogRecord) :
  update float_of_str inst self = Ok (self', log) →
  (orders self' = orders self ∧
   fund self' = fund self ∧ unit self' = unit self) ∨
  (∃ q src,
     orders self' =
       orders self ++ [(Instrument.ts inst, Instrument.price inst, q, src)] ∧
     ¬ q == 0 ∧ (src = mode self ∨ src = "thresholdcontrol")).
Proof.
  intros Hupd.
  apply update_shape in Hupd as (os & Hs & _ & _ & _ & _ & Hos).
  assert (Hord : orders self' = orders self ++ os) by (rewrite Hs; reflexivity).
  destruct Hos as [(-> & Hf & Hu)|(q & src & -> & Hq & Hsrc)].
  - left. rewrite app_nil_r in Hord. auto.
  - right. exists q, src. auto.
Qed.

(** X8: a tick only ever updates the primary subroutine of its mode: in
    chase mode the turning-point subroutine is left alone, in any other
    mode the chasing subroutine is. *)
Theorem update_leaves_idle_routine (inst : Instrument.t) (self self' : t)
    (log : list LogRecord) :
  update float_of_str inst self = Ok (self', log) →
  (mode self = "chase" →
     TurningPointRoutine self' = TurningPointRoutine self) ∧
  (mode self ≠ "chase" → ChasingRoutine self' = ChasingRoutine self).
Proof.
  intros Hupd. apply update_shape in Hupd as (os & _ & Htp & Hc & _).
  split; assumption.
Qed.


End Ticks.

(** The tick at 106 of the chase-mode strategy with a fund of 100000 and
    no units, on which 50 units are bought. *)
Ltac tick_at_106 self' log Hupd :=
  destruct (PrototypeStrategyI.update Scenario.no_float
              (Scenario.inst_at 3 106) (Scenario.strategy_chasing 100000 0))
    as [[self' log]|e] eqn:Hupd; [|vm_compute in Hupd; discriminate Hupd].

Lemma update_records_snapshot_witness :
  ∃ self' log,
    PrototypeStrategyI.update Scenario.no_float (Scenario.inst_at 3 106)
      (Scenario.strategy_chasing 100000 0) = Ok (self', log) ∧
    PrototypeStrategyI.ts self' = [1%Z; 2%Z; 3%Z] ∧
    PrototypeStrategyI.prices self' = [102; 104; 106] ∧
    PrototypeStrategyI.funds self' = [100000; 100000; 100000] ∧
    PrototypeStrategyI.units self' = [0; 0; 0].
Proof.
  tick_at_106 self' log Hupd.
  exists self', log. split; [reflexivity|].
  destruct (update_records_snapshot _ _ _ _ _ Hupd)
    as (Hts & Hprices & Hfunds & Hunits & _).
  repeat split; assumption.
Defined.

Lemma update_conserves_value_witness :
  ∃ self' log,
    PrototypeStrategyI.update Scenario.no_float (Scenario.inst_at 3 106)
      (Scenario.strategy_chasing 100000 0) = Ok (self', log) ∧
    PrototypeStrategyI.fund self' + PrototypeStrategyI.unit self' * 106
      == 100000 + 0 * 106.
Proof.
  tick_at_106 self' log Hupd.
  exists self', log. split; [reflexivity|].
  exact (update_conserves_value _ _ _ _ _ Hupd).
Defined.

Lemma update_keeps_fund_nonneg_witness :
  ∃ self' log,
    PrototypeStrategyI.update Scenario.no_float (Scenario.inst_at 3 106)
      (Scenario.strategy_chasing 100000 0) = Ok (self', log) ∧
    0 <= PrototypeStrategyI.fund self'.
Proof.
  tick_at_106 self' log Hupd.
  exists self', log. split; [reflexivity|].
  eapply update_keeps_fund_nonneg; [|exact Hupd]. qcompute.
Defined.

Lemma update_appends_at_most_one_order_witness :
  ∃ self' log q src,
    PrototypeStrategyI.update Scenario.no_float (Scenario.inst_at 3 106)
      (Scenario.strategy_chasing 100000 0) = Ok (self', log) ∧
    PrototypeStrategyI.orders self' = [(3%Z, 106, q, src)] ∧ ¬ q == 0.
Proof.
  tick_at_106 self' log Hupd.
  destruct (update_appends_at_most_one_order _ _ _ _ _ Hupd)
    as [(Hnone & _)|(q & src & Hone & Hq & _)].
  - exfalso. vm_compute in Hupd. injection Hupd as <- _.
    discriminate Hnone.
  - exists self', log, q, src. split; [reflexivity|].
    split; [exact Hone | exact Hq].
Defined.

Lemma update_leaves_idle_routine_witness :
  ∃ self' log,
    PrototypeStrategyI.update Scenario.no_float (Scenario.inst_at 3 106)
      (Scenario.strategy_chasing 100000 0) = Ok (self', log) ∧
    PrototypeStrategyI.TurningPointRoutine self' = Scenario.turning_idle.
Proof.
  tick_at_106 self' log Hupd.
  exists self', log. split; [reflexivity|].
  apply (update_leaves_idle_routine _ _ _ _ _ Hupd). reflexivity.
Defined.


(** ** ThresholdControl: the other branches, the ledger and the errors *)

Section ThresholdControlMore.

Import ThresholdControl.

(** X10: with a nonzero unit and a nonzero baseline, the losing branch,
    observed by its "Losing Control" log record, is taken exactly when the
    winning test fails, [gain <= 0] and [|gain / total0| >= losingPer]; the
    delta is then [min(|unit|, |unit| * sellingPerLose)], negated when
    [unit > 0].  When neither test holds, nothing is logged, 0 is returned
    and the unchanged fund and unit are appended to the histories. *)
Theorem losing_branch_exact (inst : Instrument.t) (self : t)
    (fundIn deltaUnit last_unit : Q) :
  last (units self) = Some last_unit →
  ¬ last_unit + deltaUnit == 0 →
  ¬ total0 self == 0 →
  let unit := last_unit + deltaUnit in
  let gain := fundIn + unit * Instrument.price inst - total0 self in
  let ratio := gain / total0 self in
  let size := Qmin (Qabs unit) (Qabs unit * sellingPerLose self) in
  let winning := 0 <= gain ∧ winningPer self <= ratio in
  let losing := gain <= 0 ∧ losingPer self <= Qabs ratio in
  ∃ n self' log,
    update inst self fundIn deltaUnit = Ok ((n, self'), log) ∧
    ((∃ g r s, log = [LosingControl g r s]) ↔ ¬ winning ∧ losing) ∧
    (¬ winning ∧ losing →
       log = [LosingControl gain ratio n] ∧
       (0 < unit → n == - size) ∧
       (unit < 0 → n == size) ∧
       units self' = units self ++ [unit + n] ∧
       funds self' = funds self ++ [fundIn + n * Instrument.price inst]) ∧
    (log = [] ↔ ¬ winning ∧ ¬ losing) ∧
    (¬ winning ∧ ¬ losing →
       n = 0 ∧
       units self' = units self ++ [unit] ∧
       funds self' = funds self ++ [fundIn]).
Proof.
  intros Hlast Hunit Htotal0 unit gain ratio size winning losing.
  rewrite (update_unfold _ _ _ _ _ Hlast Hunit Htotal0).
  fold unit gain ratio.
  pose proof (winning_test_iff self gain) as Hwin.
  pose proof (losing_test_iff self gain) as Hlose.
  fold ratio winning in Hwin. fold ratio losing in Hlose.
  destruct (winning_test self gain).
  - assert (Hw : winning) by now apply Hwin.
    cbv zeta. eexists _, _, _. split; [reflexivity|].
    split; [split; [intros (g & r & s & [=]) | tauto]|].
    split; [tauto|]. split; [split; [intros [=] | tauto] | tauto].
  - assert (Hw : ¬ winning) by (intros H; apply Hwin in H; discriminate H).
    destruct (losing_test self gain).
    + assert (Hl : losing) by now apply Hlose.
      cbv zeta. eexists _, _, _. split; [reflexivity|].
      split; [split; [tauto | eauto]|].
      split; [|split; [split; [intros [=] | tauto] | tauto]].
      intros _. split; [reflexivity|].
      split; [apply selling_pos|].
      split; [intros Hu; apply selling_neg; lra|].
      split; reflexivity.
    + assert (Hl : ¬ losing) by (intros H; apply Hlose in H; discriminate H).
      eexists _, _, _. split; [reflexivity|].
      split; [split; [intros (g & r & s & [=]) | tauto]|].
      split; [tauto|]. split; [tauto|].
      intros _. repeat split.
Qed.

(** A loss of 21% on ten units: the position is sold whole. *)
Lemma losing_branch_exact_witness :
  ∃ n self' log,
    update (Scenario.inst_at 1 79) Scenario.tc_default 0 0
      = Ok ((n, self'), log) ∧
    (∃ g r s, log = [LosingControl g r s]) ∧ n == -10.
Proof.
  destruct (losing_branch_exact (Scenario.inst_at 1 79) Scenario.tc_default
              0 0 10)
    as (n & self' & log & Hupd & Hiff & Hlose & _);
    [reflexivity | qcompute | qcompute |].
  assert (Hcond :
    ¬ (0 <= 0 + (10 + 0) * 79 - 1000 ∧ 0.4 <= (0 + (10 + 0) * 79 - 1000) / 1000)
    ∧ (0 + (10 + 0) * 79 - 1000 <= 0
       ∧ 0.2 <= Qabs ((0 + (10 + 0) * 79 - 1000) / 1000))).
  { split; [intros [H _]; revert H; qcompute | split; qcompute]. }
  exists n, self', log. split; [exact Hupd|].
  split; [apply Hiff; exact Hcond|].
  destruct (Hlose Hcond) as (_ & Hpos & _).
  rewrite Hpos by qcompute. qcompute.
Defined.

(** The rebalancing size never overshoots: with a non-negative
    percentage, the position after the trade lies between neutral and the
    position before, and a percentage of at least 1 closes it. *)
Lemma selling_towards_neutral (unit per : Q) :
  0 <= per →
  let n := selling unit per in
  Qabs (unit + n) <= Qabs unit ∧ 0 <= unit * (unit + n) ∧
  (1 <= per → unit + n == 0).
Proof.
  intros Hper n.
  pose proof (Qabs_nonneg unit) as Habs.
  pose proof (selling_pos unit per) as Hpos.
  pose proof (selling_neg unit per) as Hneg.
  fold n in Hpos, Hneg.
  set (size := Qmin (Qabs unit) (Qabs unit * per)) in *.
  assert (Hsize : 0 <= size ∧ size <= Qabs unit ∧
                  (1 <= per → size == Qabs unit)).
  { unfold size. split; [apply Q.min_glb; nra|].
    split; [apply Q.le_min_l|].
    intros Hone. apply Q.min_l. nra. }
  destruct Hsize as (Hs0 & Hs1 & Hs2). clearbody size n.
  destruct (Qlt_le_dec 0 unit) as [Hu|Hu].
  - rewrite (Hpos Hu). rewrite (Qabs_pos unit) in * by lra.
    split; [rewrite Qabs_pos; lra|]. split; [nra|].
    intros Hone. rewrite (Hs2 Hone). ring.
  - rewrite (Hneg Hu). rewrite (Qabs_neg unit) in * by lra.
    split; [rewrite Qabs_neg; lra|]. split; [nra|].
    intros Hone. rewrite (Hs2 Hone). ring.
Qed.

(** X11: a rebalancing trade moves the controller's position towards
    neutral and never through it: with non-negative selling percentages,
    the unit recorded after an [update] that returns is no larger in
    magnitude than the unit it evaluated and has not changed sign; a
    losing trade with [sellingPerLose >= 1] closes the position. *)
Theorem rebalance_moves_towards_neutral (inst : Instrument.t) (self self' : t)
    (fundIn deltaUnit last_unit n : Q) (log : list LogRecord) :
  last (units self) = Some last_unit →
  0 <= sellingPerWin self →
  0 <= sellingPerLose self →
  update inst self fundIn deltaUnit = Ok ((n, self'), log) →
  let unit := last_unit + deltaUnit in
  Qabs (unit + n) <= Qabs unit ∧ 0 <= unit * (unit + n) ∧
  (∀ g r s, log = [LosingControl g r s] → 1 <= sellingPerLose self →
     unit + n == 0).
Proof.
  intros Hlast Hwin Hlose Hupd unit.
  destruct (Qeq_dec unit 0) as [Hzero|Hunit].
  - unfold update, last_item in Hupd.
    replace (units (observe inst self)) with (units self) in Hupd
      by reflexivity.
    rewrite Hlast, bind_ret in Hupd. fold unit in Hupd.
    apply Qeq_bool_iff in Hzero as Hb. rewrite Hb in Hupd.
    injection Hupd as <- _ <-.
    split; [rewrite Hzero; apply Qle_refl|].
    split; [rewrite Hzero; apply Qle_bool_iff; reflexivity|].
    intros g r s [=].
  - destruct (Qeq_dec (total0 self) 0) as [Hbase|Hbase].
    { rewrite (update_zero_baseline _ _ _ _ _ Hlast Hunit Hbase) in Hupd.
      discriminate Hupd. }
    rewrite (update_unfold _ _ _ _ _ Hlast Hunit Hbase) in Hupd.
    fold unit in Hupd.
    pose proof (selling_towards_neutral unit _ Hwin) as Hw.
    pose proof (selling_towards_neutral unit _ Hlose) as Hl.
    cbv zeta in Hupd, Hw, Hl.
    destruct (winning_test self _); [|destruct (losing_test self _)];
      injection Hupd as <- _ <-.
    + destruct Hw as (H1 & H2 & _). split; [exact H1|].
      split; [exact H2|]. intros g r s [=].
    + destruct Hl as (H1 & H2 & H3). split; [exact H1|].
      split; [exact H2|]. intros g r s _. exact H3.
    + split; [|split; [nra | intros g r s [=]]].
      assert (Heq : unit + 0 == unit) by ring. rewrite Heq. apply Qle_refl.
Qed.

Lemma rebalance_moves_towards_neutral_witness :
  ∃ n self' log,
    update (Scenario.inst_at 1 79) Scenario.tc_default 0 0
      = Ok ((n, self'), log) ∧
    10 + 0 + n == 0.
Proof.
  destruct (update (Scenario.inst_at 1 79) Scenario.tc_default 0 0)
    as [[[n self'] log]|e] eqn:Hupd; [|vm_compute in Hupd; discriminate Hupd].
  exists n, self', log. split; [reflexivity|].
  destruct (rebalance_moves_towards_neutral (Scenario.inst_at 1 79)
              Scenario.tc_default self' 0 0 10 n log)
    as (_ & _ & Hclose); [reflexivity | qcompute | qcompute | exact Hupd |].
  vm_compute in Hupd. injection Hupd as <- _ <-.
  eapply Hclose; [reflexivity | qcompute].
Defined.

(** X12: [update] raises exactly in two situations: [IndexError] when the
    unit history is empty, and [ZeroDivisionError] when the unit it
    evaluates is nonzero while the baseline is zero.  In every other
    situation it returns. *)
Theorem threshold_update_raises_iff (inst : Instrument.t) (self : t)
    (fundIn deltaUnit : Q) :
  (units self = [] → update inst self fundIn deltaUnit = Err IndexError) ∧
  (∀ last_unit, last (units self) = Some last_unit →
     (update inst self fundIn deltaUnit = Err ZeroDivisionError
      ↔ ¬ last_unit + deltaUnit == 0 ∧ total0 self == 0) ∧
     (¬ (¬ last_unit + deltaUnit == 0 ∧ total0 self == 0) →
      ∃ r, update inst self fundIn deltaUnit = Ok r)).
Proof.
  split.
  - intros Hempty. unfold update, last_item.
    replace (units (observe inst self)) with (units self) by reflexivity.
    rewrite Hempty. reflexivity.
  - intros last_unit Hlast.
    destruct (Qeq_dec (last_unit + deltaUnit) 0) as [Hzero|Hunit].
    + assert (Hret : update inst self fundIn deltaUnit
                     = Ok ((0, observe inst self), [])).
      { unfold update, last_item.
        replace (units (observe inst self)) with (units self) by reflexivity.
        rewrite Hlast, bind_ret.
        apply Qeq_bool_iff in Hzero. rewrite Hzero. reflexivity. }
      rewrite Hret. split; [split; [intros [=] | tauto] | eauto].
    + destruct (Qeq_dec (total0 self) 0) as [Hbase|Hbase].
      * rewrite (update_zero_baseline _ _ _ _ _ Hlast Hunit Hbase).
        split; [tauto | intros H; exfalso; tauto].
      * rewrite (update_unfold _ _ _ _ _ Hlast Hunit Hbase). cbv zeta.
        destruct (winning_test self _); [|destruct (losing_test self _)];
          (split; [split; [intros [=] | tauto] | eauto]).
Qed.

(** A controller anchored on an empty portfolio has a zero baseline: the
    first proposal it is shown makes it raise. *)
Lemma threshold_update_raises_iff_witness :
  ∃ tc,
    init Scenario.no_float (Scenario.inst_at 0 100) 0 0 (PyFloat 0.4)
      (PyFloat 0.2) (PyFloat 0.5) (PyFloat 1) = Ok (tc, []) ∧
    update (Scenario.inst_at 1 101) tc 0 5 = Err ZeroDivisionError.
Proof.
  eexists. split; [reflexivity|].
  match goal with |- update ?i ?tc ?f ?d = _ =>
    destruct (threshold_update_raises_iff i tc f d) as (_ & Hraise)
  end.
  apply (Hraise 0); [reflexivity|]. split; qcompute.
Defined.

(** X13: the controller's ledger.  An [update] that returns keeps the
    baseline and the four percentages.  When the unit it evaluates is 0 it
    returns 0 and records neither fund nor unit; otherwise it records
    exactly one unit, the evaluated unit plus the delta it returns, and one
    fund, the fund it was given plus that delta times the price. *)
Theorem threshold_update_ledger (inst : Instrument.t) (self self' : t)
    (fundIn deltaUnit last_unit n : Q) (log : list LogRecord) :
  last (units self) = Some last_unit →
  update inst self fundIn deltaUnit = Ok ((n, self'), log) →
  let unit := last_unit + deltaUnit in
  (total0 self' = total0 self ∧ winningPer self' = winningPer self ∧
   losingPer self' = losingPer self ∧
   sellingPerWin self' = sellingPerWin self ∧
   sellingPerLose self' = sellingPerLose self) ∧
  (unit == 0 →
     n = 0 ∧ units self' = units self ∧ funds self' = funds self) ∧
  (¬ unit == 0 →
     ∃ u f, units self' = units self ++ [u] ∧ u == unit + n ∧
            funds self' = funds self ++ [f] ∧
            f == fundIn + n * Instrument.price inst).
Proof.
  intros Hlast Hupd unit.
  destruct (Qeq_dec unit 0) as [Hzero|Hunit].
  - unfold update, last_item in Hupd.
    replace (units (observe inst self)) with (units self) in Hupd
      by reflexivity.
    rewrite Hlast, bind_ret in Hupd. fold unit in Hupd.
    apply Qeq_bool_iff in Hzero as Hb. rewrite Hb in Hupd.
    injection Hupd as <- <- <-.
    split; [repeat split|]. split; [repeat split | tauto].
  - destruct (Qeq_dec (total0 self) 0) as [Hbase|Hbase].
    { rewrite (update_zero_baseline _ _ _ _ _ Hlast Hunit Hbase) in Hupd.
      discriminate Hupd. }
    rewrite (update_unfold _ _ _ _ _ Hlast Hunit Hbase) in Hupd.
    fold unit in Hupd. cbv zeta in Hupd.
    destruct (winning_test self _); [|destruct (losing_test self _)];
      injection Hupd as <- <- <-;
      (split; [repeat split|]); (split; [tauto|]); intros _;
      eexists _, _; (split; [reflexivity|]);
      (split; [|split; [reflexivity|]]); try reflexivity; ring.
Qed.

(** The controller is shown a proposal of 50 units it lets pass: its
    ledger then holds 60 units, whatever is executed afterwards. *)
Lemma threshold_update_ledger_witness :
  ∃ n self' log u,
    update (Scenario.inst_at 1 104) Scenario.tc_default 0 50
      = Ok ((n, self'), log) ∧
    units self' = [10; u] ∧ u == 60 + n.
Proof.
  destruct (update (Scenario.inst_at 1 104) Scenario.tc_default 0 50)
    as [[[n self'] log]|e] eqn:Hupd; [|vm_compute in Hupd; discriminate Hupd].
  destruct (threshold_update_ledger (Scenario.inst_at 1 104)
              Scenario.tc_default self' 0 50 10 n log)
    as (_ & _ & Hledger); [reflexivity | exact Hupd |].
  destruct Hledger as (u & f & Hunits & Hu & _); [qcompute|].
  exists n, self', log, u. split; [reflexivity|].
  split; [exact Hunits|]. rewrite Hu. ring.
Defined.

End ThresholdControlMore.

(** ** Chasing: construction, flags, stack and amounts *)

Section ChasingMore.

Import Chasing.

(** X14: construction accepts exactly the modes "chase" and "safety" and
    raises [ValueError] on any other; every trend other than -1 is stored
    as 1; the subroutine starts idle, with no direction, an empty stack, and
    with its two thresholds one gap above and below the construction
    price. *)
Theorem new_validates_mode (inst : Instrument.t) (unit trend : Q)
    (mode_chase : string) (gap upper_limit lower_limit init inc
    safetyamount : Q) :
  let result := new inst unit trend mode_chase gap upper_limit lower_limit
                  init inc safetyamount in
  (mode_chase ≠ "chase" ∧ mode_chase ≠ "safety"
   ↔ ∃ msg, result = Err (ValueError msg)) ∧
  (mode_chase = "chase" ∨ mode_chase = "safety" →
   ∃ c, result = Ok (c, [InitIs init]) ∧
        mode c = mode_chase ∧
        (trend == -1 → Chasing.trend c = trend) ∧
        (¬ trend == -1 → Chasing.trend c = 1) ∧
        direction c = 0%Z ∧ stack c = 0%Z ∧ buysell c = 0%Z ∧
        prices c = [Instrument.price inst] ∧
        times c = [Instrument.ts inst] ∧
        nextStepUp c = Instrument.price inst + gap ∧
        nextStepDown c = Instrument.price inst - gap).
Proof.
  cbv zeta. unfold new.
  destruct (String.eqb mode_chase "chase") eqn:Hchase;
    [apply String.eqb_eq in Hchase | apply String.eqb_neq in Hchase];
    (destruct (String.eqb mode_chase "safety") eqn:Hsafety;
     [apply String.eqb_eq in Hsafety | apply String.eqb_neq in Hsafety]);
    cbn [orb negb]; unfold_M.
  1-3: split;
    [split; [intros [H1 H2]; tauto | intros [msg [=]]]|];
    intros _; eexists; (split; [reflexivity|]); cbn;
    (destruct (Qeq_bool trend (-1)) eqn:Htrend;
     [apply Qeq_bool_iff in Htrend | apply Qeq_bool_ne in Htrend]);
    cbn; repeat split; tauto.
  split; [split; [eauto | tauto] | tauto].
Qed.

Lemma new_validates_mode_witness :
  ∃ msg, new (Scenario.inst_at 0 100) 0 1 "hold" 5 1 0.5 50 10 20
         = Err (ValueError msg).
Proof.
  apply (new_validates_mode (Scenario.inst_at 0 100) 0 1 "hold" 5 1 0.5 50
           10 20).
  split; discriminate.
Defined.

(** The three ways in which an [update] that returns has ended. *)
Lemma chasing_update_inv (inst : Instrument.t) (self self' : t)
    (amount : Q) (log : list LogRecord) :
  update inst self = Ok ((amount, self'), log) →
  let price := Instrument.price inst in
  ∃ price0,
    last (prices self) = Some price0 ∧ log = [] ∧
    ((price == price0 ∧ amount = 0 ∧ self' = observe inst self) ∨
     (¬ price == price0 ∧ direction self = 0%Z ∧ amount = 0 ∧
      self' = set_direction (move price0 price) (observe inst self)) ∨
     (¬ price == price0 ∧ direction self ≠ 0%Z ∧
      (amount, self') =
        let dir := move price0 price in
        let s := turn price0 dir (observe inst self) in
        if String.eqb (mode self) "chase" then
          if Qeq_bool (trend self) 1 then chase_up price s
          else chase_down price s
        else
          if Qeq_bool (trend self) 1 then safety_up price dir s
          else safety_down price dir s)).
Proof.
  intros Hupd price.
  destruct (last (prices self)) as [price0|] eqn:Hlast.
  2: { unfold update, last_item in Hupd. rewrite Hlast in Hupd.
       discriminate Hupd. }
  exists price0. split; [reflexivity|].
  destruct (Qeq_dec price price0) as [Hsame|Hmove].
  - assert (Hz : move price0 price = 0%Z) by now apply move_zero_iff.
    unfold update, last_item in Hupd. rewrite Hlast, bind_ret in Hupd.
    fold price in Hupd. rewrite Hz in Hupd. injection Hupd as <- <- <-.
    split; [reflexivity|]. left. auto.
  - destruct (Z.eq_dec (direction self) 0%Z) as [Hdir|Hdir].
    + assert (Hz : (move price0 price =? 0)%Z = false).
      { apply Z.eqb_neq. now rewrite move_zero_iff. }
      unfold update, last_item in Hupd. rewrite Hlast, bind_ret in Hupd.
      fold price in Hupd. rewrite Hz in Hupd.
      replace (direction (observe inst self)) with (direction self) in Hupd
        by reflexivity.
      rewrite Hdir in Hupd. injection Hupd as <- <- <-.
      split; [reflexivity|]. right; left. auto.
    + rewrite (update_moving _ _ _ Hlast Hmove Hdir) in Hupd.
      injection Hupd as Hbody <-. split; [reflexivity|].
      right; right. split; [assumption|]. split; [assumption|].
      fold price in Hbody. rewrite <- Hbody. reflexivity.
Qed.

(** Breaks the bodies of [update] into their branches, with each test
    turned into the comparison it decides. *)
Ltac chasing_bodies :=
  unfold chase_up, chase_down, safety_up, safety_down, turn;
  repeat match goal with
         | |- context [if ?b then _ else _] =>
             lazymatch b with
             | context [if _ then _ else _] => fail
             | _ => destruct b eqn:?
             end
         end;
  repeat match goal with
         | H : Qle_bool _ _ = true |- _ => apply Qle_bool_iff in H
         | H : Qle_bool _ _ = false |- _ => apply Qle_bool_gt in H
         | H : Qeq_bool _ _ = true |- _ => apply Qeq_bool_iff in H
         | H : Qeq_bool _ _ = false |- _ => apply Qeq_bool_ne in H
         | H : String.eqb _ _ = true |- _ => apply String.eqb_eq in H
         | H : String.eqb _ _ = false |- _ => apply String.eqb_neq in H
         | H : (_ =? _)%Z = true |- _ => apply Z.eqb_eq in H
         | H : (_ =? _)%Z = false |- _ => apply Z.eqb_neq in H
         end;
  cbn in *.

(** What the four bodies have in common. *)
Lemma body_spec (inst : Instrument.t) (self : t) (price0 price : Q)
    (dir : Z) :
  let s := turn price0 dir (observe inst self) in
  let '(amount, s') :=
    if String.eqb (mode self) "chase" then
      if Qeq_bool (trend self) 1 then chase_up price s
      else chase_down price s
    else
      if Qeq_bool (trend self) 1 then safety_up price dir s
      else safety_down price dir s in
  let size := init self - inject_Z (stack self) * inc self in
  (* configuration and histories *)
  (mode s' = mode self ∧ trend s' = trend self ∧ total s' = total self ∧
   init s' = init self ∧ inc s' = inc self ∧
   safetyamount s' = safetyamount self ∧
   upper_limit s' = upper_limit self ∧ lower_limit s' = lower_limit self ∧
   gap s' = gap self ∧
   prices s' = prices self ++ [Instrument.price inst] ∧
   times s' = times self ++ [Instrument.ts inst] ∧ direction s' = dir) ∧
  (* the stack counts the trades of chase mode *)
  (mode self = "chase" → ¬ amount == 0 → stack s' = (stack self + 1)%Z) ∧
  (mode self = "chase" → amount == 0 → stack s' = stack self) ∧
  (mode self ≠ "chase" → stack s' = stack self) ∧
  (* amounts *)
  (mode self = "chase" → trend self == 1 →
     amount = 0 ∨ (amount = size ∧ 0 < size)) ∧
  (mode self = "chase" → ¬ trend self == 1 →
     amount = 0 ∨ (amount = - size ∧ 0 < size)) ∧
  (mode self ≠ "chase" → trend self == 1 →
     amount = 0 ∨ amount = - safetyamount self) ∧
  (mode self ≠ "chase" → ¬ trend self == 1 →
     amount = 0 ∨ amount = safetyamount self) ∧
  (* flags *)
  (¬ amount == 0 → buysell s' = 0%Z) ∧
  (buysell s' = buysell self ∨ buysell s' = 0%Z ∨ buysell s' = 1%Z
   ∨ buysell s' = (-1)%Z).
Proof.
  cbv zeta. chasing_bodies.
  all: repeat split; intros; try reflexivity; try tauto; try congruence;
    try (exfalso; lra); auto.
  all: try (right; split; [reflexivity | lra]).
  all: try lra.
Qed.

(** Every property of the three endings of [update] that holds for the
    two quiet ones and for the bodies. *)
Ltac chasing_update_cases Hupd :=
  let price0 := fresh "price0" in
  let Hlast := fresh "Hlast" in
  let Hbody := fresh "Hbody" in
  let Hspec := fresh "Hspec" in
  lazymatch type of Hupd with
  | update ?inst ?self = _ =>
      apply chasing_update_inv in Hupd;
      destruct Hupd as (price0 & Hlast & -> &
        [(Hsame & -> & ->)|[(Hmove & Hdir & -> & ->)
                            |(Hmove & Hdir & Hbody)]]);
      [ | | pose proof (body_spec inst self price0 (Instrument.price inst)
                          (move price0 (Instrument.price inst))) as Hspec;
            cbv zeta in Hspec, Hbody; rewrite <- Hbody in Hspec;
            clear Hbody ]
  end.

Lemma chasing_update_returns (inst : Instrument.t) (self : t) :
  prices self ≠ [] → ∃ r, update inst self = Ok r.
Proof.
  intros Hne. unfold update, last_item.
  destruct (last (prices self)) as [price0|] eqn:Hlast.
  - rewrite bind_ret. repeat case_match; eauto.
  - apply last_None in Hlast. contradiction.
Qed.

(** X15: [update] raises only on an empty price history ([IndexError]).
    Otherwise it returns without logging, appends the price and the
    timestamp to its histories and leaves the configured mode, trend,
    amounts, limits and gap as they were. *)
Theorem chasing_update_frame (inst : Instrument.t) (self : t) :
  (prices self = [] → update inst self = Err IndexError) ∧
  (prices self ≠ [] →
   ∃ amount self',
     update inst self = Ok ((amount, self'), []) ∧
     prices self' = prices self ++ [Instrument.price inst] ∧
     times self' = times self ++ [Instrument.ts inst] ∧
     mode self' = mode self ∧ trend self' = trend self ∧
     total self' = total self ∧ init self' = init self ∧
     inc self' = inc self ∧ safetyamount self' = safetyamount self ∧
     upper_limit self' = upper_limit self ∧
     lower_limit self' = lower_limit self ∧ gap self' = gap self).
Proof.
  split.
  - intros Hempty. unfold update, last_item. now rewrite Hempty.
  - intros Hne.
    destruct (chasing_update_returns inst self Hne)
      as ([[amount self'] log] & Hupd).
    exists amount, self'. pose proof Hupd as Hcases.
    chasing_update_cases Hcases.
    + split; [exact Hupd|]. repeat split.
    + split; [exact Hupd|]. repeat split.
    + split; [exact Hupd|]. destruct Hspec as (Hframe & _). tauto.
Qed.

Lemma chasing_update_frame_witness :
  ∃ amount self',
    update (Scenario.inst_at 3 106) Scenario.chase_rising
      = Ok ((amount, self'), []) ∧
    prices self' = [100; 102; 104; 106] ∧ gap self' = 5.
Proof.
  destruct (chasing_update_frame (Scenario.inst_at 3 106)
              Scenario.chase_rising) as (_ & Hret).
  destruct Hret as (amount & self' & Hupd & Hprices & Hrest);
    [discriminate|].
  exists amount, self'. split; [exact Hupd|]. split; [exact Hprices|].
  apply Hrest.
Defined.

(** X16: the stack counts the trades of chase mode: an [update] that
    returns a nonzero amount in chase mode adds one to the stack, and every
    other [update] leaves it as it was; the stack never decreases. *)
Theorem stack_counts_chase_trades (inst : Instrument.t) (self self' : t)
    (amount : Q) (log : list LogRecord) :
  update inst self = Ok ((amount, self'), log) →
  (mode self = "chase" → ¬ amount == 0 → stack self' = (stack self + 1)%Z) ∧
  (amount == 0 → stack self' = stack self) ∧
  (mode self ≠ "chase" → stack self' = stack self) ∧
  (stack self <= stack self')%Z.
Proof.
  intros Hupd. chasing_update_cases Hupd.
  - repeat split; intros; try reflexivity; try lia.
    exfalso; auto with qarith.
  - repeat split; intros; try reflexivity; try lia.
    exfalso; auto with qarith.
  - destruct Hspec as (_ & Hinc & Hsame & Hsafety & _).
    split; [exact Hinc|].
    destruct (String.eqb_spec (mode self) "chase") as [Hm|Hm].
    + split; [auto|]. split; [tauto|].
      destruct (Qeq_dec amount 0) as [Hz|Hnz].
      * rewrite (Hsame Hm Hz). lia.
      * rewrite (Hinc Hm Hnz). lia.
    + rewrite (Hsafety Hm). repeat split; intros; lia.
Qed.

Lemma stack_counts_chase_trades_witness :
  ∃ amount self' log,
    update (Scenario.inst_at 3 106) Scenario.chase_rising
      = Ok ((amount, self'), log) ∧
    stack self' = 1%Z.
Proof.
  destruct (update (Scenario.inst_at 3 106) Scenario.chase_rising)
    as [[[amount self'] log]|e] eqn:Hupd; [|vm_compute in Hupd; discriminate].
  exists amount, self', log. split; [reflexivity|].
  destruct (stack_counts_chase_trades _ _ _ _ _ Hupd) as (Hinc & _).
  apply Hinc; [reflexivity|].
  vm_compute in Hupd. injection Hupd as <- _ _. qcompute.
Defined.

(** X17: what an [update] can return, by mode and trend.  Chase mode with
    trend 1 never sells: it returns 0 or the positive size
    [init - stack * inc]; with the other trend it returns 0 or the negated
    positive size.  Safety mode returns 0 or its fixed amount, negated when
    the trend is 1. *)
Theorem amount_by_mode (inst : Instrument.t) (self self' : t)
    (amount : Q) (log : list LogRecord) :
  update inst self = Ok ((amount, self'), log) →
  let size := init self - inject_Z (stack self) * inc self in
  (mode self = "chase" → trend self == 1 →
     amount = 0 ∨ (amount = size ∧ 0 < size)) ∧
  (mode self = "chase" → ¬ trend self == 1 →
     amount = 0 ∨ (amount = - size ∧ 0 < size)) ∧
  (mode self ≠ "chase" → trend self == 1 →
     amount = 0 ∨ amount = - safetyamount self) ∧
  (mode self ≠ "chase" → ¬ trend self == 1 →
     amount = 0 ∨ amount = safetyamount self).
Proof.
  intros Hupd size. chasing_update_cases Hupd.
  - repeat split; intros; left; reflexivity.
  - repeat split; intros; left; reflexivity.
  - destruct Hspec as (_ & _ & _ & _ & H1 & H2 & H3 & H4 & _).
    repeat split; assumption.
Qed.

Lemma amount_by_mode_witness :
  ∃ amount self' log,
    update (Scenario.inst_at 3 106) Scenario.chase_rising
      = Ok ((amount, self'), log) ∧
    (amount = 0 ∨ (amount = 50 - inject_Z 0 * 10 ∧ 0 < 50 - inject_Z 0 * 10)).
Proof.
  destruct (update (Scenario.inst_at 3 106) Scenario.chase_rising)
    as [[[amount self'] log]|e] eqn:Hupd; [|vm_compute in Hupd; discriminate].
  exists amount, self', log. split; [reflexivity|].
  destruct (amount_by_mode _ _ _ _ _ Hupd) as (Hchase & _).
  apply Hchase; [reflexivity | qcompute].
Defined.

(** X18: the armed flag.  An [update] that returns a nonzero amount leaves
    the subroutine disarmed, and the flag never leaves its three values
    -1, 0 and 1. *)
Theorem trade_disarms (inst : Instrument.t) (self self' : t)
    (amount : Q) (log : list LogRecord) :
  update inst self = Ok ((amount, self'), log) →
  (¬ amount == 0 → buysell self' = 0%Z) ∧
  ((-1 <= buysell self <= 1)%Z → (-1 <= buysell self' <= 1)%Z).
Proof.
  intros Hupd. chasing_update_cases Hupd.
  - split; [intros H; exfalso; auto with qarith | auto].
  - split; [intros H; exfalso; auto with qarith | auto].
  - destruct Hspec as (_ & _ & _ & _ & _ & _ & _ & _ & Hdis & Hdom).
    split; [exact Hdis|]. intros Hb. lia.
Qed.

Lemma trade_disarms_witness :
  ∃ amount self' log,
    update (Scenario.inst_at 3 106) Scenario.chase_rising
      = Ok ((amount, self'), log) ∧
    buysell self' = 0%Z.
Proof.
  destruct (update (Scenario.inst_at 3 106) Scenario.chase_rising)
    as [[[amount self'] log]|e] eqn:Hupd; [|vm_compute in Hupd; discriminate].
  exists amount, self', log. split; [reflexivity|].
  apply (trade_disarms _ _ _ _ _ Hupd).
  vm_compute in Hupd. injection Hupd as <- _ _. qcompute.
Defined.

(** X19: the direction.  The first move after construction only records
    its direction: nothing is returned and the stack, the flag, the
    thresholds and the extrema stay as they were, whatever threshold the
    price has crossed.  Once recorded, the direction is never unset
    again. *)
Theorem first_move_records_direction (inst : Instrument.t) (self self' : t)
    (amount : Q) (log : list LogRecord) :
  update inst self = Ok ((amount, self'), log) →
  (direction self = 0%Z →
     amount = 0 ∧ stack self' = stack self ∧ buysell self' = buysell self ∧
     nextStepUp self' = nextStepUp self ∧
     nextStepDown self' = nextStepDown self ∧
     high self' = high self ∧ low self' = low self ∧
     ∀ price0, last (prices self) = Some price0 →
               direction self' = move price0 (Instrument.price inst)) ∧
  (direction self ≠ 0%Z → direction self' ≠ 0%Z).
Proof.
  intros Hupd. chasing_update_cases Hupd.
  - split; [|auto]. intros Hdir. repeat split.
    intros p Hp. rewrite Hp in Hlast. injection Hlast as ->.
    cbn. rewrite Hdir. symmetry. now apply move_zero_iff.
  - split; [|tauto]. intros _. repeat split.
    intros p Hp. rewrite Hp in Hlast. injection Hlast as ->. reflexivity.
  - split; [tauto|]. intros _.
    destruct Hspec as ((_ & _ & _ & _ & _ & _ & _ & _ & _ & _ & _ & ->) & _).
    now rewrite move_zero_iff.
Qed.

Lemma first_move_records_direction_witness :
  ∃ amount self' log,
    update (Scenario.inst_at 1 106) Scenario.safety_idle
      = Ok ((amount, self'), log) ∧
    amount = 0 ∧ buysell self' = 0%Z ∧ nextStepUp self' = 105.
Proof.
  destruct (update (Scenario.inst_at 1 106) Scenario.safety_idle)
    as [[[amount self'] log]|e] eqn:Hupd; [|vm_compute in Hupd; discriminate].
  exists amount, self', log. split; [reflexivity|].
  destruct (first_move_records_direction _ _ _ _ _ Hupd) as (Hfirst & _).
  destruct (Hfirst eq_refl) as (Ha & _ & Hb & Hu & _).
  repeat split; assumption.
Defined.

(** X20: chase mode stops for good once the stack has used up the initial
    size: when [init - stack * inc <= 0], every sequence of ticks returns
    only zeros and leaves the stack where it is. *)
Theorem exhausted_stack_never_trades (ticks : list Instrument.t) (self : t) :
  mode self = "chase" →
  init self - inject_Z (stack self) * inc self <= 0 →
  prices self ≠ [] →
  ∃ self',
    Scenario.feed update ticks self
      = Ok ((repeat 0 (length ticks), self'), []) ∧
    stack self' = stack self.
Proof.
  revert self. induction ticks as [|inst ticks IH]; intros self Hmode Hsize Hne.
  - exists self. split; reflexivity.
  - destruct (chasing_update_returns inst self Hne)
      as ([[amount s1] log] & Hupd).
    assert (Hstep : amount = 0 ∧ log = [] ∧ mode s1 = "chase" ∧
                    init s1 = init self ∧ inc s1 = inc self ∧
                    stack s1 = stack self ∧ prices s1 ≠ []).
    { pose proof Hupd as Hcases. chasing_update_cases Hcases.
      - repeat split; try assumption. cbn. intros H.
        apply app_eq_nil in H as [_ [=]].
      - repeat split; try assumption. cbn. intros H.
        apply app_eq_nil in H as [_ [=]].
      - destruct Hspec
          as ((Hm & _ & _ & Hi & Hc & _ & _ & _ & _ & Hp & _) & _ & Hsame & _
              & Hup & Hdown & _).
        assert (Hzero : amount = 0).
        { destruct (Qeq_dec (trend self) 1) as [Ht|Ht].
          - destruct (Hup Hmode Ht) as [H|[_ H]]; [exact H | lra].
          - destruct (Hdown Hmode Ht) as [H|[_ H]]; [exact H | lra]. }
        subst amount. repeat split; try congruence.
        + apply Hsame; [exact Hmode | reflexivity].
        + rewrite Hp. intros H. apply app_eq_nil in H as [_ [=]]. }
    destruct Hstep as (-> & -> & Hm & Hi & Hc & Hs & Hp).
    destruct (IH s1) as (self' & Hfeed & Hstack').
    + exact Hm.
    + rewrite Hi, Hc, Hs. exact Hsize.
    + exact Hp.
    + exists self'. split; [|congruence].
      cbn [Scenario.feed length repeat].
      eapply bind_Ok; [exact Hupd | | reflexivity].
      eapply bind_Ok; [exact Hfeed | reflexivity | reflexivity].
Qed.

(** With [init = 50] and [inc = 10], a stack of 5 is exhausted: the ticks
    at 106 and 120, both above the threshold, buy nothing. *)
Lemma exhausted_stack_never_trades_witness :
  ∃ self',
    Scenario.feed update [Scenario.inst_at 3 106; Scenario.inst_at 4 120]
      (set_stack 5 Scenario.chase_rising) = Ok (([0; 0], self'), []) ∧
    stack self' = 5%Z.
Proof.
  apply (exhausted_stack_never_trades
           [Scenario.inst_at 3 106; Scenario.inst_at 4 120]
           (set_stack 5 Scenario.chase_rising));
    [reflexivity | qcompute | discriminate].
Defined.

End ChasingMore.

(** ** TurningPoint: construction, ledger, alternation and sizes *)

Section TurningPointMore.

Import TurningPoint.

(** X21: construction accepts exactly the modes "increase", "decrease"
    and "size" and raises [ValueError] on any other; the subroutine starts
    with an empty ledger, no trade counted, no direction, and both sizes
    equal to [n]. *)
Theorem turning_new_validates_mode (inst : Instrument.t)
    (mode_turning : string) (buysell n n_delta h : Q) :
  let result := new inst mode_turning buysell n n_delta h in
  (mode_turning ≠ "increase" ∧ mode_turning ≠ "decrease"
   ∧ mode_turning ≠ "size"
   ↔ ∃ msg, result = Err (ValueError msg)) ∧
  (mode_turning = "increase" ∨ mode_turning = "decrease"
   ∨ mode_turning = "size" →
   ∃ tp, result = Ok (tp, []) ∧
         mode tp = mode_turning ∧ TurningPoint.buysell tp = buysell ∧
         selling tp = n ∧ buying tp = n ∧ gain tp = 0 ∧ cnt tp = 0%Z ∧
         direction tp = 0%Z ∧ prices tp = [Instrument.price inst] ∧
         highs tp = [] ∧ lows tp = [] ∧ gains tp = []).
Proof.
  cbv zeta. unfold new.
  destruct (String.eqb mode_turning "increase") eqn:H1;
    [apply String.eqb_eq in H1 | apply String.eqb_neq in H1];
    (destruct (String.eqb mode_turning "decrease") eqn:H2;
     [apply String.eqb_eq in H2 | apply String.eqb_neq in H2]);
    (destruct (String.eqb mode_turning "size") eqn:H3;
     [apply String.eqb_eq in H3 | apply String.eqb_neq in H3]);
    cbn [orb negb]; unfold_M.
  1-7: split;
    [split; [intros (? & ? & ?); tauto | intros [msg [=]]]|];
    intros _; eexists; (split; [reflexivity|]); cbn; repeat split.
  split; [split; [eauto | tauto] | tauto].
Qed.

Lemma turning_new_validates_mode_witness :
  ∃ msg, new (Scenario.inst_at 0 100) "hold" (-1) 10 1 1
         = Err (ValueError msg).
Proof.
  apply (turning_new_validates_mode (Scenario.inst_at 0 100) "hold" (-1) 10
           1 1).
  repeat split; discriminate.
Defined.

Lemma step_inv (price : Q) (s : t) (d : Q) (l : list LogRecord) :
  step price s = Ok (d, l) →
  ¬ price == 0 ∧ d == clipped_step (n_delta s) (gain s / price).
Proof.
  intros Hstep.
  destruct (Qeq_dec price 0) as [Hz|Hnz].
  - unfold step, py_div in Hstep. apply Qeq_bool_iff in Hz.
    rewrite Hz in Hstep. discriminate Hstep.
  - split; [exact Hnz|].
    destruct (step_ok price s Hnz) as (d' & l' & Hok & Hd).
    rewrite Hok in Hstep. now injection Hstep as <- _.
Qed.

(** The adaptive step lies between 0 and the configured increment floored
    at 0. *)
Lemma clipped_step_bounds (n_delta r : Q) :
  0 <= clipped_step n_delta r <= Qmax 0 n_delta.
Proof.
  unfold clipped_step.
  destruct (Qle_bool n_delta r) eqn:Hle;
    [apply Qle_bool_iff in Hle | apply Qle_bool_gt in Hle].
  - split; [apply Q.le_max_l | apply Qle_refl].
  - split; [apply Q.le_max_l|].
    apply Q.max_lub; [apply Q.le_max_l|].
    destruct (Qlt_le_dec r 0) as [Hneg|Hpos].
    + pose proof (py_int_neg r Hneg) as Hi.
      assert (inject_Z (py_int r) <= 0).
      { change 0 with (inject_Z 0). now rewrite <- Zle_Qle. }
      pose proof (Q.le_max_l 0 n_delta). lra.
    + rewrite (py_int_nonneg r Hpos). pose proof (Qfloor_le r).
      pose proof (Q.le_max_r 0 n_delta). lra.
Qed.

(** The endings of an [update] that returns: the two quiet ones, the tick
    without a trade, and the tick with one. *)
Lemma turning_update_inv (inst : Instrument.t) (self self' : t)
    (amount : Q) (log : list LogRecord) :
  update inst self = Ok ((amount, self'), log) →
  let price := Instrument.price inst in
  ∃ price0,
    last (prices self) = Some price0 ∧
    ((price == price0 ∧ amount = 0 ∧ self' = observe inst self) ∨
     (¬ price == price0 ∧ direction self = 0%Z ∧ amount = 0 ∧
      self' = set_direction (move price0 price) (observe inst self)) ∨
     (¬ price == price0 ∧ direction self ≠ 0%Z ∧
      ∃ s1,
        (amount, s1) =
          decide_trade price (move price0 price)
            (turn price0 (move price0 price) (observe inst self)) ∧
        ((amount == 0 ∧ self' = append_gain s1) ∨
         (¬ amount == 0 ∧ ¬ price == 0 ∧
          ∃ d, d == clipped_step (n_delta s1) (gain s1 / price) ∧
               self' = adapt d (incr_cnt (append_gain s1)))))).
Proof.
  intros Hupd price.
  destruct (last (prices self)) as [price0|] eqn:Hlast.
  2: { unfold update, last_item in Hupd. rewrite Hlast in Hupd.
       discriminate Hupd. }
  exists price0. split; [reflexivity|].
  unfold update, last_item in Hupd. rewrite Hlast, bind_ret in Hupd.
  fold price in Hupd. cbv zeta in Hupd.
  destruct (Qeq_dec price price0) as [Hsame|Hmove].
  - assert (Hz : move price0 price = 0%Z) by now apply move_zero_iff.
    rewrite Hz in Hupd. injection Hupd as <- <- _. left. auto.
  - assert (Hz : (move price0 price =? 0)%Z = false).
    { apply Z.eqb_neq. now rewrite move_zero_iff. }
    rewrite Hz in Hupd.
    replace (direction (observe inst self)) with (direction self) in Hupd
      by reflexivity.
    destruct (Z.eq_dec (direction self) 0%Z) as [Hdir|Hdir].
    + rewrite Hdir in Hupd. injection Hupd as <- <- _. right; left. auto.
    + apply Z.eqb_neq in Hdir as Hb. rewrite Hb in Hupd.
      right; right. split; [assumption|]. split; [assumption|].
      destruct (decide_trade price (move price0 price) _) as [a s1].
      exists s1.
      destruct (Qeq_bool a 0) eqn:Ha;
        [apply Qeq_bool_iff in Ha | apply Qeq_bool_ne in Ha];
        cbn [negb] in Hupd.
      * injection Hupd as <- <- _. split; [reflexivity|]. left. auto.
      * apply bind_inv in Hupd as (d & l1 & l2 & Hstep & Hret & _).
        injection Hret as <- <- _. split; [reflexivity|]. right.
        apply step_inv in Hstep as (Hprice & Hd). cbn in Hd.
        split; [assumption|]. split; [assumption|]. eauto.
Qed.

Lemma move_up_iff (price0 price : Q) :
  (0 < move price0 price)%Z ↔ price0 < price.
Proof.
  unfold move.
  destruct (Qltb price0 price) eqn:Hup;
    [apply Qltb_lt in Hup | apply Qltb_ge in Hup].
  { split; [auto | lia]. }
  destruct (Qltb price price0); split; intros; try lia; lra.
Qed.

Lemma move_down_iff (price0 price : Q) :
  (move price0 price < 0)%Z ↔ price < price0.
Proof.
  unfold move.
  destruct (Qltb price0 price) eqn:Hup;
    [apply Qltb_lt in Hup | apply Qltb_ge in Hup].
  { split; [lia | lra]. }
  destruct (Qltb price price0) eqn:Hdown;
    [apply Qltb_lt in Hdown | apply Qltb_ge in Hdown].
  { split; [auto | lia]. }
  split; [lia | lra].
Qed.

(** What the trade decision of a tick does to each field. *)
Lemma trade_spec (inst : Instrument.t) (self : t) (price0 price : Q)
    (dir : Z) :
  let '(amount, s1) :=
    decide_trade price dir (turn price0 dir (observe inst self)) in
  (gain s1 == gain self - amount * price ∧
   buying s1 = buying self ∧ selling s1 = selling self ∧
   cnt s1 = cnt self ∧ n_delta s1 = n_delta self ∧ h s1 = h self ∧
   mode s1 = mode self ∧ pt s1 = pt self ∧ gains s1 = gains self ∧
   prices s1 = prices self ++ [Instrument.price inst] ∧
   times s1 = times self ++ [Instrument.ts inst] ∧ direction s1 = dir) ∧
  (¬ amount == 0 →
     (buysell self == 1 ∧ amount = buying self ∧ buysell s1 = -1) ∨
     (buysell self == -1 ∧ amount = - selling self ∧ buysell s1 = 1)) ∧
  (¬ buysell self == 1 → ¬ buysell self == -1 →
     amount = 0 ∧ buysell s1 = buysell self) ∧
  ((0 < direction self)%Z ∧ (dir < 0)%Z →
     high s1 = price0 ∧ highs s1 = highs self ++ [price0] ∧
     low s1 = low self ∧ lows s1 = lows self) ∧
  ((direction self < 0)%Z ∧ (0 < dir)%Z →
     low s1 = price0 ∧ lows s1 = lows self ++ [price0] ∧
     high s1 = high self ∧ highs s1 = highs self) ∧
  (¬ ((0 < direction self)%Z ∧ (dir < 0)%Z) →
   ¬ ((direction self < 0)%Z ∧ (0 < dir)%Z) →
     high s1 = high self ∧ highs s1 = highs self ∧
     low s1 = low self ∧ lows s1 = lows self).
Proof.
  unfold decide_trade, turn.
  repeat match goal with
         | |- context [if ?b then _ else _] =>
             lazymatch b with
             | context [if _ then _ else _] => fail
             | _ => destruct b eqn:?
             end
         end;
  repeat match goal with
         | H : _ && _ = true |- _ => apply andb_true_iff in H as [? ?]
         | H : _ && _ = false |- _ => apply andb_false_iff in H
         | H : Qle_bool _ _ = true |- _ => apply Qle_bool_iff in H
         | H : Qeq_bool _ _ = true |- _ => apply Qeq_bool_iff in H
         | H : (_ <? _)%Z = true |- _ => apply Z.ltb_lt in H
         | H : (_ =? _)%Z = true |- _ => apply Z.eqb_eq in H
         end;
  cbn in *.
  all: repeat split; intros; try reflexivity; try ring; try tauto;
    try (exfalso; auto with qarith; fail); try lia.
  all: try (left; repeat split; try assumption; reflexivity).
  all: try (right; repeat split; try assumption; reflexivity).
  all: try (exfalso;
            repeat match goal with
                   | H : _ ∨ _ |- _ => destruct H
                   | H : (_ <? _)%Z = false |- _ => apply Z.ltb_ge in H
                   end; lia).
Qed.

(** Applies [trade_spec] to the three endings of [update]. *)
Ltac turning_update_cases Hupd :=
  let price0 := fresh "price0" in
  let Hlast := fresh "Hlast" in
  let Hbody := fresh "Hbody" in
  let Hspec := fresh "Hspec" in
  let s1 := fresh "s1" in
  lazymatch type of Hupd with
  | update ?inst ?self = _ =>
      apply turning_update_inv in Hupd;
      destruct Hupd as (price0 & Hlast &
        [(Hsame & -> & ->)|[(Hmove & Hdir & -> & ->)
                           |(Hmove & Hdir & s1 & Hbody & Hend)]]);
      [ | | pose proof (trade_spec inst self price0 (Instrument.price inst)
                          (move price0 (Instrument.price inst))) as Hspec;
            cbv zeta in Hbody; rewrite <- Hbody in Hspec; clear Hbody;
            destruct Hend as [(Hzero & ->)|(Hnz & Hprice & d & Hd & ->)] ]
  end.

(** X22: the ledger.  An [update] that returns has debited the ledger by
    the amount it returns times the price: a purchase lowers it, a sale
    raises it, and a tick without a trade leaves it alone. *)
Theorem ledger_debit (inst : Instrument.t) (self self' : t) (amount : Q)
    (log : list LogRecord) :
  update inst self = Ok ((amount, self'), log) →
  gain self' == gain self - amount * Instrument.price inst.
Proof.
  intros Hupd. turning_update_cases Hupd.
  - cbn. ring.
  - cbn. ring.
  - destruct Hspec as ((Hg & _) & _). exact Hg.
  - destruct Hspec as ((Hg & _) & _).
    destruct (adapt_fields d (incr_cnt (append_gain s1))) as (-> & _).
    exact Hg.
Qed.

Lemma ledger_debit_witness :
  ∃ amount self' log,
    update (Scenario.inst_at 2 132) Scenario.turning_rising
      = Ok ((amount, self'), log) ∧
    gain self' == 0 - amount * 132.
Proof.
  destruct (update (Scenario.inst_at 2 132) Scenario.turning_rising)
    as [[[amount self'] log]|e] eqn:Hupd; [|vm_compute in Hupd; discriminate].
  exists amount, self', log. split; [reflexivity|].
  exact (ledger_debit _ _ _ _ _ Hupd).
Defined.

(** X23: trades alternate.  A nonzero amount is either a purchase of
    exactly [buying] units while a purchase was pending, after which a sale
    is pending, or a sale of exactly [selling] units while a sale was
    pending, after which a purchase is pending.  A subroutine whose pending
    flag is neither 1 nor -1 never trades. *)
Theorem trades_alternate (inst : Instrument.t) (self self' : t) (amount : Q)
    (log : list LogRecord) :
  update inst self = Ok ((amount, self'), log) →
  (¬ amount == 0 →
     (buysell self == 1 ∧ amount = buying self ∧ buysell self' = -1) ∨
     (buysell self == -1 ∧ amount = - selling self ∧ buysell self' = 1)) ∧
  (¬ buysell self == 1 → ¬ buysell self == -1 →
     amount = 0 ∧ buysell self' = buysell self).
Proof.
  intros Hupd. turning_update_cases Hupd.
  - split; [intros H; exfalso; auto with qarith | auto].
  - split; [intros H; exfalso; auto with qarith | auto].
  - destruct Hspec as (_ & Halt & Hidle & _). split; [tauto | exact Hidle].
  - destruct Hspec as (_ & Halt & Hidle & _).
    assert (Hb : buysell (adapt d (incr_cnt (append_gain s1))) = buysell s1).
    { unfold adapt. repeat case_match; reflexivity. }
    rewrite Hb. split; [exact Halt | exact Hidle].
Qed.

Lemma trades_alternate_witness :
  ∃ amount self' log,
    update (Scenario.inst_at 2 132) Scenario.turning_rising
      = Ok ((amount, self'), log) ∧
    amount = -10 ∧ buysell self' = 1.
Proof.
  destruct (update (Scenario.inst_at 2 132) Scenario.turning_rising)
    as [[[amount self'] log]|e] eqn:Hupd; [|vm_compute in Hupd; discriminate].
  exists amount, self', log. split; [reflexivity|].
  destruct (trades_alternate _ _ _ _ _ Hupd) as (Halt & _).
  assert (Hnz : ¬ amount == 0).
  { vm_compute in Hupd. injection Hupd as <- _ _. qcompute. }
  destruct (Halt Hnz) as [(Hb & _)|(_ & Ha & Hb)].
  - exfalso. revert Hb. qcompute.
  - split; [exact Ha | exact Hb].
Defined.

(** X24: the sizes never shrink.  An [update] that returns leaves [buying]
    and [selling] at least as large as they were, adds at most the
    configured increment floored at 0, and changes neither on a tick
    without a trade; mode "increase" never touches [selling] and mode
    "decrease" never touches [buying]. *)
Theorem sizes_never_shrink (inst : Instrument.t) (self self' : t)
    (amount : Q) (log : list LogRecord) :
  update inst self = Ok ((amount, self'), log) →
  (buying self <= buying self' ∧
   buying self' <= buying self + Qmax 0 (n_delta self)) ∧
  (selling self <= selling self' ∧
   selling self' <= selling self + Qmax 0 (n_delta self)) ∧
  (amount == 0 → buying self' = buying self ∧ selling self' = selling self) ∧
  (mode self = "increase" → selling self' = selling self) ∧
  (mode self = "decrease" → buying self' = buying self).
Proof.
  intros Hupd.
  pose proof (Q.le_max_l 0 (n_delta self)) as Hmax.
  turning_update_cases Hupd.
  - cbn. repeat split; intros; try reflexivity; lra.
  - cbn. repeat split; intros; try reflexivity; lra.
  - destruct Hspec as ((_ & Hbuy & Hsell & _) & _). cbn.
    rewrite Hbuy, Hsell. repeat split; intros; try reflexivity; lra.
  - destruct Hspec
      as ((_ & Hbuy & Hsell & _ & Hnd & _ & Hmode & _) & _).
    pose proof (clipped_step_bounds (n_delta s1) (gain s1 / Instrument.price inst))
      as [Hd0 Hd1].
    rewrite <- Hd in Hd0, Hd1. rewrite Hnd in Hd1.
    set (s3 := incr_cnt (append_gain s1)).
    assert (Hs3 : buying s3 = buying self ∧ selling s3 = selling self ∧
                  mode s3 = mode self) by (unfold s3; cbn; auto).
    destruct Hs3 as (Hb3 & Hs3 & Hm3).
    unfold adapt. rewrite Hm3.
    destruct (String.eqb_spec (mode self) "increase") as [Hi|Hi];
      [|destruct (String.eqb_spec (mode self) "decrease") as [Hde|Hde]];
      cbn; rewrite ?Hbuy, ?Hsell;
      (split; [split; lra|]); (split; [split; lra|]);
      (split; [intros Hz; contradiction|]);
      split; intros Hm; try reflexivity; congruence.
Qed.

Lemma sizes_never_shrink_witness :
  ∃ amount self' log,
    update (Scenario.inst_at 2 132) Scenario.turning_rising
      = Ok ((amount, self'), log) ∧
    10 <= buying self' ∧ buying self' <= 10 + Qmax 0 1.5 ∧
    selling self' = 10.
Proof.
  destruct (update (Scenario.inst_at 2 132) Scenario.turning_rising)
    as [[[amount self'] log]|e] eqn:Hupd; [|vm_compute in Hupd; discriminate].
  exists amount, self', log. split; [reflexivity|].
  destruct (sizes_never_shrink _ _ _ _ _ Hupd)
    as ((Hlo & Hhi) & _ & _ & Hinc & _).
  split; [exact Hlo|]. split; [exact Hhi|]. apply Hinc. reflexivity.
Defined.

(** X25: the counter counts the trades: an [update] that returns a nonzero
    amount adds one to [cnt], every other one leaves it; the configured
    mode, increment, threshold [h] and starting price are never changed,
    and the price and the timestamp are appended to the histories. *)
Theorem cnt_counts_trades (inst : Instrument.t) (self self' : t)
    (amount : Q) (log : list LogRecord) :
  update inst self = Ok ((amount, self'), log) →
  (¬ amount == 0 → cnt self' = (cnt self + 1)%Z) ∧
  (amount == 0 → cnt self' = cnt self) ∧
  mode self' = mode self ∧ n_delta self' = n_delta self ∧
  h self' = h self ∧ pt self' = pt self ∧
  prices self' = prices self ++ [Instrument.price inst] ∧
  times self' = times self ++ [Instrument.ts inst].
Proof.
  intros Hupd. turning_update_cases Hupd.
  - cbn. repeat split; intros H; exfalso; auto with qarith.
  - cbn. repeat split; intros H; exfalso; auto with qarith.
  - destruct Hspec
      as ((_ & _ & _ & Hc & Hnd & Hh & Hm & Hpt & _ & Hp & Ht & _) & _).
    cbn. repeat split; try assumption; tauto.
  - destruct Hspec
      as ((_ & _ & _ & Hc & Hnd & Hh & Hm & Hpt & _ & Hp & Ht & _) & _).
    set (s3 := incr_cnt (append_gain s1)).
    assert (Hs3 : cnt (adapt d s3) = (cnt s1 + 1)%Z ∧
                  mode (adapt d s3) = mode s1 ∧
                  n_delta (adapt d s3) = n_delta s1 ∧
                  h (adapt d s3) = h s1 ∧ pt (adapt d s3) = pt s1 ∧
                  prices (adapt d s3) = prices s1 ∧
                  times (adapt d s3) = times s1).
    { unfold adapt, s3. repeat case_match; repeat split. }
    destruct Hs3 as (-> & -> & -> & -> & -> & -> & ->).
    rewrite Hc. repeat split; try assumption; tauto.
Qed.

Lemma cnt_counts_trades_witness :
  ∃ amount self' log,
    update (Scenario.inst_at 2 132) Scenario.turning_rising
      = Ok ((amount, self'), log) ∧
    cnt self' = 1%Z.
Proof.
  destruct (update (Scenario.inst_at 2 132) Scenario.turning_rising)
    as [[[amount self'] log]|e] eqn:Hupd; [|vm_compute in Hupd; discriminate].
  exists amount, self', log. split; [reflexivity|].
  apply (cnt_counts_trades _ _ _ _ _ Hupd).
  vm_compute in Hupd. injection Hupd as <- _ _. qcompute.
Defined.

(** X26: the extrema.  On a tick that turns a rising market down, the
    previous price becomes the recorded high and is appended to [highs]; on
    a tick that turns a falling market up, it becomes the recorded low and
    is appended to [lows]; every other tick leaves the extrema and their
    histories alone. *)
Theorem reversal_records_extremum (inst : Instrument.t) (self self' : t)
    (amount price0 : Q) (log : list LogRecord) :
  update inst self = Ok ((amount, self'), log) →
  last (prices self) = Some price0 →
  let price := Instrument.price inst in
  let down_turn := (0 < direction self)%Z ∧ price < price0 in
  let up_turn := (direction self < 0)%Z ∧ price0 < price in
  (down_turn →
     high self' = price0 ∧ highs self' = highs self ++ [price0] ∧
     low self' = low self ∧ lows self' = lows self) ∧
  (up_turn →
     low self' = price0 ∧ lows self' = lows self ++ [price0] ∧
     high self' = high self ∧ highs self' = highs self) ∧
  (¬ down_turn → ¬ up_turn →
     high self' = high self ∧ highs self' = highs self ∧
     low self' = low self ∧ lows self' = lows self).
Proof.
  intros Hupd Hprice0 price down_turn up_turn.
  assert (Hframe : ∀ d s,
    high (adapt d (incr_cnt (append_gain s))) = high s ∧
    highs (adapt d (incr_cnt (append_gain s))) = highs s ∧
    low (adapt d (incr_cnt (append_gain s))) = low s ∧
    lows (adapt d (incr_cnt (append_gain s))) = lows s).
  { intros d s. unfold adapt. repeat case_match; repeat split. }
  turning_update_cases Hupd;
    rewrite Hprice0 in Hlast; injection Hlast as <-.
  - unfold down_turn, up_turn, price. cbn.
    repeat split; intros; try reflexivity; exfalso; lra.
  - unfold down_turn, up_turn. cbn.
    repeat split; intros; try reflexivity; exfalso; lia.
  - destruct Hspec as (_ & _ & _ & Hdown & Hup & Hnone).
    rewrite move_down_iff in Hdown, Hnone.
    rewrite move_up_iff in Hup, Hnone. cbn.
    split; [exact Hdown|]. split; [exact Hup | exact Hnone].
  - destruct Hspec as (_ & _ & _ & Hdown & Hup & Hnone).
    rewrite move_down_iff in Hdown, Hnone.
    rewrite move_up_iff in Hup, Hnone.
    destruct (Hframe d s1) as (-> & -> & -> & ->).
    split; [exact Hdown|]. split; [exact Hup | exact Hnone].
Qed.

Lemma reversal_records_extremum_witness :
  ∃ amount self' log,
    update (Scenario.inst_at 2 132) Scenario.turning_rising
      = Ok ((amount, self'), log) ∧
    high self' = 133 ∧ highs self' = [133].
Proof.
  destruct (update (Scenario.inst_at 2 132) Scenario.turning_rising)
    as [[[amount self'] log]|e] eqn:Hupd; [|vm_compute in Hupd; discriminate].
  exists amount, self', log. split; [reflexivity|].
  destruct (reversal_records_extremum _ _ _ _ 133 _ Hupd eq_refl)
    as (Hdown & _).
  destruct Hdown as (Hh & Hhs & _); [split; [reflexivity | qcompute]|].
  split; assumption.
Defined.

(** X27: [update] raises in two situations only: [IndexError] on an empty
    price history, and [ZeroDivisionError] at a zero price.  With a price
    history and a nonzero price it always returns. *)
Theorem turning_update_raises (inst : Instrument.t) (self : t) :
  (prices self = [] → update inst self = Err IndexError) ∧
  (prices self ≠ [] → ¬ Instrument.price inst == 0 →
   ∃ r, update inst self = Ok r) ∧
  (∀ e, update inst self = Err e →
     (e = IndexError ∧ prices self = []) ∨
     (e = ZeroDivisionError ∧ Instrument.price inst == 0)).
Proof.
  assert (Hcases :
    prices self ≠ [] →
    (∃ r, update inst self = Ok r) ∨
    (update inst self = Err ZeroDivisionError ∧ Instrument.price inst == 0)).
  { intros Hne. unfold update, last_item.
    destruct (last (prices self)) as [price0|] eqn:Hlast;
      [|apply last_None in Hlast; contradiction].
    rewrite bind_ret. cbv zeta.
    destruct (move price0 (Instrument.price inst) =? 0)%Z; [eauto|].
    destruct (direction (observe inst self) =? 0)%Z; [eauto|].
    destruct (decide_trade _ _ _) as [a s1].
    destruct (negb (Qeq_bool a 0)); [|eauto].
    destruct (Qeq_dec (Instrument.price inst) 0) as [Hz|Hnz].
    - right. split; [|exact Hz].
      unfold step, py_div. apply Qeq_bool_iff in Hz. rewrite Hz. reflexivity.
    - left. destruct (step_ok (Instrument.price inst)
                        (incr_cnt (append_gain s1)) Hnz) as (d & l & -> & _).
      unfold_M. eauto. }
  split; [|split].
  - intros Hempty. unfold update, last_item. now rewrite Hempty.
  - intros Hne Hprice. destruct (Hcases Hne) as [H|[_ H]]; [exact H | tauto].
  - intros e He. destruct (prices self) as [|p ps] eqn:Hp.
    + left. unfold update, last_item in He. rewrite Hp in He.
      injection He as <-. auto.
    + right. destruct Hcases as [[r H]|[H Hz]]; [discriminate | |].
      * rewrite H in He. discriminate He.
      * rewrite H in He. injection He as <-. auto.
Qed.

Lemma turning_update_raises_witness :
  ∃ r, update (Scenario.inst_at 2 132) Scenario.turning_rising = Ok r.
Proof.
  apply (turning_update_raises (Scenario.inst_at 2 132)
           Scenario.turning_rising); [discriminate | qcompute].
Defined.

End TurningPointMore.

(** ** The instrument object *)

Section InstrumentMore.

Import InstrumentObj.

(** X28: construction succeeds exactly when the type is "future" or
    "stock" and the id is an int, of any sign, and raises [ValueError]
    otherwise.  A new instrument has no timestamp, an empty price series,
    and NaN as its price. *)
Theorem instrument_new_validates (i : pyarg) (nm sym itype : string) :
  ((itype = "future" ∨ itype = "stock") ∧ (∃ z, i = PyInt z)
   ↔ ∃ inst, new i nm sym itype = Ok (inst, [])) ∧
  (∀ inst log, new i nm sym itype = Ok (inst, log) →
     i = PyInt (id inst) ∧ type inst = itype ∧ symbol inst = sym ∧
     name inst = nm ∧ price inst = NaN ∧ ts inst = None ∧
     prices inst = [] ∧ holdings inst = 0%Z ∧ reading inst = None) ∧
  (¬ ((itype = "future" ∨ itype = "stock") ∧ (∃ z, i = PyInt z))
   → ∃ msg, new i nm sym itype = Err (ValueError msg)).
Proof.
  unfold new.
  assert (Hvalid : String.eqb itype "future" || String.eqb itype "stock"
                   = true ↔ itype = "future" ∨ itype = "stock").
  { now rewrite orb_true_iff, !String.eqb_eq. }
  destruct (String.eqb itype "future" || String.eqb itype "stock");
    cbn [negb]; unfold_M.
  - assert (Hty : itype = "future" ∨ itype = "stock") by now apply Hvalid.
    destruct i as [z|v].
    + split; [split; eauto|].
      split; [|intros H; exfalso; apply H; eauto].
      intros inst log [= <- <-]. repeat split.
    + split; [split; [intros (_ & z & [=]) | intros [inst [=]]]|].
      split; [intros inst log [=] | eauto].
  - assert (Hty : ¬ (itype = "future" ∨ itype = "stock")).
    { intros H. apply Hvalid in H. discriminate H. }
    split; [split; [intros (H & _); contradiction | intros [inst [=]]]|].
    split; [intros inst log [=] | eauto].
Qed.

(** A negative id is an int like any other. *)
Lemma instrument_new_validates_witness :
  ∃ inst, new (PyInt (-7)) "Copper" "HG" "future" = Ok (inst, []) ∧
          id inst = (-7)%Z ∧ price inst = NaN.
Proof.
  destruct (instrument_new_validates (PyInt (-7)) "Copper" "HG" "future")
    as (Hiff & Hnew & _).
  destruct Hiff as [Hok _].
  destruct Hok as [inst Hinst]; [split; [left; reflexivity | eauto]|].
  exists inst. split; [exact Hinst|].
  destruct (Hnew inst [] Hinst) as (Hid & _ & _ & _ & Hprice & _).
  split; [injection Hid as <-; reflexivity | exact Hprice].
Defined.

(** One [update] per tick, in order. *)
Lemma update_reads_back (stamp : Timestamp) (p : Q) (inst : t) :
  price (update stamp p inst) = Finite p ∧
  ts (update stamp p inst) = Some stamp ∧
  prices (update stamp p inst) = prices inst ++ [(Some stamp, Finite p)] ∧
  reading (update stamp p inst)
    = Some {| Instrument.price := p; Instrument.ts := stamp |}.
Proof.
  unfold reading, update, price. cbn. rewrite lookup_insert_eq.
  repeat split.
Qed.

(** X29: after any sequence of updates, the price series is the series
    before followed by one entry per update, in order, each holding the
    timestamp and the price of its update; the current price, timestamp and
    reading are those of the last update; and the identity of the
    instrument (type, id, symbol, name) and its holdings are untouched. *)
Theorem instrument_update_history (ticks : list (Timestamp * Q))
    (inst : t) :
  let inst' := fold_left (λ i tick, update tick.1 tick.2 i) ticks inst in
  prices inst' =
    prices inst ++ map (λ tick, (Some tick.1, Finite tick.2)) ticks ∧
  (∀ stamp p, last ticks = Some (stamp, p) →
     price inst' = Finite p ∧ ts inst' = Some stamp ∧
     reading inst'
       = Some {| Instrument.price := p; Instrument.ts := stamp |}) ∧
  (type inst' = type inst ∧ id inst' = id inst ∧
   symbol inst' = symbol inst ∧ name inst' = name inst ∧
   holdings inst' = holdings inst).
Proof.
  cbv zeta. induction ticks as [|[stamp p] ticks IH] using rev_ind.
  - cbn. rewrite app_nil_r. split; [reflexivity|].
    split; [intros ? ? [=] | repeat split].
  - rewrite fold_left_app, map_app. cbn [fold_left map fst snd].
    destruct IH as (Hprices & _ & Hid).
    destruct (update_reads_back stamp p
                (fold_left (λ i tick, update tick.1 tick.2 i) ticks inst))
      as (Hp & Ht & Hs & Hr).
    split; [rewrite Hs, Hprices, app_assoc; reflexivity|].
    split; [|exact Hid].
    intros stamp' p' Hlast. rewrite last_snoc in Hlast.
    injection Hlast as <- <-. auto.
Qed.

Lemma instrument_update_history_witness :
  ∃ inst inst',
    new (PyInt 1) "Copper" "HG" "future" = Ok (inst, []) ∧
    inst' = update 2%Z 104 (update 1%Z 102 inst) ∧
    price inst' = Finite 104 ∧ ts inst' = Some 2%Z ∧
    prices inst' = [(Some 1%Z, Finite 102); (Some 2%Z, Finite 104)] ∧
    reading inst' = Some (Scenario.inst_at 2 104).
Proof.
  eexists _, _. split; [reflexivity|]. split; [reflexivity|].
  match goal with |- price (update _ _ (update _ _ ?i)) = _ ∧ _ =>
    destruct (instrument_update_history [(1%Z, 102); (2%Z, 104)] i)
      as (Hprices & Hlast & _)
  end.
  destruct (Hlast 2%Z 104 eq_refl) as (Hp & Ht & Hr).
  repeat split; assumption.
Defined.

End InstrumentMore.

(** ** Constructing the controller from the configuration *)

Section Configuration.

Variable float_of_str : string → option Q.

(** The constructor proper raises nothing but [ValueError]. *)
Lemma init_raises_ValueError (inst : Instrument.t) (fund unit : Q)
    (wp lp spw spl : pyval) (e : exn) :
  ThresholdControl.init float_of_str inst fund unit wp lp spw spl = Err e →
  ∃ msg, e = ValueError msg.
Proof.
  unfold ThresholdControl.init, ThresholdControl.float. unfold_M.
  repeat (match goal with
          | |- context [match ?x with _ => _ end] =>
              lazymatch x with
              | context [match _ with _ => _ end] => fail
              | _ => destruct x
              end
          end; cbv beta iota);
    first [discriminate | intros [= <-]; eauto].
Qed.

(** X30: how [ThresholdControl(inst, fund, unit, **kwargs)] reads the
    configuration.  The call is a [TypeError] exactly when a key is named
    like one of the parameters bound by position, [self], [inst], [fund] or
    [unit]; a key that is neither one of those nor one of the four
    percentages is ignored; and when the four percentages are missing the
    controller is built with the defaults 0.4, 0.2, 0.5 and 1. *)
Theorem init_kwargs_reads_configuration (inst : Instrument.t)
    (fund unit : Q) (kw : gmap string pyval) :
  (is_Some (kw !! "self") ∨ is_Some (kw !! "inst") ∨
   is_Some (kw !! "fund") ∨ is_Some (kw !! "unit")
   ↔ ∃ msg, ThresholdControl.init_kwargs float_of_str inst fund unit kw
            = Err (TypeError msg)) ∧
  (∀ (k : string) (v : pyval),
     k ∉ ["self"; "inst"; "fund"; "unit"; "winningPer"; "losingPer";
          "sellingPerWin"; "sellingPerLose"] →
     ThresholdControl.init_kwargs float_of_str inst fund unit (<[k := v]> kw)
     = ThresholdControl.init_kwargs float_of_str inst fund unit kw) ∧
  (kw !! "self" = None → kw !! "inst" = None → kw !! "fund" = None →
   kw !! "unit" = None →
   kw !! "winningPer" = None → kw !! "losingPer" = None →
   kw !! "sellingPerWin" = None → kw !! "sellingPerLose" = None →
   ∃ tc, ThresholdControl.init_kwargs float_of_str inst fund unit kw
         = Ok (tc, []) ∧
         ThresholdControl.winningPer tc = 0.4 ∧
         ThresholdControl.losingPer tc = 0.2 ∧
         ThresholdControl.sellingPerWin tc = 0.5 ∧
         ThresholdControl.sellingPerLose tc = 1 ∧
         ThresholdControl.total0 tc = fund + unit * Instrument.price inst).
Proof.
  split; [|split].
  - unfold ThresholdControl.init_kwargs.
    destruct (bool_decide (is_Some (kw !! "self"))
              || bool_decide (is_Some (kw !! "inst"))
              || bool_decide (is_Some (kw !! "fund"))
              || bool_decide (is_Some (kw !! "unit"))) eqn:Hb.
    + split; [eauto|]. intros _.
      rewrite !orb_true_iff, !bool_decide_eq_true in Hb. tauto.
    + split.
      * intros Hclash. exfalso.
        rewrite !orb_false_iff, !bool_decide_eq_false in Hb. tauto.
      * intros [msg Herr].
        destruct (init_raises_ValueError _ _ _ _ _ _ _ _ Herr) as [? [=]].
  - intros k v Hk. unfold ThresholdControl.init_kwargs.
    rewrite !lookup_insert_ne; [reflexivity|..];
      intros ->; apply Hk; set_solver.
  - intros H0 H1 H2 H3 H4 H5 H6 H7. unfold ThresholdControl.init_kwargs.
    rewrite H0, H1, H2, H3, H4, H5, H6, H7.
    eexists. split; [reflexivity|]. repeat split.
Qed.

End Configuration.

Lemma init_kwargs_reads_configuration_witness :
  (∃ tc,
     ThresholdControl.init_kwargs Scenario.no_float (Scenario.inst_at 0 100)
       500 5 {[ "mode_chase" := PyStr "chase" ]} = Ok (tc, []) ∧
     ThresholdControl.winningPer tc = 0.4 ∧
     ThresholdControl.total0 tc = 500 + 5 * 100) ∧
  (∃ msg,
     ThresholdControl.init_kwargs Scenario.no_float (Scenario.inst_at 0 100)
       500 5 {[ "self" := PyFloat 1 ]} = Err (TypeError msg)).
Proof.
  split.
  - destruct (init_kwargs_reads_configuration Scenario.no_float
                (Scenario.inst_at 0 100) 500 5
                {[ "mode_chase" := PyStr "chase" ]}) as (_ & _ & Hdefault).
    destruct Hdefault as (tc & Hinit & Hwp & _ & _ & _ & Htotal);
      try reflexivity.
    exists tc. repeat split; assumption.
  - destruct (init_kwargs_reads_configuration Scenario.no_float
                (Scenario.inst_at 0 100) 500 5
                {[ "self" := PyFloat 1 ]}) as ([Hclash _] & _).
    apply Hclash. left. vm_compute. eauto.
Defined.
